(** * Stock-risk evaluation of the PPIC dashboard (app.py / final.py)

    The two Streamlit applications share one piece of business logic:
    [process_dashboard_data] with its inner [get_status] (the batch path,
    tab 1), the handler of the "Jalankan Analisis" button (the scalar path,
    tab 2) and the urgency sort of tab 1.  This file embeds that logic and
    proves its properties.

    Numbers are IEEE-754 binary64 values, as Python's [float] and the
    float64 columns of pandas are: Rocq's primitive floats, with their
    infinities, NaN and signed zeros.  The classifier ([model.predict]) is
    an opaque object that may keep state and may raise; calls to it are
    recorded in the world that the evaluation threads. *)

From Stdlib Require Import Floats ZArith PArith List String Bool Lia.
From Stdlib Require Import Sorting.Sorted Sorting.Permutation.
From Stdlib Require Import Structures.OrdersEx Classes.RelationClasses.
Import ListNotations.

Set Implicit Arguments.

Local Open Scope string_scope.
Local Open Scope list_scope.

(* ================================================================== *)
(** ** Float64 values the code meets *)
(* ================================================================== *)

Module Float64.

Local Open Scope float_scope.

(** [float('inf')] and NaN as the code meets them. *)
Definition inf : float := infinity.

Definition is_pos_inf (x : float) : bool :=
  match Prim2SF x with S754_infinity false => true | _ => false end.

Definition isnan (x : float) : bool :=
  match Prim2SF x with S754_nan => true | _ => false end.

(** A finite value: neither an infinity nor NaN. *)
Definition isfinite (x : float) : bool :=
  match Prim2SF x with
  | S754_zero _ | S754_finite _ _ _ => true
  | _ => false
  end.

(** The sign bit is clear: [+0.0], a positive number or [+inf]. *)
Definition sign_clear (x : float) : bool :=
  match Prim2SF x with
  | S754_zero false | S754_finite false _ _ | S754_infinity false => true
  | _ => false
  end.

(** On the specification side: a value that is not below zero, that is,
    one whose sign bit is clear, or NaN. *)
Definition not_negative (x : spec_float) : bool :=
  match x with
  | S754_zero s | S754_infinity s | S754_finite s _ _ => negb s
  | S754_nan => true
  end.

End Float64.

(* ================================================================== *)
(** ** Python values and effects *)
(* ================================================================== *)

(** A raised Python exception: its class name and its message. *)
Record exn : Type := Exn { exn_class : string; exn_msg : string }.

(** What a call produces: a value, or an exception that unwinds. *)
Inductive outcome (A : Type) : Type :=
| Returned (a : A)
| Raised (e : exn).

Arguments Returned {A} a.
Arguments Raised {A} e.

(** The one-row frame handed to [model.predict]:
    [pd.DataFrame([{'seksi_tujuan': .., 'nama_komponen': ..,
                    'stok_tersedia': .., 'lead_time': ..}])]. *)
Record input_data : Type := InputData {
  in_seksi_tujuan : string;
  in_nama_komponen : string;
  in_stok_tersedia : float;
  in_lead_time : float
}.

(** The loaded pipeline, [model]: [model.predict(input_data)[0]] yields a
    label or raises, and may change the object's internal state [St]. *)
Definition Model (St : Type) : Type := input_data -> St -> outcome string * St.

(** The world an evaluation runs in: the model's state, and the list of
    frames [model.predict] has been called with so far (oldest first). *)
Record world (St : Type) : Type := World {
  model_state : St;
  predict_calls : list input_data
}.

(** Computations that read and change the world and may raise. *)
Definition M (St A : Type) : Type := world St -> outcome A * world St.

Definition ret {St A : Type} (a : A) : M St A := fun w => (Returned a, w).

Definition bind {St A B : Type} (m : M St A) (k : A -> M St B) : M St B :=
  fun w =>
    match m w with
    | (Returned a, w') => k a w'
    | (Raised e, w') => (Raised e, w')
    end.

Declare Scope py_scope.
Delimit Scope py_scope with py.
Notation "x <- m ;; k" := (bind m (fun x => k))
  (at level 61, m at next level, right associativity) : py_scope.
Local Open Scope py_scope.

(** [model.predict(x)[0]]: the call is logged, the model's state moves on,
    and the label or the exception is what the caller sees. *)
Definition model_predict {St : Type} (model : Model St) (x : input_data)
  : M St string :=
  fun w =>
    let (r, s') := model x (model_state w) in
    (r, {| model_state := s'; predict_calls := predict_calls w ++ [x] |}).

(** [DataFrame.apply(f, axis=1)] on a frame with at least one row: [f] on
    each row in order; an exception raised by [f] unwinds out of [apply].
    (On a frame without rows pandas calls [f] once on a row of NaN to
    learn the shape of the result, and swallows what that call raises.
    Both callers of [process_dashboard_data] pass [data_on_date] only when
    it is not empty, and the statements about the calls made in a batch
    are about such frames.) *)
Fixpoint apply_rows {St A B : Type} (f : A -> M St B) (rows : list A)
  : M St (list B) :=
  match rows with
  | [] => ret []
  | r :: rest =>
      v <- f r ;;
      vs <- apply_rows f rest ;;
      ret (v :: vs)
  end.

(** Running a computation: its outcome and the world it leaves. *)
Definition outcome_of {St A : Type} (m : M St A) (w : world St) : outcome A :=
  fst (m w).

Definition world_after {St A : Type} (m : M St A) (w : world St) : world St :=
  snd (m w).

(* ================================================================== *)
(** ** numpy's rounding, as [DataFrame.round(1)] applies it *)
(* ================================================================== *)

Module Numpy.

Local Open Scope float_scope.

Definition two52 : float := 0x1p+52.

(** [numpy.rint]: round to the nearest integer, ties to even.  Below
    [2^52] in magnitude, adding and subtracting [2^52] rounds to an
    integer in the current (nearest-even) mode; from [2^52] on every float
    is an integer already; NaN and the infinities are returned as they
    are, and the sign of the argument is kept. *)
Definition rint (x : float) : float :=
  if abs x <? two52 then
    if x =? 0 then x
    else if x <? 0 then - ((- x + two52) - two52)
    else (x + two52) - two52
  else x.

(** [numpy.around(x, decimals=1)] on a float64: scale by ten, [rint],
    scale back. *)
Definition round1 (x : float) : float := rint (x * 10) / 10.

End Numpy.

(* ================================================================== *)
(** ** What rounding to one decimal comes to *)
(* ================================================================== *)

Module Decimal.

Local Open Scope Z_scope.

(** [k] is the integer nearest to [num / den], the even one when two are
    equally near. *)
Definition nearest_even (num den k : Z) : Prop :=
  Z.abs (2 * (k * den - num)) <= den /\
  (Z.abs (2 * (k * den - num)) = den -> Z.even k = true).

(** The magnitude [m * 2^e] of a finite float, as a fraction. *)
Definition numerator (m : positive) (e : Z) : Z := Z.pos m * 2 ^ Z.max e 0.

Definition denominator (e : Z) : Z := 2 ^ Z.max (- e) 0.

(** The float [f] is the integer [k], with sign bit [s]. *)
Definition is_integer (f : spec_float) (s : bool) (k : Z) : Prop :=
  match f with
  | S754_zero s' => s' = s /\ k = 0
  | S754_finite s' m e => s' = s /\ numerator m e = k * denominator e
  | _ => False
  end.

(** [N] is [y] rounded to the nearest integer, to the even one on a tie,
    with the sign of [y]; a zero, an infinity and NaN are left as they
    are. *)
Definition nearest_integer (y N : float) : Prop :=
  match Prim2SF y with
  | S754_finite s m e =>
      exists k, is_integer (Prim2SF N) s k /\
                nearest_even (numerator m e) (denominator e) k
  | _ => N = y
  end.

(** [t] is [x] rounded to one decimal: the float64 product of [x] and 10
    is rounded to the nearest integer, and [t] is the float64 quotient of
    that integer by 10. *)
Definition one_decimal (x t : float) : Prop :=
  exists N : float, nearest_integer (x * 10)%float N /\ t = (N / 10)%float.

(** The exact value of [x] cut after its first decimal, in tenths:
    [floor (10 * |x|)] with the sign of [x]; nothing for an infinity or
    NaN. *)
Definition first_decimal (x : float) : option Z :=
  match Prim2SF x with
  | S754_zero _ => Some 0
  | S754_finite s m e =>
      Some (cond_Zopp s (10 * numerator m e / denominator e))
  | _ => None
  end.

(** [2^52], the constant of [Numpy.rint], as a mantissa. *)
Definition T52 : positive := 4503599627370496.

(** [mrs] is [M] shifted right by [j + 1] bits: the quotient, the bit
    shifted out last, and whether a nonzero bit was shifted out before
    it. *)
Definition shifted (M : Z) (j : nat) (mrs : shr_record) : Prop :=
  exists t,
    M = shr_m mrs * (2 * 2 ^ Z.of_nat j)
        + (if shr_r mrs then 2 ^ Z.of_nat j else 0) + t /\
    0 <= t < 2 ^ Z.of_nat j /\
    shr_s mrs = negb (t =? 0) /\
    0 <= shr_m mrs.

End Decimal.

(* ================================================================== *)
(** ** The data frames *)
(* ================================================================== *)

(** A row of [dummy_dataset.csv] ([df_raw]).  The numeric columns are
    float64; a column that pandas reads as int64 holds the same numbers,
    and its division is the float64 one. *)
Record raw_row : Type := RawRow {
  tanggal : string;
  seksi_tujuan : string;
  nama_komponen : string;
  stok_tersedia : float;
  konsumsi_per_jam : float;
  lead_time : float
}.

(** A row of [dashboard_df] once its two derived columns are set. *)
Record dashboard_row : Type := DashboardRow {
  raw : raw_row;
  waktu_habis_stok : float;
  selisih_waktu : float
}.

(** A row of the table [process_dashboard_data] returns (columns renamed). *)
Record result_row : Type := ResultRow {
  Tanggal : string;
  Seksi_Tujuan : string;
  Nama_Komponen : string;
  Status : string;
  Stok : float;
  Sisa_Waktu_Jam : float;
  Lead_Time_Jam : float;
  Buffer_Waktu_Jam : float
}.

(* ================================================================== *)
(** ** [process_dashboard_data] (app.py 47-64, final.py 98-115) *)
(* ================================================================== *)

Section Dashboard.

Variable St : Type.
Variable model : Model St.

(** [dashboard_df['waktu_habis_stok'] = stok_tersedia / konsumsi_per_jam]
    [dashboard_df['selisih_waktu'] = waktu_habis_stok - lead_time]
    pandas divides element-wise in float64: no guard, no exception. *)
Definition derive_columns (r : raw_row) : dashboard_row :=
  let waktu := (stok_tersedia r / konsumsi_per_jam r)%float in
  {| raw := r;
     waktu_habis_stok := waktu;
     selisih_waktu := (waktu - lead_time r)%float |}.

Definition input_of_row (row : dashboard_row) : input_data :=
  {| in_seksi_tujuan := seksi_tujuan (raw row);
     in_nama_komponen := nama_komponen (raw row);
     in_stok_tersedia := stok_tersedia (raw row);
     in_lead_time := lead_time (raw row) |}.

(** [get_status(row)] (app.py 51-56). *)
Definition get_status (row : dashboard_row) : M St string :=
  if (selisih_waktu row <=? 0)%float then ret "Merah"
  else
    pred <- model_predict model (input_of_row row) ;;
    ret (if String.eqb pred "Merah" then "Kuning" else pred).

(** Selection and renaming of the columns, with the row's status. *)
Definition select_rename (row : dashboard_row) (status : string) : result_row :=
  {| Tanggal := tanggal (raw row);
     Seksi_Tujuan := seksi_tujuan (raw row);
     Nama_Komponen := nama_komponen (raw row);
     Status := status;
     Stok := stok_tersedia (raw row);
     Sisa_Waktu_Jam := waktu_habis_stok row;
     Lead_Time_Jam := lead_time (raw row);
     Buffer_Waktu_Jam := selisih_waktu row |}.

(** [result_df.round(1)]: every numeric column is rounded, the text
    columns are left alone. *)
Definition round_row (t : result_row) : result_row :=
  {| Tanggal := Tanggal t;
     Seksi_Tujuan := Seksi_Tujuan t;
     Nama_Komponen := Nama_Komponen t;
     Status := Status t;
     Stok := Numpy.round1 (Stok t);
     Sisa_Waktu_Jam := Numpy.round1 (Sisa_Waktu_Jam t);
     Lead_Time_Jam := Numpy.round1 (Lead_Time_Jam t);
     Buffer_Waktu_Jam := Numpy.round1 (Buffer_Waktu_Jam t) |}.

Definition result_of (row : dashboard_row) (status : string) : result_row :=
  round_row (select_rename row status).

Definition process_dashboard_data (df : list raw_row)
  : M St (list result_row) :=
  let dashboard_df := map derive_columns df in
  statuses <- apply_rows get_status dashboard_df ;;
  ret (map (fun p => result_of (fst p) (snd p))
           (combine dashboard_df statuses)).

(* ================================================================== *)
(** ** The "Jalankan Analisis" handler (app.py 162-175, final.py 238-254) *)
(* ================================================================== *)

(** [input_stok / konsumsi_per_jam if konsumsi_per_jam > 0 else float('inf')]
    ([input_stok] is an [int] of the number input, below [2^53]: the
    division converts it to the float of the same value.) *)
Definition sim_waktu_habis_stok (input_stok konsumsi : float) : float :=
  if (0 <? konsumsi)%float then (input_stok / konsumsi)%float
  else Float64.inf.

Definition sim_selisih_waktu (input_stok konsumsi input_lead_time : float)
  : float :=
  (sim_waktu_habis_stok input_stok konsumsi - input_lead_time)%float.

(** What the handler has computed when it starts rendering. *)
Record analysis : Type := Analysis {
  an_waktu_habis_stok : float;
  an_selisih_waktu : float;
  final_prediksi : string
}.

(** The handler's body ([if predict_button:]).  [None] is the branch that
    reports an unknown (section, component) pair and computes nothing.
    In final.py the same body runs once a lead time has been estimated,
    with that estimate as [input_lead_time]. *)
Definition predict_button_handler
    (konsumsi_map : string -> string -> option float)
    (selected_seksi selected_komponen : string)
    (input_stok input_lead_time : float) : M St (option analysis) :=
  match konsumsi_map selected_seksi selected_komponen with
  | None => ret None
  | Some konsumsi =>
      let waktu := sim_waktu_habis_stok input_stok konsumsi in
      let selisih := (waktu - input_lead_time)%float in
      if (selisih <=? 0)%float then
        ret (Some {| an_waktu_habis_stok := waktu;
                     an_selisih_waktu := selisih;
                     final_prediksi := "Merah" |})
      else
        pred <- model_predict model
                  {| in_seksi_tujuan := selected_seksi;
                     in_nama_komponen := selected_komponen;
                     in_stok_tersedia := input_stok;
                     in_lead_time := input_lead_time |} ;;
        ret (Some {| an_waktu_habis_stok := waktu;
                     an_selisih_waktu := selisih;
                     final_prediksi :=
                       if String.eqb pred "Merah" then "Kuning" else pred |})
  end.

End Dashboard.

(* ================================================================== *)
(** ** Tab 1: filter and urgency sort (app.py 118, 132-133) *)
(* ================================================================== *)

Module Tab1.

Import Float64.

(** [status_options = ['Merah', 'Kuning', 'Hijau']]: what the multiselect
    offers, so [selected_statuses] is drawn from it. *)
Definition status_options : list string := ["Merah"; "Kuning"; "Hijau"].

(** [dashboard_data[dashboard_data['Status'].isin(selected_statuses)]] *)
Definition isin (selected_statuses : list string) (t : result_row) : bool :=
  existsb (String.eqb (Status t)) selected_statuses.

Definition filtered_dashboard (selected_statuses : list string)
    (dashboard_data : list result_row) : list result_row :=
  filter (isin selected_statuses) dashboard_data.

(** [Status.map({'Merah': 0, 'Kuning': 1, 'Hijau': 2})]: a status missing
    from the dict maps to NaN, here [None]. *)
Definition SortKey (status : string) : option nat :=
  if String.eqb status "Merah" then Some 0
  else if String.eqb status "Kuning" then Some 1
  else if String.eqb status "Hijau" then Some 2
  else None.

(** Ascending order of one sort column with pandas' default
    [na_position='last']. *)
Definition key_leb (a b : option nat) : bool :=
  match a, b with
  | _, None => true
  | None, Some _ => false
  | Some x, Some y => Nat.leb x y
  end.

Definition key_eqb (a b : option nat) : bool :=
  match a, b with
  | None, None => true
  | Some x, Some y => Nat.eqb x y
  | _, _ => false
  end.

Definition buffer_leb (a b : float) : bool :=
  if isnan b then true
  else if isnan a then false
  else (a <=? b)%float.

(** The lexicographic order of [by=['SortKey', 'Buffer Waktu (Jam)']]. *)
Definition urgency_leb (t1 t2 : result_row) : bool :=
  let k1 := SortKey (Status t1) in
  let k2 := SortKey (Status t2) in
  if key_eqb k1 k2 then buffer_leb (Buffer_Waktu_Jam t1) (Buffer_Waktu_Jam t2)
  else key_leb k1 k2.

(** [DataFrame.sort_values] on several columns is a stable sort by the
    lexicographic key: rows with equal keys keep their order.  A row goes
    in front of the first row it does not come after. *)
Fixpoint insert_row (t : result_row) (sorted : list result_row)
  : list result_row :=
  match sorted with
  | [] => [t]
  | h :: rest =>
      if urgency_leb t h then t :: sorted else h :: insert_row t rest
  end.

Fixpoint sort_values (table : list result_row) : list result_row :=
  match table with
  | [] => []
  | t :: rest => insert_row t (sort_values rest)
  end.

(** Two rows that the sort cannot tell apart: each comes no later than
    the other. *)
Definition tied (c t : result_row) : bool :=
  urgency_leb c t && urgency_leb t c.

(** [sorted_df]: the filtered table in display order (the [SortKey] column
    is added for the sort and dropped after it). *)
Definition sorted_df (selected_statuses : list string)
    (dashboard_data : list result_row) : list result_row :=
  sort_values (filtered_dashboard selected_statuses dashboard_data).

End Tab1.

(* ================================================================== *)
(** ** Properties of rows, models and batches *)
(* ================================================================== *)

(** The test [row['selisih_waktu'] <= 0] of [get_status]. *)
Definition decided (row : dashboard_row) : bool :=
  (selisih_waktu row <=? 0)%float.

Definition consulted (row : dashboard_row) : bool := negb (decided row).

(** The status [get_status] makes of a label:
    ['Kuning' if pred == 'Merah' else pred]. *)
Definition remap (pred : string) : string :=
  if String.eqb pred "Merah" then "Kuning" else pred.

(** A row of the returned table against the row of the data it came from:
    each numeric column is [round(1)] of the value computed for it. *)
Definition rounded_from (r : raw_row) (t : result_row) : Prop :=
  Stok t = Numpy.round1 (stok_tersedia r) /\
  Sisa_Waktu_Jam t =
    Numpy.round1 (stok_tersedia r / konsumsi_per_jam r)%float /\
  Lead_Time_Jam t = Numpy.round1 (lead_time r) /\
  Buffer_Waktu_Jam t =
    Numpy.round1 (stok_tersedia r / konsumsi_per_jam r - lead_time r)%float.

(** A deterministic classifier: the label (or the exception) it answers
    with depends on the frame it is given only, not on its state. *)
Definition deterministic {St : Type} (model : Model St) : Prop :=
  forall x s s', fst (model x s) = fst (model x s').

(** A classifier whose labels all lie in the three-level vocabulary. *)
Definition three_level (label : string) : Prop :=
  label = "Merah" \/ label = "Kuning" \/ label = "Hijau".

(** Isolation of classifier failures in a batch: every row whose own
    evaluation yields a status has its assessment, with that status, in
    the table the batch returns. *)
Definition isolates_failures {St : Type} (model : Model St)
    (df : list raw_row) (w : world St) : Prop :=
  forall i r s,
    nth_error df i = Some r ->
    outcome_of (get_status model (derive_columns r)) w = Returned s ->
    exists table t,
      outcome_of (process_dashboard_data model df) w = Returned table /\
      nth_error table i = Some t /\ Status t = s.

(** One assessment is more urgent than another as the specification
    words it: its status comes first in the order "Merah", "Kuning",
    "Hijau", or the statuses are equal and its buffer time is smaller. *)
Definition more_urgent (ri : raw_row) (ti : result_row)
    (rj : raw_row) (tj : result_row) : Prop :=
  (exists a b, Tab1.SortKey (Status ti) = Some a /\
               Tab1.SortKey (Status tj) = Some b /\ (a < b)%nat) \/
  (Status ti = Status tj /\
   (selisih_waktu (derive_columns ri)
      <? selisih_waktu (derive_columns rj))%float = true).

(** The same with the buffer the table shows in place of the buffer
    time. *)
Definition more_urgent_as_shown (ti tj : result_row) : Prop :=
  (exists a b, Tab1.SortKey (Status ti) = Some a /\
               Tab1.SortKey (Status tj) = Some b /\ (a < b)%nat) \/
  (Status ti = Status tj /\
   (Buffer_Waktu_Jam ti <? Buffer_Waktu_Jam tj)%float = true).

(** [ti] is displayed somewhere above [tj]. *)
Definition shown_before (shown : list result_row) (ti tj : result_row)
  : Prop :=
  exists i' j',
    (i' < j')%nat /\ nth_error shown i' = Some ti /\
    nth_error shown j' = Some tj.

(** The display order as the specification words it: of two selected
    assessments of a batch, the more urgent one, by status and then by
    buffer time, is displayed above the other. *)
Definition ranked_by_buffer_time {St : Type} (model : Model St)
    (df : list raw_row) (w : world St) (selected_statuses : list string)
  : Prop :=
  forall table,
    outcome_of (process_dashboard_data model df) w = Returned table ->
    forall i j ri rj ti tj,
      nth_error df i = Some ri -> nth_error df j = Some rj ->
      nth_error table i = Some ti -> nth_error table j = Some tj ->
      In (Status ti) selected_statuses ->
      In (Status tj) selected_statuses ->
      more_urgent ri ti rj tj ->
      shown_before (Tab1.sorted_df selected_statuses table) ti tj.

(** Ties as the specification words them: two assessments of a batch with
    the same status whose buffer times differ only beyond the first
    decimal compare as equal in the urgency order. *)
Definition ties_beyond_first_decimal {St : Type} (model : Model St)
    (df : list raw_row) (w : world St) : Prop :=
  forall table,
    outcome_of (process_dashboard_data model df) w = Returned table ->
    forall i j ri rj ti tj,
      nth_error df i = Some ri -> nth_error df j = Some rj ->
      nth_error table i = Some ti -> nth_error table j = Some tj ->
      Status ti = Status tj ->
      Decimal.first_decimal (selisih_waktu (derive_columns ri)) <> None ->
      Decimal.first_decimal (selisih_waktu (derive_columns ri)) =
      Decimal.first_decimal (selisih_waktu (derive_columns rj)) ->
      Tab1.urgency_leb ti tj = true /\ Tab1.urgency_leb tj ti = true.

(* ================================================================== *)
(** ** Concrete models, rows and worlds *)
(* ================================================================== *)

Module Samples.

Local Open Scope float_scope.

(** A stateless model that answers every frame with one label. *)
Definition always (label : string) : Model unit :=
  fun _ s => (Returned label, s).

(** A stub that raises whenever it is called. *)
Definition raising_stub : Model unit :=
  fun _ s => (Raised (Exn "RuntimeError" "classifier called"), s).

(** A model that fails on the component "Baut" and answers "Hijau" on
    every other frame. *)
Definition fails_on_Baut : Model unit :=
  fun x s =>
    if String.eqb (in_nama_komponen x) "Baut"
    then (Raised (Exn "ValueError" "unknown category"), s)
    else (Returned "Hijau", s).

(** A model that counts its calls and answers by the frame alone. *)
Definition counting (label : string) : Model nat :=
  fun _ n => (Returned label, S n).

Definition w0 : world unit := {| model_state := tt; predict_calls := [] |}.

Definition n0 : world nat := {| model_state := O; predict_calls := [] |}.

Definition row (komponen : string) (stok konsumsi lead : float) : raw_row :=
  {| tanggal := "2024-01-01"; seksi_tujuan := "Press";
     nama_komponen := komponen;
     stok_tersedia := stok; konsumsi_per_jam := konsumsi;
     lead_time := lead |}.

(** Scenarios A, B and C: stock 100, 20 and 60 at 10 per hour, lead time 5. *)
Definition row_A : raw_row := row "Mur" 100 10 5.
Definition row_B : raw_row := row "Mur" 20 10 5.
Definition row_C : raw_row := row "Mur" 60 10 5.

(** No stock and no consumption. *)
Definition row_00 : raw_row := row "Mur" 0 0 2.

(** Stock left, no consumption. *)
Definition row_50 : raw_row := row "Mur" 5 0 2.

(** A row on which [fails_on_Baut] raises, its buffer being positive. *)
Definition row_Baut : raw_row := row "Baut" 100 10 5.

(** Buffers 1.04 and 1.01 hours (stock 10.4 and 10.1 at 10 per hour, no
    lead time), both displayed as 1.0. *)
Definition row_104 : raw_row := row "Mur" 0x1.4cccccccccccdp+3 10 0.
Definition row_101 : raw_row := row "Mur" 0x1.4333333333333p+3 10 0.

(** A buffer of 1.06 hours (stock 10.6), displayed as 1.1. *)
Definition row_106 : raw_row := row "Mur" 0x1.5333333333333p+3 10 0.

Definition konsumsi_of (k : float) : string -> string -> option float :=
  fun _ _ => Some k.

Definition table_row (status : string) (buffer : float) : result_row :=
  {| Tanggal := "2024-01-01"; Seksi_Tujuan := "Press";
     Nama_Komponen := "Mur"; Status := status;
     Stok := 10; Sisa_Waktu_Jam := buffer; Lead_Time_Jam := 0;
     Buffer_Waktu_Jam := buffer |}.

End Samples.

(* ================================================================== *)
(** ** Tab 1: the metrics, the hot-spot chart and the colours
       (app.py 66-70, 117-126, 139-146; final.py 117-121, 163-171, 181-188) *)
(* ================================================================== *)

Module Tab1View.

Import Tab1.

(** [color_status(val)] of [style_dashboard_text_color], applied to each
    cell of the 'Status' column. *)
Definition color_status (val : string) : string :=
  let color :=
    if String.eqb val "Merah" then "#E74C3C"
    else if String.eqb val "Kuning" then "#F1C40F"
    else "#2ECC71" in
  "color: " ++ color ++ "; font-weight: bold;".

(** [filtered_dashboard[filtered_dashboard['Status'] == status].shape[0]] *)
Definition status_count (status : string) (filtered : list result_row) : nat :=
  List.length (filter (fun t => String.eqb (Status t) status) filtered).

Definition merah_count : list result_row -> nat := status_count "Merah".

Definition kuning_count : list result_row -> nat := status_count "Kuning".

(** [filtered_dashboard.shape[0]] *)
Definition total_count (filtered : list result_row) : nat :=
  List.length filtered.

(** [filtered_dashboard[filtered_dashboard['Status'].isin(['Merah', 'Kuning'])]] *)
Definition hotspot_data (filtered : list result_row) : list result_row :=
  filter (isin ["Merah"; "Kuning"]) filtered.

(** One more row of group [key]: its count goes up, or the group is
    opened at its place in the ascending order of the keys. *)
Fixpoint count_in (key : string) (groups : list (string * nat))
  : list (string * nat) :=
  match groups with
  | [] => [(key, 1%nat)]
  | (k, n) :: rest =>
      match String_as_OT.compare key k with
      | Eq => (k, S n) :: rest
      | Lt => (key, 1%nat) :: groups
      | Gt => (k, n) :: count_in key rest
      end
  end.

(** [groupby(key).count()] on a column without missing values: one entry
    for each distinct key, keys ascending, with the number of rows of the
    group. *)
Definition groupby_count (keys : list string) : list (string * nat) :=
  fold_left (fun groups key => count_in key groups) keys [].

(** The count recorded for a key, 0 when the key has no group. *)
Fixpoint count_of (key : string) (groups : list (string * nat)) : nat :=
  match groups with
  | [] => 0%nat
  | (k, n) :: rest => if String.eqb key k then n else count_of key rest
  end.

(** The keys of the groups are in strictly ascending order. *)
Definition keys_ascending (groups : list (string * nat)) : Prop :=
  StronglySorted String_as_OT.lt (map fst groups).

(** The number of rows of [keys] that carry [k]. *)
Definition occurrences (k : string) (keys : list string) : nat :=
  List.length (filter (String.eqb k) keys).

(** [hotspot_data.groupby('Seksi Tujuan')['Status'].count()
      .sort_values(ascending=True)].
    [Series.sort_values] sorts with numpy's default quicksort, which
    fixes no order among equal counts: the sort is an argument here. *)
Definition hotspot_count
    (sort_values : list (string * nat) -> list (string * nat))
    (filtered : list result_row) : list (string * nat) :=
  sort_values (groupby_count (map Seksi_Tujuan (hotspot_data filtered))).

(** A sort of the groups by ascending count: insertion from the right,
    in front of the first group that is not smaller. *)
Fixpoint insert_group (g : string * nat) (sorted : list (string * nat))
  : list (string * nat) :=
  match sorted with
  | [] => [g]
  | h :: rest =>
      if Nat.leb (snd g) (snd h) then g :: sorted
      else h :: insert_group g rest
  end.

Fixpoint sort_by_count (groups : list (string * nat)) : list (string * nat) :=
  match groups with
  | [] => []
  | g :: rest => insert_group g (sort_by_count rest)
  end.

End Tab1View.

(* ================================================================== *)
(** ** The holiday notice (app.py 86-96, final.py 140-148) *)
(* ================================================================== *)

Module Holidays.

Local Open Scope Z_scope.

(** A [pd.Timestamp]: the day (its proleptic Gregorian ordinal, as
    [date.toordinal()]) and the time within the day.  [date.date()] is
    the day; [date.strftime('%Y-%m-%d')] prints the day and nothing else,
    one string per day, so the string is represented by the day. *)
Record Timestamp : Type := MkTimestamp { ts_day : Z; ts_nanos : N }.

(** A Python [dict] with days as keys: the items in insertion order.
    Setting a key that is present replaces its value in place. *)
Fixpoint dict_set {V : Type} (key : Z) (v : V) (d : list (Z * V))
  : list (Z * V) :=
  match d with
  | [] => [(key, v)]
  | (k, v') :: rest =>
      if Z.eqb key k then (k, v) :: rest else (k, v') :: dict_set key v rest
  end.

Fixpoint dict_get {V : Type} (key : Z) (d : list (Z * V)) : option V :=
  match d with
  | [] => None
  | (k, v) :: rest => if Z.eqb key k then Some v else dict_get key rest
  end.

(** [[today + timedelta(days=i) for i in range(8)]] *)
Definition next_7_days (today : Z) : list Z :=
  map (fun i => today + Z.of_nat i) (seq 0 8).

(** [{date.strftime('%Y-%m-%d'): name
      for date, name in holidays_data.items()
      if date.date() in next_7_days}] *)
Definition upcoming_holidays (today : Z)
    (holidays_data : list (Timestamp * string)) : list (Z * string) :=
  fold_left
    (fun upcoming item =>
       if existsb (Z.eqb (ts_day (fst item))) (next_7_days today)
       then dict_set (ts_day (fst item)) (snd item) upcoming
       else upcoming)
    holidays_data [].

(** What the notice shows: a warning for each upcoming holiday, or the
    all-clear. *)
Inductive notice : Type :=
| Perhatian (name : string) (date_str : Z)
| Tidak_ada_hari_libur.

Definition holiday_notices (today : Z)
    (holidays_data : list (Timestamp * string)) : list notice :=
  match upcoming_holidays today holidays_data with
  | [] => [Tidak_ada_hari_libur]
  | upcoming => map (fun item => Perhatian (snd item) (fst item)) upcoming
  end.

(** What the dict holds after some of the items have been gone through. *)
Definition holds (today : Z) (seen : list (Timestamp * string))
    (upcoming : list (Z * string)) : Prop :=
  NoDup (map fst upcoming) /\
  (forall d name,
      dict_get d upcoming = Some name ->
      today <= d <= today + 7 /\
      exists ts, In (ts, name) seen /\ ts_day ts = d) /\
  (forall ts name,
      In (ts, name) seen -> today <= ts_day ts <= today + 7 ->
      exists name', dict_get (ts_day ts) upcoming = Some name').

End Holidays.

(* ================================================================== *)
(** ** [get_public_holidays] (app.py 19-30, final.py 33-42) *)
(* ================================================================== *)

Module PublicHolidays.

Import Holidays.

(** A value of [response.json()]. *)
Unset Elimination Schemes.
Inductive json : Type :=
| JNull
| JBool (b : bool)
| JInt (n : Z)
| JFloat (x : float)
| JString (s : string)
| JArray (items : list json)
| JObject (members : list (string * json)).
Set Elimination Schemes.

(** [bool(x)], as an [if] takes it. *)
Definition truthy (x : json) : bool :=
  match x with
  | JNull => false
  | JBool b => b
  | JInt n => negb (Z.eqb n 0)
  | JFloat x => negb (PrimFloat.eqb x 0)
  | JString s => negb (String.eqb s "")
  | JArray items => match items with [] => false | _ => true end
  | JObject members => match members with [] => false | _ => true end
  end.

(** [h.get(key)]: [None] when the key is missing. *)
Fixpoint get (key : string) (h : list (string * json)) : option json :=
  match h with
  | [] => None
  | (k, v) :: rest => if String.eqb key k then Some v else get key rest
  end.

(** [h[key]]: [KeyError] when the key is missing. *)
Definition subscript (key : string) (h : list (string * json)) : outcome json :=
  match get key h with
  | Some v => Returned v
  | None => Raised (Exn "KeyError" ("'" ++ key ++ "'"))
  end.

Definition ts_eqb (a b : Timestamp) : bool :=
  Z.eqb (ts_day a) (ts_day b) && N.eqb (ts_nanos a) (ts_nanos b).

(** The returned dict: timestamps to names, in insertion order. *)
Fixpoint ts_set (key : Timestamp) (v : json) (d : list (Timestamp * json))
  : list (Timestamp * json) :=
  match d with
  | [] => [(key, v)]
  | (k, v') :: rest =>
      if ts_eqb key k then (k, v) :: rest else (k, v') :: ts_set key v rest
  end.

Fixpoint ts_get (key : Timestamp) (d : list (Timestamp * json)) : option json :=
  match d with
  | [] => None
  | (k, v) :: rest => if ts_eqb key k then Some v else ts_get key rest
  end.

(** What [requests.get] comes to: a [RequestException], or a response
    with its status code and, decoded, its body: an array of objects. *)
Inductive response : Type :=
| RequestException
| Response (status_code : Z) (holidays : list (list (string * json))).

Section ToDatetime.

(** [pd.to_datetime]: a timestamp, or the exception it raises. *)
Variable to_datetime : json -> outcome Timestamp.

(** One item of the dict comprehension: the key expression, then the
    value expression, then the store. *)
Definition add_holiday (h : list (string * json))
    (d : list (Timestamp * json)) : outcome (list (Timestamp * json)) :=
  match subscript "holiday_date" h with
  | Raised e => Raised e
  | Returned date =>
      match to_datetime date with
      | Raised e => Raised e
      | Returned ts =>
          match subscript "holiday_name" h with
          | Raised e => Raised e
          | Returned name => Returned (ts_set ts name d)
          end
      end
  end.

(** app.py: [[h for h in holidays if h['is_national_holiday']]] *)
Fixpoint national_holidays (holidays : list (list (string * json)))
  : outcome (list (list (string * json))) :=
  match holidays with
  | [] => Returned []
  | h :: rest =>
      match subscript "is_national_holiday" h with
      | Raised e => Raised e
      | Returned flag =>
          match national_holidays rest with
          | Raised e => Raised e
          | Returned kept => Returned (if truthy flag then h :: kept else kept)
          end
      end
  end.

(** app.py: [{pd.to_datetime(h['holiday_date']): h['holiday_name']
              for h in national_holidays}] *)
Fixpoint holiday_dict (national : list (list (string * json)))
    (d : list (Timestamp * json)) : outcome (list (Timestamp * json)) :=
  match national with
  | [] => Returned d
  | h :: rest =>
      match add_holiday h d with
      | Raised e => Raised e
      | Returned d' => holiday_dict rest d'
      end
  end.

Definition get_public_holidays_app (r : response)
  : outcome (list (Timestamp * json)) :=
  match r with
  | RequestException => Returned []
  | Response status_code holidays =>
      if Z.eqb status_code 200 then
        match national_holidays holidays with
        | Raised e => Raised e
        | Returned national => holiday_dict national []
        end
      else Returned []
  end.

(** final.py: [{pd.to_datetime(h['holiday_date']): h['holiday_name']
                for h in holidays if h.get('is_national_holiday')}] *)
Definition is_national (h : list (string * json)) : bool :=
  match get "is_national_holiday" h with
  | Some flag => truthy flag
  | None => false
  end.

Fixpoint holiday_dict_final (holidays : list (list (string * json)))
    (d : list (Timestamp * json)) : outcome (list (Timestamp * json)) :=
  match holidays with
  | [] => Returned d
  | h :: rest =>
      if is_national h then
        match add_holiday h d with
        | Raised e => Raised e
        | Returned d' => holiday_dict_final rest d'
        end
      else holiday_dict_final rest d
  end.

Definition get_public_holidays_final (r : response)
  : outcome (list (Timestamp * json)) :=
  match r with
  | RequestException => Returned []
  | Response status_code holidays =>
      if Z.eqb status_code 200 then holiday_dict_final holidays []
      else Returned []
  end.

End ToDatetime.

(** The entry carries the key 'is_national_holiday'. *)
Definition has_flag (h : list (string * json)) : bool :=
  match get "is_national_holiday" h with
  | Some _ => true
  | None => false
  end.

(** Every entry carries the key 'is_national_holiday'. *)
Definition all_flagged (holidays : list (list (string * json))) : Prop :=
  Forall (fun h => get "is_national_holiday" h <> None) holidays.

End PublicHolidays.

(* ================================================================== *)
(** ** Tab 2: what the handler shows (app.py 177-184, final.py 256-281) *)
(* ================================================================== *)

Module Tab2View.

Inductive widget : Type := st_success | st_warning | st_error.

(** A status banner: the widget called, its text and its icon. *)
Record banner : Type := Banner {
  banner_widget : widget;
  banner_body : string;
  banner_icon : string
}.

Definition HIJAU : banner :=
  Banner st_success "**Status: HIJAU (Aman)** ✅" "✅".

Definition KUNING : banner :=
  Banner st_warning "**Status: KUNING (Waspada)** ⚠️" "⚠️".

Definition MERAH : banner :=
  Banner st_error "**Status: MERAH (Bahaya)** 🚨" "🚨".

(** app.py 179-181:
    [if final_prediksi == 'Hijau': .. elif final_prediksi == 'Kuning': ..
     else: st.error(..)] *)
Definition status_banner_app (final_prediksi : string) : banner :=
  if String.eqb final_prediksi "Hijau" then HIJAU
  else if String.eqb final_prediksi "Kuning" then KUNING
  else MERAH.

(** final.py 263-265:
    [if final_prediksi == 'Merah': .. elif final_prediksi == 'Kuning': ..
     else: st.success(..)] *)
Definition status_banner_final (final_prediksi : string) : banner :=
  if String.eqb final_prediksi "Merah" then MERAH
  else if String.eqb final_prediksi "Kuning" then KUNING
  else HIJAU.

(** The three pieces of advice; [pengirim] is "seksi pengirim" in app.py
    and "supplier/ekspedisi" in final.py. *)
Definition saran_downtime (pengirim selected_komponen : string) : string :=
  "RISIKO DOWNTIME! Stok akan habis sebelum material tiba. Segera hubungi "
  ++ pengirim ++ " untuk percepat pengiriman **" ++ selected_komponen ++ "**.".

Definition saran_waspada (pengirim : string) : string :=
  "Waspada! Stok berpotensi menipis. Koordinasikan dengan " ++ pengirim ++ ".".

Definition saran_aman : string :=
  "Stok material dalam kondisi aman. Lanjutkan pemantauan rutin.".

(** [saran = .. if final_prediksi == 'Merah' else ..
             if final_prediksi == 'Kuning' else ..] *)
Definition saran (pengirim final_prediksi selected_komponen : string)
  : string :=
  if String.eqb final_prediksi "Merah"
  then saran_downtime pengirim selected_komponen
  else if String.eqb final_prediksi "Kuning" then saran_waspada pengirim
  else saran_aman.

Definition saran_app : string -> string -> string := saran "seksi pengirim".

Definition saran_final : string -> string -> string :=
  saran "supplier/ekspedisi".

End Tab2View.

(* ================================================================== *)
(** ** final.py: the lead-time estimate and the session
       (final.py 44-81, 123-126, 203-254) *)
(* ================================================================== *)

Module Eta.

Local Open Scope float_scope.

(** [{'lon': .., 'lat': ..}] *)
Record coords : Type := Coords { lon : float; lat : float }.

(** What the geocoding request comes to inside the [try] of
    [get_coords_from_nominatim] (or what the cache of [st.cache_data]
    holds for it): a first result with its coordinates, an
    empty result list, a status other than 200 (as [str] prints it), or
    an exception (as the f-string prints it). *)
Inductive nominatim_reply : Type :=
| Found (lon lat : float)
| No_result
| Geocoding_status (status_code : string)
| Geocoding_exception (e : string).

Definition get_coords_from_nominatim (location_text : string)
    (reply : nominatim_reply) : option coords * string :=
  match reply with
  | Found x y => (Some (Coords x y), "Berhasil mendapatkan koordinat.")
  | No_result => (None, ("Lokasi '" ++ location_text ++ "' tidak ditemukan.")%string)
  | Geocoding_status code =>
      (None, ("Error Geocoding: Status Code " ++ code)%string)
  | Geocoding_exception e =>
      (None, ("Gagal menghubungi API Geocoding: " ++ e)%string)
  end.

(** What the routing request comes to inside the [try] of
    [get_eta_from_ors]: status 200 with the duration in seconds and the
    route, another status with the error it reports, or an exception. *)
Inductive ors_reply : Type :=
| Route (duration : float) (coordinates : list (float * float))
| Route_error (error : string)
| Route_exception (e : string).

(** The second component of what [get_eta_from_ors] returns: the route,
    or a message. *)
Inductive route_or_message : Type :=
| Route_coords (coordinates : list (float * float))
| Message (msg : string).

(** [get_eta_from_ors(api_key, start_coords, end_coords)].  The request
    is made only past the two guards; [ors] answers it. *)
Definition get_eta_from_ors (api_key : string) (start_coords : option coords)
    (end_coords : coords) (ors : string -> coords -> coords -> ors_reply)
  : option float * route_or_message :=
  if String.eqb api_key "" then
    (None, Message "API Key OpenRouteService belum dimasukkan.")
  else
    match start_coords with
    | None => (None, Message "Koordinat asal tidak valid.")
    | Some start =>
        match ors api_key start end_coords with
        | Route duration coordinates =>
            (Some (duration / 3600), Route_coords coordinates)
        | Route_error error => (None, Message ("Error Rute: " ++ error)%string)
        | Route_exception e =>
            (None, Message ("Gagal menghubungi API Rute: " ++ e)%string)
        end
    end.

(** [seksi_coordinates["Warehouse AHM (Pegangsaan Dua)"]]: longitude
    106.9185, latitude -6.1653, as binary64 holds them. *)
Definition warehouse : coords :=
  Coords 0x1.abac8b439581p+6 (-0x1.8a94467381d7ep+2).

Definition traffic_factor : float := 100.

(** [st.session_state]: the three keys the page initialises. *)
Record session_state : Type := Session {
  adjusted_lead_time : option float;
  route_coords : option route_or_message;
  start_location_name : string
}.

Definition initial_session : session_state :=
  Session None None "".

(** What the ETA button shows. *)
Inductive eta_message : Type :=
| Lokasi_ditemukan (start_location_text : string)
| Eta_error (route : route_or_message)
| Geocoding_error (msg : string).

(** The handler of "Hitung Estimasi Lead Time (ETA)" (final.py 206-223):
    the session after it, and what it showed. *)
Definition hitung_eta (ors_api_key start_location_text : string)
    (nominatim : nominatim_reply)
    (ors : string -> coords -> coords -> ors_reply)
    (session : session_state) : session_state * list eta_message :=
  let (start_coords, msg) :=
    get_coords_from_nominatim start_location_text nominatim in
  match start_coords with
  | Some _ =>
      let (eta_hours, route) :=
        get_eta_from_ors ors_api_key start_coords warehouse ors in
      match eta_hours with
      | Some eta =>
          let adjusted_eta := eta * (1 + traffic_factor / 100) in
          ({| adjusted_lead_time := Some adjusted_eta;
              route_coords := Some route;
              start_location_name := start_location_text |},
           [Lokasi_ditemukan start_location_text])
      | None =>
          (session, [Lokasi_ditemukan start_location_text; Eta_error route])
      end
  | None => (session, [Geocoding_error msg])
  end.



(** One click on the page of tab 2, with what the services would answer
    at that moment. *)
Inductive click : Type :=
| Click_ETA (ors_api_key start_location_text : string)
            (nominatim : nominatim_reply)
            (ors : string -> coords -> coords -> ors_reply)
| Click_analisis (selected_seksi_produksi selected_komponen : string)
                 (input_stok : float).



(** The ETA click that goes through: a place was found, a key was given,
    and the routing service answered with a route. *)
Definition goes_through (c : click) : Prop :=
  match c with
  | Click_ETA key text (Found x y) ors =>
      key <> "" /\
      exists duration coordinates,
        ors key (Coords x y) warehouse = Route duration coordinates
  | _ => False
  end.


End Eta.

(* ================================================================== *)
(** ** frontend_app.py: [clean_dict_for_json] (lines 44-52) *)
(* ================================================================== *)

Module Frontend.

Import PublicHolidays.

(** The values it walks are those of a JSON document, with Python's
    [None] for [JNull]; a float may be NaN.  [pd.isna] is true of [None]
    and of NaN among them. *)
Fixpoint clean_dict_for_json (d : json) : json :=
  match d with
  | JObject members =>
      JObject
        ((fix clean_items (items : list (string * json)) :=
            match items with
            | [] => []
            | (k, v) :: rest => (k, clean_dict_for_json v) :: clean_items rest
            end) members)
  | JArray items => JArray (map clean_dict_for_json items)
  | JNull => JNull
  | JFloat x => if Float64.isnan x then JNull else d
  | _ => d
  end.

(** No NaN anywhere in the value. *)
Fixpoint nan_free (d : json) : bool :=
  match d with
  | JObject members =>
      (fix all_items (items : list (string * json)) :=
         match items with
         | [] => true
         | (_, v) :: rest => nan_free v && all_items rest
         end) members
  | JArray items => forallb nan_free items
  | JFloat x => negb (Float64.isnan x)
  | _ => true
  end.

(** The members of a cleaned object:
    [{k: clean_dict_for_json(v) for k, v in d.items()}]. *)
Definition clean_items (items : list (string * json)) : list (string * json) :=
  map (fun kv => (fst kv, clean_dict_for_json (snd kv))) items.

End Frontend.

(* ================================================================== *)
(** ** The morning-meeting dashboard
       (backend_app.py 153-169, bb.py 139-151, frontend_app.py 256) *)
(* ================================================================== *)

Module Rekap.

Local Open Scope float_scope.

(** A row of the 'REKAP' sheet, as far as the dashboard reads it; the
    health column is still the text of the sheet, or missing. *)
Record rekap_row : Type := RekapRow {
  Part_Number : option string;
  Part_Name : option string;
  TYPE : option string;
  Stock_Health_cell : option string
}.

(** The same row once 'Stock_Health' is numeric. *)
Record part : Type := Part {
  part_row : rekap_row;
  Stock_Health : float
}.

(** [.fillna(0)] *)
Definition fillna_0 (x : float) : float :=
  if Float64.isnan x then 0 else x.

(** [df_rekap['Stock_Health'] =
      pd.to_numeric(df_rekap['Stock_Health'], errors='coerce').fillna(0)];
    [to_numeric] is pandas' reading of a cell, NaN where it cannot. *)
Definition with_Stock_Health (to_numeric : option string -> float)
    (df_rekap : list rekap_row) : list part :=
  map (fun r => Part r (fillna_0 (to_numeric (Stock_Health_cell r)))) df_rekap.

(** [len(df_rekap)] *)
Definition total_parts (df_rekap : list part) : nat := List.length df_rekap.

(** [df_rekap['Stock_Health'] < 0], row by row. *)
Definition below_zero (p : part) : bool := Stock_Health p <? 0.

(** [len(df_rekap[df_rekap['Stock_Health'] < 0])] *)
Definition parts_in_deficit (df_rekap : list part) : nat :=
  List.length (filter (fun p => Stock_Health p <? 0) df_rekap).

(** [len(df_rekap[df_rekap['Stock_Health'] > 0])] *)
Definition parts_in_surplus (df_rekap : list part) : nat :=
  List.length (filter (fun p => 0 <? Stock_Health p) df_rekap).

(** [df_rekap.sort_values(by='Stock_Health', ascending=True).head(10)].
    The sort is numpy's quicksort, which fixes no order among equal
    values: it is an argument. *)
Definition top_critical_parts (sort_values : list part -> list part)
    (df_rekap : list part) : list part :=
  firstn 10 (sort_values df_rekap).

(** frontend_app.py 256:
    [lambda x: '#EF5350' if x < 0 else '#66BB6A'] *)
Definition bar_color (x : float) : string :=
  if x <? 0 then "#EF5350" else "#66BB6A".

(** What is asked of the sort, on a column without NaN: its input
    reordered, ascending. *)
Definition sorts_by_health (sort_values : list part -> list part) : Prop :=
  forall l,
    Forall (fun p => Float64.isnan (Stock_Health p) = false) l ->
    Permutation l (sort_values l) /\
    Sorted (fun a b => (Stock_Health a <=? Stock_Health b) = true)
           (sort_values l).

(** A sort by health: insertion from the right. *)
Fixpoint insert_part (p : part) (sorted : list part) : list part :=
  match sorted with
  | [] => [p]
  | h :: rest =>
      if Stock_Health p <=? Stock_Health h then p :: sorted
      else h :: insert_part p rest
  end.

Fixpoint sort_by_health (l : list part) : list part :=
  match l with
  | [] => []
  | p :: rest => insert_part p (sort_by_health rest)
  end.

End Rekap.

(* ================================================================== *)
(** ** Sample answers of the services and sample clicks *)
(* ================================================================== *)

Module PageSamples.

Import Holidays PublicHolidays Eta.

(** 17 August, 18 August and 25 December 2025, as days since the epoch. *)
Definition ts_0817 : Timestamp := MkTimestamp 20317 0.
Definition ts_0818 : Timestamp := MkTimestamp 20318 0.
Definition ts_1225 : Timestamp := MkTimestamp 20447 0.

(** A reading of the three dates; anything else is refused. *)
Definition to_datetime (date : json) : outcome Timestamp :=
  match date with
  | JString "2025-08-17" => Returned ts_0817
  | JString "2025-08-18" => Returned ts_0818
  | JString "2025-12-25" => Returned ts_1225
  | _ => Raised (Exn "ValueError" "Unknown datetime string format")
  end.

(** A national holiday, a day that is not one, and an entry without the
    key 'is_national_holiday'. *)
Definition kemerdekaan : list (string * json) :=
  [("holiday_date", JString "2025-08-17");
   ("holiday_name", JString "Hari Kemerdekaan");
   ("is_national_holiday", JBool true)].

Definition cuti_bersama : list (string * json) :=
  [("holiday_date", JString "2025-08-18");
   ("holiday_name", JString "Cuti Bersama");
   ("is_national_holiday", JBool false)].

Definition natal_unflagged : list (string * json) :=
  [("holiday_date", JString "2025-12-25");
   ("holiday_name", JString "Hari Raya Natal")].

(** The holidays as the page holds them. *)
Definition holidays_data : list (Timestamp * string) :=
  [(ts_0817, "Hari Kemerdekaan"); (ts_1225, "Hari Raya Natal")].

(** A routing service that answers every request with a route of one
    hour. *)
Definition one_hour : string -> coords -> coords -> ors_reply :=
  fun _ _ _ => Route 3600 [].


End PageSamples.

(* ================================================================== *)
(** ** Floating-point facts used by the code's comparisons *)
(* ================================================================== *)

Module FloatFacts.

Import Float64.
Local Open Scope float_scope.

Lemma Prim2SF_zero : Prim2SF 0 = S754_zero false.
Proof. reflexivity. Qed.

Lemma Prim2SF_inf : Prim2SF inf = S754_infinity false.
Proof. reflexivity. Qed.

Lemma is_pos_inf_eq (x : float) : is_pos_inf x = true <-> x = inf.
Proof.
  unfold is_pos_inf. split.
  - destruct (Prim2SF x) as [s|s| |s m e] eqn:E; try discriminate.
    destruct s; try discriminate. intros _.
    rewrite <- (SF2Prim_Prim2SF x), E. reflexivity.
  - intros ->. reflexivity.
Qed.

Lemma isnan_eq (x : float) : isnan x = true <-> x = nan.
Proof.
  unfold isnan. split.
  - destruct (Prim2SF x) eqn:E; try discriminate. intros _.
    rewrite <- (SF2Prim_Prim2SF x), E. reflexivity.
  - intros ->. reflexivity.
Qed.

(** [x > 0] excludes [x <= 0]: the test of the deterministic branch fails
    on every strictly positive buffer. *)
Lemma ltb_0_not_leb_0 (x : float) : (0 <? x) = true -> (x <=? 0) = false.
Proof.
  rewrite ltb_spec, leb_spec, Prim2SF_zero.
  unfold SFltb, SFleb.
  destruct (Prim2SF x) as [s|s| |s m e]; simpl; try discriminate;
    destruct s; simpl; congruence.
Qed.

(** NaN fails every comparison. *)
Lemma nan_leb_false (y : float) : (nan <=? y) = false.
Proof. rewrite leb_spec. reflexivity. Qed.

Lemma leb_nan_false (x : float) : (x <=? nan) = false.
Proof.
  rewrite leb_spec. unfold SFleb.
  destruct (Prim2SF x) as [s|s| |s m e]; reflexivity.
Qed.

Lemma leb_true_not_nan (x y : float) :
  (x <=? y) = true -> isnan x = false /\ isnan y = false.
Proof.
  rewrite leb_spec. unfold SFleb, isnan.
  destruct (Prim2SF x) as [s|s| |s m e], (Prim2SF y) as [t|t| |t n f];
    simpl; try discriminate; auto.
Qed.

(** [inf <= 0] is false. *)
Lemma inf_leb_0 : (inf <=? 0) = false.
Proof. reflexivity. Qed.

(** [inf - y] is [inf] unless [y] is [+inf] or NaN. *)
Lemma inf_sub (y : float) :
  isnan y = false -> is_pos_inf y = false -> inf - y = inf.
Proof.
  unfold isnan, is_pos_inf. intros Hn Hi.
  apply Prim2SF_inj. rewrite sub_spec, Prim2SF_inf.
  destruct (Prim2SF y) as [s|s| |s m e]; try discriminate; try reflexivity.
  destruct s; [reflexivity | discriminate].
Qed.

Lemma inf_sub_finite (y : float) : isfinite y = true -> inf - y = inf.
Proof.
  unfold isfinite. intros H. apply inf_sub; unfold isnan, is_pos_inf;
    destruct (Prim2SF y) as [s|s| |s m e]; try discriminate; reflexivity.
Qed.

(** NaN propagates through a subtraction. *)
Lemma nan_sub (y : float) : nan - y = nan.
Proof.
  apply Prim2SF_inj. rewrite sub_spec.
  change (Prim2SF nan) with S754_nan.
  destruct (Prim2SF y); reflexivity.
Qed.

(** Division by a zero divisor never fails: it yields NaN for [0/0] and an
    infinity whose sign is the xor of the operands' signs otherwise. *)
Lemma div_zero_zero (x y : float) :
  (x =? 0) = true -> (y =? 0) = true -> x / y = nan.
Proof.
  rewrite !FloatAxioms.eqb_spec, Prim2SF_zero. unfold SFeqb. intros Hx Hy.
  apply Prim2SF_inj. rewrite div_spec.
  destruct (Prim2SF x) as [s|s| |s m e]; simpl in Hx;
    try discriminate; try (destruct s; discriminate).
  destruct (Prim2SF y) as [t|t| |t n f]; simpl in Hy;
    try discriminate; try (destruct t; discriminate).
  reflexivity.
Qed.

Lemma div_pos_by_pos_zero (x y : float) :
  (0 <? x) = true -> isnan x = false ->
  Prim2SF y = S754_zero false -> x / y = inf.
Proof.
  rewrite ltb_spec, Prim2SF_zero. unfold SFltb, isnan. intros Hx Hn Hy.
  apply Prim2SF_inj. rewrite div_spec, Hy.
  destruct (Prim2SF x) as [s|s| |s m e]; try discriminate;
    destruct s; try discriminate; reflexivity.
Qed.

(** *** The order of [<=] on floats

    [<=] is reflexive and total away from NaN, and transitive: what a
    sort by a float column relies on. *)

Ltac cmp_cases :=
  repeat match goal with
  | |- context [Z.compare ?a ?b] => destruct (Z.compare_spec a b)
  | H : context [Z.compare ?a ?b] |- _ => destruct (Z.compare_spec a b)
  | |- context [Pos.compare_cont Eq ?a ?b] =>
      change (Pos.compare_cont Eq a b) with (Pos.compare a b);
      destruct (Pos.compare_spec a b)
  | H : context [Pos.compare_cont Eq ?a ?b] |- _ =>
      change (Pos.compare_cont Eq a b) with (Pos.compare a b) in H;
      destruct (Pos.compare_spec a b)
  end.

Lemma SFleb_refl (x : spec_float) : x <> S754_nan -> SFleb x x = true.
Proof.
  unfold SFleb, SFcompare. destruct x as [s|s| |s m e]; try congruence;
    intros _; destruct s; try reflexivity;
    rewrite Z.compare_refl;
    change (Pos.compare_cont Eq m m) with (Pos.compare m m);
    rewrite Pos.compare_refl; reflexivity.
Qed.

Lemma SFleb_total (x y : spec_float) :
  x <> S754_nan -> y <> S754_nan -> SFleb x y = true \/ SFleb y x = true.
Proof.
  unfold SFleb, SFcompare.
  destruct x as [s|s| |s m e], y as [t|t| |t n f]; try congruence;
    intros _ _; destruct s, t; simpl; auto;
    cmp_cases; simpl; auto; subst; try lia.
Qed.

Lemma SFleb_trans (x y z : spec_float) :
  SFleb x y = true -> SFleb y z = true -> SFleb x z = true.
Proof.
  unfold SFleb, SFcompare.
  destruct x as [s|s| |s m e], y as [t|t| |t n f], z as [u|u| |u p g];
    try discriminate; try reflexivity;
    destruct s; try discriminate; try reflexivity;
    destruct t; try discriminate; try reflexivity;
    destruct u; try discriminate; try reflexivity;
    simpl; intros H1 H2; cmp_cases; simpl in *;
    try discriminate; try reflexivity; subst; try lia.
Qed.

Lemma isnan_Prim2SF (x : float) : isnan x = false <-> Prim2SF x <> S754_nan.
Proof.
  unfold isnan. destruct (Prim2SF x); split; congruence.
Qed.

Lemma leb_refl (x : float) : isnan x = false -> (x <=? x) = true.
Proof.
  intros H. rewrite leb_spec. apply SFleb_refl, isnan_Prim2SF, H.
Qed.

Lemma leb_total (x y : float) :
  isnan x = false -> isnan y = false ->
  (x <=? y) = true \/ (y <=? x) = true.
Proof.
  intros Hx Hy. rewrite !leb_spec.
  apply SFleb_total; apply isnan_Prim2SF; assumption.
Qed.

Lemma leb_trans (x y z : float) :
  (x <=? y) = true -> (y <=? z) = true -> (x <=? z) = true.
Proof. rewrite !leb_spec. apply SFleb_trans. Qed.

(** *** Signs

    A quotient of two values whose sign bit is clear is never below zero:
    it is a value with a clear sign bit, or NaN. *)

Lemma binary_round_aux_not_negative (m e : Z) (l : location) :
  not_negative (binary_round_aux prec emax false m e l) = true.
Proof.
  unfold binary_round_aux.
  destruct (shr_fexp prec emax m e l) as [mrs' e'].
  destruct (shr_fexp prec emax _ e' loc_Exact) as [mrs'' e''].
  destruct (shr_m mrs''); try reflexivity.
  destruct (Z.leb e'' (emax - prec)); reflexivity.
Qed.

Lemma SFdiv_not_negative (x y : spec_float) :
  x <> S754_nan -> y <> S754_nan ->
  not_negative x = true -> not_negative y = true ->
  not_negative (SF64div x y) = true.
Proof.
  unfold SF64div, SFdiv.
  destruct x as [s|s| |s m e], y as [t|t| |t n f]; try congruence;
    intros _ _; simpl; intros Hs Ht;
    apply negb_true_iff in Hs; apply negb_true_iff in Ht; subst;
    try reflexivity.
  destruct (SFdiv_core_binary prec emax (Z.pos m) e (Z.pos n) f)
    as [[mz ez] lz].
  apply binary_round_aux_not_negative.
Qed.

Lemma not_negative_ltb_0 (x : spec_float) :
  not_negative x = true -> SFltb x (S754_zero false) = false.
Proof.
  unfold SFltb, SFcompare.
  destruct x as [s|s| |s m e]; simpl; try reflexivity;
    intros H; apply negb_true_iff in H; subst; reflexivity.
Qed.

Lemma sign_clear_not_negative (x : float) :
  sign_clear x = true ->
  Prim2SF x <> S754_nan /\ not_negative (Prim2SF x) = true.
Proof.
  unfold sign_clear.
  destruct (Prim2SF x) as [s|s| |s m e]; try discriminate;
    destruct s; try discriminate; split; (discriminate || reflexivity).
Qed.

Lemma div_not_below_zero (x y : float) :
  sign_clear x = true -> sign_clear y = true -> (x / y <? 0) = false.
Proof.
  intros Hx Hy.
  apply sign_clear_not_negative in Hx, Hy. destruct Hx, Hy.
  rewrite ltb_spec, div_spec, Prim2SF_zero.
  now apply not_negative_ltb_0, SFdiv_not_negative.
Qed.

Lemma ltb_0_sign_clear (x : float) : (0 <? x) = true -> sign_clear x = true.
Proof.
  rewrite ltb_spec, Prim2SF_zero. unfold SFltb, sign_clear.
  destruct (Prim2SF x) as [s|s| |s m e]; simpl; try discriminate;
    destruct s; (discriminate || reflexivity).
Qed.

Lemma eqb_0_not_ltb_0 (x : float) : (x =? 0) = true -> (0 <? x) = false.
Proof.
  rewrite FloatAxioms.eqb_spec, ltb_spec, Prim2SF_zero. unfold SFeqb, SFltb.
  destruct (Prim2SF x) as [s|s| |s m e]; simpl; try discriminate;
    try reflexivity; destruct s; discriminate.
Qed.

(** A zero divisor with a clear sign bit is [+0.0]. *)
Lemma pos_zero_Prim2SF (x : float) :
  (x =? 0) = true -> sign_clear x = true -> Prim2SF x = S754_zero false.
Proof.
  rewrite FloatAxioms.eqb_spec, Prim2SF_zero. unfold SFeqb, sign_clear.
  destruct (Prim2SF x) as [s|s| |s m e]; simpl; try discriminate;
    destruct s; (discriminate || reflexivity).
Qed.

Lemma ltb_0_not_nan (x : float) : (0 <? x) = true -> isnan x = false.
Proof.
  rewrite ltb_spec, Prim2SF_zero. unfold SFltb, isnan.
  destruct (Prim2SF x) as [s|s| |s m e]; simpl; try discriminate;
    reflexivity.
Qed.

End FloatFacts.

(* ================================================================== *)
(** ** [numpy.rint] rounds to the nearest integer, ties to even *)
(* ================================================================== *)

Module DecimalFacts.

Import Decimal.

Local Open Scope Z_scope.

(** *** Shifting a mantissa to the right *)

Lemma iter_pos_nat {A : Type} (f : A -> A) (p : positive) (x : A) :
  SpecFloat.iter_pos f p x = Nat.iter (Pos.to_nat p) f x.
Proof.
  revert x. induction p as [p IH|p IH|]; intros x; cbn [SpecFloat.iter_pos].
  - rewrite !IH, Pos2Nat.inj_xI, <- Nat.iter_add, <- Nat.iter_succ_r.
    f_equal. lia.
  - rewrite !IH, Pos2Nat.inj_xO, <- Nat.iter_add. f_equal. lia.
  - reflexivity.
Qed.

Lemma shr_1_nonneg (m : Z) (r s : bool) :
  0 <= m ->
  shr_1 (Build_shr_record m r s)
    = Build_shr_record (Z.div2 m) (Z.odd m) (r || s).
Proof. destruct m as [|[p|p|]|p]; intros H; try lia; reflexivity. Qed.

Lemma iter_shr_1 (M : Z) (j : nat) :
  0 <= M ->
  shifted M j (Nat.iter (S j) shr_1 (Build_shr_record M false false)).
Proof.
  intros HM. induction j as [|j IH].
  - cbn [Nat.iter]. rewrite shr_1_nonneg by exact HM.
    exists 0. cbn [shr_m shr_r shr_s]. 
    pose proof (Z.div2_odd M) as H. 
    pose proof (Z.div2_nonneg M).
    change (2 ^ Z.of_nat 0) with 1.
    destruct (Z.odd M); cbn [Z.b2z] in H; repeat split; try lia; reflexivity.
  - destruct IH as (t & HMt & Ht & Hs & Hm).
    rewrite Nat.iter_succ.
    destruct (Nat.iter (S j) shr_1 _) as [m r s].
    cbn [shr_m shr_r shr_s] in *.
    rewrite shr_1_nonneg by exact Hm. unfold shifted.
    cbn [shr_m shr_r shr_s].
    replace (2 ^ Z.of_nat (S j)) with (2 * 2 ^ Z.of_nat j)
      by (rewrite Nat2Z.inj_succ, Z.pow_succ_r; lia).
    pose proof (Z.div2_odd m) as H.
    pose proof (Z.div2_nonneg m).
    assert (0 < 2 ^ Z.of_nat j) by (apply Z.pow_pos_nonneg; lia).
    set (P := 2 ^ Z.of_nat j) in *.
    exists ((if r then P else 0) + t). subst s.
    assert (Hs : (r || negb (t =? 0))%bool
                 = negb ((if r then P else 0) + t =? 0)).
    { destruct r; simpl; [|reflexivity].
      symmetry. apply negb_true_iff, Z.eqb_neq. lia. }
    destruct (Z.odd m); cbn [Z.b2z] in H; destruct r;
      repeat split; try exact Hs; try nia.
Qed.

(** *** The nearest integer *)

Lemma nearest_even_unique (num den k k' : Z) :
  0 < den -> nearest_even num den k -> nearest_even num den k' -> k = k'.
Proof.
  intros Hd [H1 E1] [H2 E2].
  assert (Hk : k = k' \/ k = k' + 1 \/ k' = k + 1) by nia.
  destruct Hk as [Hk | [Hk | Hk]]; [exact Hk | |]; exfalso.
  - assert (T1 : Z.abs (2 * (k * den - num)) = den) by nia.
    assert (T2 : Z.abs (2 * (k' * den - num)) = den) by nia.
    specialize (E1 T1). specialize (E2 T2). subst k.
    rewrite Z.even_add in E1. rewrite E2 in E1. discriminate.
  - assert (T1 : Z.abs (2 * (k * den - num)) = den) by nia.
    assert (T2 : Z.abs (2 * (k' * den - num)) = den) by nia.
    specialize (E1 T1). specialize (E2 T2). subst k'.
    rewrite Z.even_add in E2. rewrite E1 in E2. discriminate.
Qed.

Lemma round_nearest_even_shifted (M : Z) (j : nat) (mrs : shr_record) :
  shifted M j mrs ->
  let k := round_nearest_even (shr_m mrs) (loc_of_shr_record mrs) in
  nearest_even M (2 * 2 ^ Z.of_nat j) k /\
  shr_m mrs <= k <= shr_m mrs + 1 /\
  shr_m mrs * (2 * 2 ^ Z.of_nat j) <= M < (shr_m mrs + 1) * (2 * 2 ^ Z.of_nat j).
Proof.
  intros (t & HM & Ht & Hs & Hm).
  assert (HP : 0 < 2 ^ Z.of_nat j) by (apply Z.pow_pos_nonneg; lia).
  destruct mrs as [m r s]. cbn [shr_m shr_r shr_s] in *.
  set (P := 2 ^ Z.of_nat j) in *.
  unfold nearest_even.
  destruct r, s; cbn [loc_of_shr_record round_nearest_even];
    destruct (Z.eqb_spec t 0) as [Hs'|Hs']; try discriminate Hs; clear Hs.
  all: subst M; try subst t.
  all: try (destruct (Z.even m) eqn:E).
  all: repeat split; try lia; try (intros _; first [exact E | rewrite Z.even_add, E; reflexivity]).
  all: try (intros Habs; exfalso; lia).

Qed.

(** *** Digits *)

Lemma digits2_pos_bounds (p : positive) :
  2 ^ (Z.pos (digits2_pos p) - 1) <= Z.pos p < 2 ^ Z.pos (digits2_pos p).
Proof.
  induction p as [p IH|p IH|]; cbn [digits2_pos].
  - rewrite Pos2Z.inj_succ.
    replace (Z.succ (Z.pos (digits2_pos p)) - 1) with (Z.succ (Z.pos (digits2_pos p) - 1)) by lia.
    rewrite !Z.pow_succ_r by lia. lia.
  - rewrite Pos2Z.inj_succ.
    replace (Z.succ (Z.pos (digits2_pos p)) - 1) with (Z.succ (Z.pos (digits2_pos p) - 1)) by lia.
    rewrite !Z.pow_succ_r by lia. lia.
  - simpl. lia.
Qed.

Lemma digits2_pos_unique (p : positive) (n : Z) :
  2 ^ (n - 1) <= Z.pos p < 2 ^ n -> Z.pos (digits2_pos p) = n.
Proof.
  intros [Hl Hu]. pose proof (digits2_pos_bounds p) as [Dl Du].
  set (d := Z.pos (digits2_pos p)) in *.
  assert (Hd : 0 < d) by (unfold d; lia).
  assert (Hn : 0 < n).
  { destruct (Z.ltb_spec 0 n) as [|Hn0]; [assumption|].
    exfalso. destruct (Z.eq_dec n 0) as [->|Hne].
    - simpl in Hu. lia.
    - rewrite Z.pow_neg_r in Hu by lia. lia. }
  destruct (Z.lt_trichotomy d n) as [Hlt | [Heq | Hgt]]; [|exact Heq|]; exfalso.
  - assert (2 ^ d <= 2 ^ (n - 1)) by (apply Z.pow_le_mono_r; lia). lia.
  - assert (2 ^ n <= 2 ^ (d - 1)) by (apply Z.pow_le_mono_r; lia). lia.
Qed.

Lemma iter_xO (a p : positive) :
  Z.pos (Pos.iter xO a p) = Z.pos a * 2 ^ Z.pos p.
Proof.
  rewrite Pos2Nat.inj_iter, <- (positive_nat_Z p).
  induction (Pos.to_nat p) as [|n IH].
  - cbn [nat_rect]. change (Z.of_nat 0) with 0.
    rewrite Z.pow_0_r. lia.
  - rewrite Nat2Z.inj_succ, Z.pow_succ_r by lia.
    cbn [nat_rect]. rewrite Pos2Z.inj_xO, IH. lia.
Qed.

Lemma fexp_eq (x : Z) : fexp prec emax x = Z.max (x - 53) (-1074).
Proof. reflexivity. Qed.

(** *** Rounding a mantissa that is already in place *)

Lemma binary_round_aux_exact (s : bool) (m : positive) (e : Z) :
  Z.pos (digits2_pos m) = 53 -> -1074 <= e <= 971 ->
  binary_round_aux prec emax s (Z.pos m) e loc_Exact = S754_finite s m e.
Proof.
  intros Hd He. unfold binary_round_aux, shr_fexp.
  cbn [Zdigits2 shr_record_of_loc]. rewrite Hd, fexp_eq.
  replace (Z.max (53 + e - 53) (-1074) - e) with 0 by lia.
  cbn [shr shr_m loc_of_shr_record round_nearest_even Zdigits2].
  rewrite Hd, fexp_eq.
  replace (Z.max (53 + e - 53) (-1074) - e) with 0 by lia.
  cbn [shr shr_m].
  assert (H : (e <=? emax - prec) = true) by (apply Z.leb_le; unfold emax, prec; lia).
  rewrite H. reflexivity.
Qed.

(** The float of a positive integer below [2^53] holds that integer. *)
Lemma binary_normalize_integer (n : positive) :
  Z.pos n < 2 ^ 53 ->
  exists m' : positive,
    binary_normalize prec emax (Z.pos n) 0 false
      = S754_finite false m' (Z.pos (digits2_pos n) - 53) /\
    Z.pos m' = Z.pos n * 2 ^ (53 - Z.pos (digits2_pos n)) /\
    Z.pos (digits2_pos n) <= 53.
Proof.
  intros Hn. pose proof (digits2_pos_bounds n) as [Dl Du].
  set (d := Z.pos (digits2_pos n)) in *.
  assert (Hd : 0 < d <= 53).
  { split; [unfold d; lia|].
    destruct (Z.leb_spec d 53) as [|Hgt]; [assumption|exfalso].
    assert (2 ^ 53 <= 2 ^ (d - 1)) by (apply Z.pow_le_mono_r; lia). lia. }
  cbn [binary_normalize]. unfold binary_round.
  fold d. rewrite fexp_eq, Z.add_0_r.
  replace (Z.max (d - 53) (-1074)) with (d - 53) by lia.
  unfold shl_align. rewrite Z.sub_0_r.
  destruct (d - 53) as [|q|q] eqn:Eq; try lia.
  - exists n. replace (53 - d) with 0 by lia. rewrite Z.pow_0_r, Z.mul_1_r.
    repeat split; try lia.
    apply binary_round_aux_exact; [fold d; lia | lia].
  - exists (Pos.iter xO n q).
    assert (Hq : Z.pos q = 53 - d) by lia.
    split; [|split; [rewrite iter_xO, Hq; reflexivity | lia]].
    apply binary_round_aux_exact; [|lia].
    apply digits2_pos_unique. rewrite iter_xO, Hq.
    assert (E1 : 2 ^ (53 - 1) = 2 ^ (d - 1) * 2 ^ (53 - d))
      by (rewrite <- Z.pow_add_r by lia; f_equal; lia).
    assert (E2 : 2 ^ 53 = 2 ^ d * 2 ^ (53 - d))
      by (rewrite <- Z.pow_add_r by lia; f_equal; lia).
    rewrite E1, E2.
    assert (0 < 2 ^ (53 - d)) by (apply Z.pow_pos_nonneg; lia).
    nia.
Qed.

(** *** Adding and subtracting [2^52] *)

Lemma T52_eq : Z.pos T52 = 2 ^ 52.
Proof. reflexivity. Qed.

Lemma shl_align_le (mx : positive) (ex ex' : Z) :
  ex <= ex' -> shl_align mx ex ex' = (mx, ex).
Proof.
  intros H. unfold shl_align. destruct (ex' - ex) eqn:E; try reflexivity. lia.
Qed.

Lemma shl_align_shift (mx : positive) (ex : Z) (q : positive) :
  shl_align mx ex (ex - Z.pos q) = (Pos.iter xO mx q, ex - Z.pos q).
Proof.
  unfold shl_align. replace (ex - Z.pos q - ex) with (Z.neg q) by lia.
  reflexivity.
Qed.

(** Rounding a mantissa of [53 + p] bits at exponent [-p]: the mantissa
    loses its last [p] bits, to the nearest, the even one on a tie. *)
Lemma binary_round_shift (M p : positive) :
  2 ^ (52 + Z.pos p) <= Z.pos M < 2 ^ (53 + Z.pos p) ->
  exists k : positive,
    nearest_even (Z.pos M) (2 ^ Z.pos p) (Z.pos k) /\
    2 ^ 52 <= Z.pos k <= 2 ^ 53 /\
    binary_round prec emax false M (Z.neg p)
      = if (Z.pos k =? 2 ^ 53) then S754_finite false T52 1
        else S754_finite false k 0.
Proof.
  intros HM.
  assert (HdM : Z.pos (digits2_pos M) = 53 + Z.pos p).
  { apply digits2_pos_unique.
    replace (53 + Z.pos p - 1) with (52 + Z.pos p) by lia. exact HM. }
  assert (Hpow : forall a, 0 <= a -> 2 ^ (a + Z.pos p) = 2 ^ a * 2 ^ Z.pos p)
    by (intros a Ha; apply Z.pow_add_r; lia).
  rewrite !Hpow in HM by lia.
  destruct (Pos2Nat.is_succ p) as [j Hj].
  assert (Hp2 : 2 ^ Z.pos p = 2 * 2 ^ Z.of_nat j).
  { rewrite <- (positive_nat_Z p), Hj, Nat2Z.inj_succ, Z.pow_succ_r by lia.
    reflexivity. }
  pose proof (@iter_shr_1 (Z.pos M) j ltac:(lia)) as Hsh.
  apply round_nearest_even_shifted in Hsh.
  destruct Hsh as (Hne & Hk & Hm).
  rewrite <- Hp2 in Hne, Hm.
  set (mrs := Nat.iter (S j) shr_1 _) in *.
  set (k := round_nearest_even (shr_m mrs) (loc_of_shr_record mrs)) in *.
  assert (HP : 0 < 2 ^ Z.pos p) by (apply Z.pow_pos_nonneg; lia).
  assert (Hq : 2 ^ 52 <= shr_m mrs < 2 ^ 53) by nia.
  assert (Hkr : 2 ^ 52 <= k <= 2 ^ 53) by lia.
  destruct k as [|kp|kp] eqn:Ek; try (exfalso; lia).
  exists kp. split; [exact Hne | split; [exact Hkr|]].
  unfold binary_round. rewrite HdM.
  replace (53 + Z.pos p + Z.neg p) with 53 by lia.
  rewrite fexp_eq. change (Z.max (53 - 53) (-1074)) with 0.
  rewrite shl_align_le by lia.
  unfold binary_round_aux, shr_fexp. cbn [Zdigits2 shr_record_of_loc].
  rewrite HdM.
  replace (53 + Z.pos p + Z.neg p) with 53 by lia.
  rewrite fexp_eq. change (Z.max (53 - 53) (-1074)) with 0.
  change (0 - Z.neg p) with (Z.pos p). cbn [shr].
  rewrite iter_pos_nat, Hj. fold mrs. fold k. rewrite Ek.
  replace (Z.neg p + Z.pos p) with 0 by lia.
  destruct (Z.eqb_spec (Z.pos kp) (2 ^ 53)) as [E53 | N53].
  - injection E53 as ->. reflexivity.
  - assert (Hdk : Z.pos (digits2_pos kp) = 53).
    { apply digits2_pos_unique. change (53 - 1) with 52. lia. }
    cbn [Zdigits2]. rewrite Hdk.
    change (fexp prec emax (53 + 0) - 0) with 0.
    cbn [shr shr_record_of_loc shr_m]. reflexivity.
Qed.

Lemma SFsub_exp0 (a b : positive) :
  SFsub prec emax (S754_finite false a 0) (S754_finite false b 0)
    = binary_normalize prec emax (Z.pos a - Z.pos b) 0 false.
Proof. reflexivity. Qed.

(** The trick of [rint] on a positive value below [2^52]. *)
Lemma add_sub_two52 (m p : positive) :
  Z.pos m < 2 ^ 53 ->
  exists n : Z,
    nearest_even (Z.pos m) (2 ^ Z.pos p) n /\
    0 <= n <= 2 ^ 52 /\
    SF64sub (SF64add (S754_finite false m (Z.neg p)) (S754_finite false T52 0))
            (S754_finite false T52 0)
      = binary_normalize prec emax n 0 false.
Proof.
  intros Hm.
  assert (HP : 0 < 2 ^ Z.pos p) by (apply Z.pow_pos_nonneg; lia).
  assert (HP2 : 2 <= 2 ^ Z.pos p).
  { change 2 with (2 ^ 1) at 1. apply Z.pow_le_mono_r; lia. }
  set (M := (m + Pos.iter xO T52 p)%positive).
  assert (HMv : Z.pos M = Z.pos m + 2 ^ 52 * 2 ^ Z.pos p).
  { unfold M. rewrite Pos2Z.inj_add, iter_xO, T52_eq. reflexivity. }
  assert (Hadd : SF64add (S754_finite false m (Z.neg p)) (S754_finite false T52 0)
                 = binary_round prec emax false M (Z.neg p)).
  { unfold SF64add, SFadd. change (Z.min (Z.neg p) 0) with (Z.neg p).
    rewrite (shl_align_le m) by lia.
    change (shl_align T52 0 (Z.neg p)) with (shl_align T52 0 (0 - Z.pos p)).
    rewrite shl_align_shift. reflexivity. }
  destruct (@binary_round_shift M p) as (k & Hne & Hk & Hr).
  { rewrite HMv, !Z.pow_add_r by lia. nia. }
  exists (Z.pos k - 2 ^ 52). split; [|split; [lia|]].
  - destruct Hne as [H1 H2]. rewrite HMv in H1, H2. unfold nearest_even.
    replace ((Z.pos k - 2 ^ 52) * 2 ^ Z.pos p - Z.pos m)
      with (Z.pos k * 2 ^ Z.pos p - (Z.pos m + 2 ^ 52 * 2 ^ Z.pos p)) by ring.
    split; [exact H1|]. intros Ht. specialize (H2 Ht).
    rewrite Z.even_sub, H2. reflexivity.
  - rewrite Hadd, Hr.
    destruct (Z.eqb_spec (Z.pos k) (2 ^ 53)) as [E53 | N53].
    + rewrite E53. reflexivity.
    + unfold SF64sub. rewrite SFsub_exp0, T52_eq. reflexivity.
Qed.

(** *** [rint] on a float *)

Lemma fraction_integer (m : positive) (e : Z) :
  0 <= e -> numerator m e = Z.pos m * 2 ^ e /\ denominator e = 1.
Proof.
  intros He. unfold numerator, denominator.
  rewrite Z.max_l, Z.max_r by lia. split; reflexivity.
Qed.

Lemma fraction_proper (m : positive) (e : Z) :
  e < 0 -> numerator m e = Z.pos m /\ denominator e = 2 ^ (- e).
Proof.
  intros He. unfold numerator, denominator.
  rewrite Z.max_r, Z.max_l by lia. rewrite Z.pow_0_r. split; lia.
Qed.

Lemma nearest_even_exact (k : Z) : nearest_even k 1 k.
Proof. unfold nearest_even. split; lia. Qed.

Lemma is_integer_normalize (n : Z) :
  0 <= n <= 2 ^ 52 ->
  is_integer (binary_normalize prec emax n 0 false) false n.
Proof.
  intros Hn. destruct n as [|np|np]; try lia.
  - simpl. auto.
  - destruct (@binary_normalize_integer np ltac:(lia)) as (m' & -> & Hm' & Hd).
    cbn [is_integer]. split; [reflexivity|].
    unfold numerator, denominator.
    replace (Z.max (Z.pos (digits2_pos np) - 53) 0) with 0 by lia.
    replace (Z.max (- (Z.pos (digits2_pos np) - 53)) 0)
      with (53 - Z.pos (digits2_pos np)) by lia.
    rewrite Hm'. lia.
Qed.

Lemma is_integer_opp (f : spec_float) (s : bool) (k : Z) :
  is_integer f s k -> is_integer (SFopp f) (negb s) k.
Proof.
  destruct f as [s'|s'| |s' m e]; cbn [SFopp is_integer]; try tauto;
    intros [<- H]; split; auto.
Qed.

Lemma valid_finite (y : float) (s : bool) (m : positive) (e : Z) :
  Prim2SF y = S754_finite s m e ->
  Z.max (Z.pos (digits2_pos m) + e - 53) (-1074) = e /\ e <= 971.
Proof.
  intros E. pose proof (Prim2SF_valid y) as V. rewrite E in V.
  unfold valid_binary, bounded, canonical_mantissa in V.
  apply andb_true_iff in V. destruct V as [V1 V2].
  apply Z.eqb_eq in V1. apply Z.leb_le in V2.
  rewrite fexp_eq in V1. split; [exact V1 | exact V2].
Qed.

Lemma Prim2SF_two52 : Prim2SF Numpy.two52 = S754_finite false T52 0.
Proof. reflexivity. Qed.

(** [numpy.rint] rounds to the nearest integer, ties to even. *)
Theorem rint_nearest_integer (y : float) : nearest_integer y (Numpy.rint y).
Proof.
  unfold nearest_integer, Numpy.rint.
  rewrite !ltb_spec, FloatAxioms.abs_spec, FloatAxioms.eqb_spec, Prim2SF_two52.
  change (Prim2SF 0) with (S754_zero false).
  destruct (Prim2SF y) as [s|s| |s m e] eqn:E; try reflexivity.
  destruct (valid_finite _ E) as [Hc He].
  pose proof (digits2_pos_bounds m) as [Dl Du].
  destruct (Z.ltb_spec e 0) as [Hneg | Hpos].
  - (* below 2^52 *)
    destruct e as [|q|p]; try lia.
    assert (Hm : Z.pos m < 2 ^ 53).
    { assert (Hd : Z.pos (digits2_pos m) <= 53) by lia.
      assert (2 ^ Z.pos (digits2_pos m) <= 2 ^ 53)
        by (apply Z.pow_le_mono_r; lia). lia. }
    destruct (add_sub_two52 p Hm) as (n & Hne & Hn & Hr).
    assert (Hlt : SFltb (SFabs (S754_finite s m (Z.neg p)))
                        (S754_finite false T52 0) = true) by reflexivity.
    rewrite Hlt.
    destruct (@fraction_proper m (Z.neg p) Hneg) as [-> ->].
    exists n. split; [|exact Hne].
    destruct s.
    + change (SFeqb (S754_finite true m (Z.neg p)) (S754_zero false)) with false.
      change (SFltb (S754_finite true m (Z.neg p)) (S754_zero false)) with true.
      cbv iota.
      rewrite opp_spec, sub_spec, add_spec, opp_spec, E, Prim2SF_two52.
      cbn [SFopp negb]. rewrite Hr.
      apply (@is_integer_opp _ false). now apply is_integer_normalize.
    + change (SFeqb (S754_finite false m (Z.neg p)) (S754_zero false)) with false.
      change (SFltb (S754_finite false m (Z.neg p)) (S754_zero false)) with false.
      cbv iota.
      rewrite sub_spec, add_spec, E, Prim2SF_two52. rewrite Hr.
      now apply is_integer_normalize.
  - (* from 2^52 on: an integer already *)
    assert (Hlt : SFltb (SFabs (S754_finite s m e))
                        (S754_finite false T52 0) = false).
    { destruct e as [|q|p]; try lia; [|reflexivity].
      assert (Hd : Z.pos (digits2_pos m) = 53) by lia.
      rewrite Hd in Dl. change (2 ^ (53 - 1)) with (Z.pos T52) in Dl.
      revert Dl. generalize T52. intros t Dl.
      unfold SFltb, SFabs, SFcompare. cbn [Z.compare].
      change (Pos.compare_cont Eq m t) with (Pos.compare m t).
      destruct (Pos.compare_spec m t); try reflexivity. lia. }
    rewrite Hlt, E.
    destruct (@fraction_integer m e Hpos) as [Hnum Hden].
    exists (Z.pos m * 2 ^ e). split.
    + cbn [is_integer]. split; [reflexivity|]. rewrite Hnum, Hden. lia.
    + rewrite Hnum, Hden. apply nearest_even_exact.
Qed.

(** *** One result *)

Lemma denominator_pos (e : Z) : 0 < denominator e.
Proof. unfold denominator. apply Z.pow_pos_nonneg; lia. Qed.

Lemma numerator_pos (m : positive) (e : Z) : 0 < numerator m e.
Proof.
  unfold numerator. assert (0 < 2 ^ Z.max e 0) by (apply Z.pow_pos_nonneg; lia).
  nia.
Qed.

(** The value of a float that holds the integer [k], in units of
    [2^-1074]. *)
Lemma is_integer_scaled (m : positive) (e k : Z) :
  -1074 <= e ->
  numerator m e = k * denominator e ->
  Z.pos m * 2 ^ (e + 1074) = k * 2 ^ 1074.
Proof.
  intros He H. destruct (Z.ltb_spec e 0) as [Hneg | Hpos].
  - destruct (@fraction_proper m e Hneg) as [Hn Hd]. rewrite Hn, Hd in H.
    assert (E : 2 ^ 1074 = 2 ^ (- e) * 2 ^ (e + 1074))
      by (rewrite <- Z.pow_add_r by lia; f_equal; lia).
    rewrite H, E. ring.
  - destruct (@fraction_integer m e Hpos) as [Hn Hd]. rewrite Hn, Hd in H.
    rewrite Z.mul_1_r in H. subst k. rewrite Z.pow_add_r by lia. ring.
Qed.

Lemma digits2_pos_shift (m m' : positive) (j : Z) :
  0 <= j -> Z.pos m' = Z.pos m * 2 ^ j ->
  Z.pos (digits2_pos m') = Z.pos (digits2_pos m) + j.
Proof.
  intros Hj H. apply digits2_pos_unique. rewrite H.
  pose proof (digits2_pos_bounds m) as [Dl Du].
  replace (Z.pos (digits2_pos m) + j - 1)
    with ((Z.pos (digits2_pos m) - 1) + j) by lia.
  rewrite !Z.pow_add_r by lia.
  assert (0 < 2 ^ j) by (apply Z.pow_pos_nonneg; lia). nia.
Qed.

(** A value has one canonical mantissa and exponent. *)
Lemma canonical_unique (m1 m2 : positive) (e1 e2 : Z) :
  Z.max (Z.pos (digits2_pos m1) + e1 - 53) (-1074) = e1 ->
  Z.max (Z.pos (digits2_pos m2) + e2 - 53) (-1074) = e2 ->
  Z.pos m1 * 2 ^ (e1 + 1074) = Z.pos m2 * 2 ^ (e2 + 1074) ->
  m1 = m2 /\ e1 = e2.
Proof.
  intros C1 C2 H.
  assert (Hlt : forall ma mb ea eb,
             Z.max (Z.pos (digits2_pos ma) + ea - 53) (-1074) = ea ->
             Z.max (Z.pos (digits2_pos mb) + eb - 53) (-1074) = eb ->
             Z.pos ma * 2 ^ (ea + 1074) = Z.pos mb * 2 ^ (eb + 1074) ->
             ea < eb -> False).
  { intros ma mb ea eb Ca Cb Hv Hab.
    replace (eb + 1074) with ((eb - ea) + (ea + 1074)) in Hv by lia.
    assert (Ha : -1074 <= ea) by lia.
    rewrite (Z.pow_add_r 2 (eb - ea) (ea + 1074)), Z.mul_assoc in Hv by lia.
    assert (Hp : 0 < 2 ^ (ea + 1074)) by (apply Z.pow_pos_nonneg; lia).
    assert (Hm : Z.pos ma = Z.pos mb * 2 ^ (eb - ea)) by nia.
    pose proof (@digits2_pos_shift mb ma (eb - ea) ltac:(lia) Hm). lia. }
  destruct (Z.lt_trichotomy e1 e2) as [L | [E | G]].
  - exfalso. exact (Hlt _ _ _ _ C1 C2 H L).
  - subst e2. split; [|reflexivity].
    assert (Hp : 0 < 2 ^ (e1 + 1074)) by (apply Z.pow_pos_nonneg; lia).
    assert (Z.pos m1 = Z.pos m2) by nia. congruence.
  - exfalso. exact (Hlt _ _ _ _ C2 C1 (eq_sym H) G).
Qed.

Lemma nearest_integer_unique (y N N' : float) :
  nearest_integer y N -> nearest_integer y N' -> N = N'.
Proof.
  unfold nearest_integer.
  destruct (Prim2SF y) as [s|s| |s m e]; try congruence.
  intros (k & HN & Hk) (k' & HN' & Hk').
  assert (k' = k)
    by (eapply nearest_even_unique; eauto using denominator_pos).
  subst k'. apply Prim2SF_inj.
  destruct (Prim2SF N) as [s1|s1| |s1 m1 e1] eqn:E1; try contradiction;
    destruct (Prim2SF N') as [s2|s2| |s2 m2 e2] eqn:E2; try contradiction;
    cbn [is_integer] in HN, HN'; destruct HN as [-> H1], HN' as [-> H2].
  - reflexivity.
  - exfalso. subst k. pose proof (numerator_pos m2 e2). lia.
  - exfalso. subst k. pose proof (numerator_pos m1 e1). lia.
  - destruct (valid_finite _ E1) as [C1 _].
    destruct (valid_finite _ E2) as [C2 _].
    destruct (@canonical_unique m1 m2 e1 e2 C1 C2) as [-> ->];
      [|reflexivity].
    rewrite (@is_integer_scaled m1 e1 k), (@is_integer_scaled m2 e2 k);
      [reflexivity | lia | assumption | lia | assumption].
Qed.

(** Rounding to one decimal has one result. *)
Lemma one_decimal_unique (x t t' : float) :
  one_decimal x t -> one_decimal x t' -> t = t'.
Proof.
  intros (N & HN & ->) (N' & HN' & ->).
  now rewrite (@nearest_integer_unique _ N N' HN HN').
Qed.

(** What [DataFrame.round(1)] makes of a value is that value rounded to
    one decimal. *)
Lemma round1_one_decimal (x : float) : one_decimal x (Numpy.round1 x).
Proof.
  exists (Numpy.rint (x * 10)%float). split.
  - apply rint_nearest_integer.
  - reflexivity.
Qed.

(** *** Equal floats in the order of [<=] *)

Lemma SFleb_antisym (x y : spec_float) :
  SFleb x y = true -> SFleb y x = true -> SFeqb x y = true.
Proof.
  unfold SFleb, SFeqb, SFcompare.
  destruct x as [s|s| |s m e], y as [t|t| |t n f];
    try discriminate; try reflexivity;
    destruct s; try discriminate; try reflexivity;
    destruct t; try discriminate; try reflexivity;
    simpl; intros H1 H2; FloatFacts.cmp_cases; simpl in *;
    try discriminate; try reflexivity; subst; try lia.
Qed.

Lemma SFeqb_leb (x y : spec_float) :
  SFeqb x y = true -> SFleb x y = true /\ SFleb y x = true.
Proof.
  unfold SFleb, SFeqb, SFcompare.
  destruct x as [s|s| |s m e], y as [t|t| |t n f];
    try discriminate; try (split; reflexivity);
    destruct s; try discriminate; try (split; reflexivity);
    destruct t; try discriminate; try (split; reflexivity);
    simpl; intros H; FloatFacts.cmp_cases; simpl in *;
    try discriminate; try (split; reflexivity); subst; try lia.
Qed.

Lemma SFltb_leb (x y : spec_float) :
  SFltb x y = true -> SFleb x y = true /\ SFleb y x = false.
Proof.
  unfold SFleb, SFltb, SFcompare.
  destruct x as [s|s| |s m e], y as [t|t| |t n f];
    try discriminate; try (split; reflexivity);
    destruct s; try discriminate; try (split; reflexivity);
    destruct t; try discriminate; try (split; reflexivity);
    simpl; intros H; FloatFacts.cmp_cases; simpl in *;
    try discriminate; try (split; reflexivity); subst; try lia.
Qed.

Lemma ltb_leb (x y : float) :
  (x <? y)%float = true ->
  (x <=? y)%float = true /\ (y <=? x)%float = false.
Proof. rewrite ltb_spec, !leb_spec. apply SFltb_leb. Qed.

Lemma leb_both_eqb (x y : float) :
  ((x <=? y)%float = true /\ (y <=? x)%float = true) <->
  (x =? y)%float = true.
Proof.
  rewrite !leb_spec, FloatAxioms.eqb_spec. split.
  - intros [H1 H2]. now apply SFleb_antisym.
  - apply SFeqb_leb.
Qed.

End DecimalFacts.


(* ================================================================== *)
(** ** Lists *)
(* ================================================================== *)

Lemma nth_error_combine {A B : Type} (l : list A) (l' : list B) i a b :
  nth_error l i = Some a -> nth_error l' i = Some b ->
  nth_error (combine l l') i = Some (a, b).
Proof.
  revert l' i. induction l as [|x l IH]; intros [|y l'] [|i]; simpl;
    try discriminate.
  - congruence.
  - apply IH.
Qed.

(* ================================================================== *)
(** ** Laws of the evaluator *)
(* ================================================================== *)

Section EvaluatorLaws.

Variable St : Type.
Variable model : Model St.

Local Open Scope float_scope.

Lemma get_status_decided (row : dashboard_row) (w : world St) :
  decided row = true ->
  get_status model row w = (Returned "Merah", w).
Proof. unfold decided, get_status. intros ->. reflexivity. Qed.

Lemma get_status_consulted (row : dashboard_row) (w : world St) :
  decided row = false ->
  get_status model row w =
    (match fst (model (input_of_row row) (model_state w)) with
     | Returned pred => Returned (remap pred)
     | Raised e => Raised e
     end,
     {| model_state := snd (model (input_of_row row) (model_state w));
        predict_calls := predict_calls w ++ [input_of_row row] |}).
Proof.
  unfold decided, get_status, bind, model_predict, ret, remap. intros ->.
  destruct (model (input_of_row row) (model_state w)) as [[pred|e] s'];
    reflexivity.
Qed.

(** Every evaluation either leaves the log alone or appends one frame. *)
Lemma get_status_calls (row : dashboard_row) (w : world St) :
  predict_calls (snd (get_status model row w)) =
    predict_calls w ++ (if consulted row then [input_of_row row] else []).
Proof.
  unfold consulted. destruct (decided row) eqn:D.
  - rewrite get_status_decided by exact D. simpl. now rewrite app_nil_r.
  - rewrite get_status_consulted by exact D. reflexivity.
Qed.

Lemma apply_rows_cons {A B : Type} (f : A -> M St B) r rest (w : world St) :
  apply_rows f (r :: rest) w =
    match f r w with
    | (Returned v, w1) =>
        match apply_rows f rest w1 with
        | (Returned vs, w2) => (Returned (v :: vs), w2)
        | (Raised e, w2) => (Raised e, w2)
        end
    | (Raised e, w1) => (Raised e, w1)
    end.
Proof.
  simpl. unfold bind, ret. destruct (f r w) as [[v|e] w1]; [|reflexivity].
  destruct (apply_rows f rest w1) as [[vs|e] w2]; reflexivity.
Qed.

(** What a successful [apply] of [get_status] has done: one status per
    row, ["Merah"] on every decided row, and one logged call, in row
    order, for each consulted row and for no other. *)
Lemma apply_get_status_returned (rows : list dashboard_row) :
  forall (w w' : world St) (statuses : list string),
    apply_rows (get_status model) rows w = (Returned statuses, w') ->
    List.length statuses = List.length rows /\
    predict_calls w' =
      predict_calls w ++ map input_of_row (filter consulted rows) /\
    (forall i row, nth_error rows i = Some row -> decided row = true ->
                   nth_error statuses i = Some "Merah").
Proof.
  induction rows as [|r rest IH]; intros w w' statuses.
  - simpl. unfold ret. intros [= <- <-]. simpl.
    rewrite app_nil_r. repeat split. intros [|i] row; discriminate.
  - rewrite apply_rows_cons.
    pose proof (get_status_calls r w) as Hc.
    destruct (get_status model r w) as [[v|e] w1] eqn:E1; [|discriminate].
    destruct (apply_rows (get_status model) rest w1) as [[vs|e] w2] eqn:E2;
      [|discriminate].
    intros [= <- <-]. destruct (IH _ _ _ E2) as (Hlen & Hcalls & Hdec).
    simpl in Hc. repeat split.
    + simpl. now rewrite Hlen.
    + rewrite Hcalls, Hc, <- app_assoc. f_equal. simpl.
      destruct (consulted r); reflexivity.
    + intros [|i] row; simpl.
      * intros [= ->] D. rewrite get_status_decided in E1 by exact D.
        now injection E1 as <- _.
      * apply Hdec.
Qed.

Lemma process_dashboard_data_returned (df : list raw_row)
    (w w' : world St) (table : list result_row) :
  process_dashboard_data model df w = (Returned table, w') ->
  exists statuses,
    apply_rows (get_status model) (map derive_columns df) w
      = (Returned statuses, w') /\
    table = map (fun p => result_of (fst p) (snd p))
                (combine (map derive_columns df) statuses).
Proof.
  unfold process_dashboard_data, bind, ret.
  destruct (apply_rows (get_status model) (map derive_columns df) w)
    as [[statuses|e] w1]; [|discriminate].
  intros [= <- <-]. now exists statuses.
Qed.

Lemma filter_map_derive (df : list raw_row) :
  map input_of_row (filter consulted (map derive_columns df)) =
  map (fun r => input_of_row (derive_columns r))
      (filter (fun r => consulted (derive_columns r)) df).
Proof.
  induction df as [|r df IH]; simpl; [reflexivity|].
  destruct (consulted (derive_columns r)); simpl; now rewrite IH.
Qed.

End EvaluatorLaws.

(* ================================================================== *)
(** ** C1: the deterministic branch *)
(* ================================================================== *)

(** C1.  Whenever the buffer [selisih_waktu] of an observation is [<= 0],
    the status is "Merah" and [model.predict] is not called for it: the
    evaluation leaves the world, and with it the log of calls and the
    model's state, as it found it.  This holds for [get_status] on a row
    of the dashboard, for the simulation handler, and in a batch of at
    least one row (the callers pass no other), where a returned table
    carries "Merah" at every such row and the calls made are, in row
    order, those of the rows whose buffer is not [<= 0]. *)
Theorem C1_nonpositive_buffer_is_Merah_unconsulted :
  forall (St : Type) (model : Model St) (w : world St),
    (forall r : raw_row,
        (selisih_waktu (derive_columns r) <=? 0)%float = true ->
        get_status model (derive_columns r) w = (Returned "Merah", w)) /\
    (forall konsumsi_map seksi komponen stok lead k,
        konsumsi_map seksi komponen = Some k ->
        (sim_selisih_waktu stok k lead <=? 0)%float = true ->
        predict_button_handler model konsumsi_map seksi komponen stok lead w =
          (Returned (Some {| an_waktu_habis_stok := sim_waktu_habis_stok stok k;
                             an_selisih_waktu := sim_selisih_waktu stok k lead;
                             final_prediksi := "Merah" |}), w)) /\
    (forall df table w',
        df <> [] ->
        process_dashboard_data model df w = (Returned table, w') ->
        predict_calls w' =
          predict_calls w ++
          map (fun r => input_of_row (derive_columns r))
              (filter (fun r => negb (selisih_waktu (derive_columns r) <=? 0)%float)
                      df) /\
        forall i r,
          nth_error df i = Some r ->
          (selisih_waktu (derive_columns r) <=? 0)%float = true ->
          exists t, nth_error table i = Some t /\ Status t = "Merah").
Proof.
  intros St model w. split; [|split].
  - intros r H. now apply get_status_decided.
  - intros konsumsi_map seksi komponen stok lead k Hk H.
    unfold predict_button_handler. rewrite Hk.
    unfold sim_selisih_waktu in *. rewrite H. reflexivity.
  - intros df table w' _ H.
    destruct (process_dashboard_data_returned _ _ _ H) as (statuses & Ha & ->).
    destruct (apply_get_status_returned _ _ _ Ha) as (Hlen & Hcalls & Hdec).
    split.
    + rewrite Hcalls, filter_map_derive. reflexivity.
    + intros i r Hi D.
      exists (result_of (derive_columns r) "Merah"). split; [|reflexivity].
      rewrite nth_error_map.
      rewrite (@nth_error_combine _ _ _ _ i (derive_columns r) "Merah").
      * reflexivity.
      * rewrite nth_error_map, Hi. reflexivity.
      * apply Hdec with (row := derive_columns r); [|exact D].
        rewrite nth_error_map, Hi. reflexivity.
Qed.

(** Scenario B (stock 20 at 10 per hour, lead time 5: buffer -3) under a
    stub that raises when called: "Merah", and the stub was not called.
    In the batch of scenarios A, B and C the classifier is called for A
    and for C, not for B. *)
Lemma C1_witness_scenario_B :
  get_status Samples.raising_stub (derive_columns Samples.row_B) Samples.w0
    = (Returned "Merah", Samples.w0) /\
  predict_calls
    (world_after (process_dashboard_data (Samples.always "Hijau")
                    [Samples.row_A; Samples.row_B; Samples.row_C])
                 Samples.w0)
    = [InputData "Press" "Mur" 100 5; InputData "Press" "Mur" 60 5].
Proof.
  split.
  - apply (proj1 (C1_nonpositive_buffer_is_Merah_unconsulted
                    Samples.raising_stub Samples.w0)).
    reflexivity.
  - apply (proj1 (proj2 (proj2 (C1_nonpositive_buffer_is_Merah_unconsulted
                                  (Samples.always "Hijau") Samples.w0))
                        [Samples.row_A; Samples.row_B; Samples.row_C]
                        _ _ ltac:(discriminate) eq_refl)).
Defined.

(* ================================================================== *)
(** ** C2, C4: what becomes of the classifier's label *)
(* ================================================================== *)

(** C2.  On a strictly positive buffer the classifier is consulted, and
    when it answers "Merah" the status is "Kuning" (so it is not "Hijau"):
    in [get_status] and in the simulation handler alike.  The call is
    logged and the model's state is the one the call left. *)
Theorem C2_classifier_Merah_becomes_Kuning :
  forall (St : Type) (model : Model St) (w : world St),
    (forall (r : raw_row) (s' : St),
        (0 <? selisih_waktu (derive_columns r))%float = true ->
        model (input_of_row (derive_columns r)) (model_state w)
          = (Returned "Merah", s') ->
        get_status model (derive_columns r) w =
          (Returned "Kuning",
           {| model_state := s';
              predict_calls :=
                predict_calls w ++ [input_of_row (derive_columns r)] |}) /\
        outcome_of (get_status model (derive_columns r)) w <> Returned "Hijau") /\
    (forall konsumsi_map seksi komponen stok lead k s',
        konsumsi_map seksi komponen = Some k ->
        (0 <? sim_selisih_waktu stok k lead)%float = true ->
        model (InputData seksi komponen stok lead) (model_state w)
          = (Returned "Merah", s') ->
        outcome_of
          (predict_button_handler model konsumsi_map seksi komponen stok lead)
          w
          = Returned
              (Some {| an_waktu_habis_stok := sim_waktu_habis_stok stok k;
                       an_selisih_waktu := sim_selisih_waktu stok k lead;
                       final_prediksi := "Kuning" |})).
Proof.
  intros St model w. split.
  - intros r s' Hpos Hm.
    apply FloatFacts.ltb_0_not_leb_0 in Hpos.
    unfold outcome_of. rewrite get_status_consulted by exact Hpos.
    rewrite Hm. simpl. split; [reflexivity | discriminate].
  - intros konsumsi_map seksi komponen stok lead k s' Hk Hpos Hm.
    apply FloatFacts.ltb_0_not_leb_0 in Hpos.
    unfold outcome_of, predict_button_handler, sim_selisih_waktu in *.
    rewrite Hk, Hpos. unfold bind, model_predict, ret. simpl.
    rewrite Hm. reflexivity.
Qed.

(** Scenario C (stock 60 at 10 per hour, lead time 5: buffer 1) with a
    model that answers "Merah": the status is "Kuning". *)
Lemma C2_witness_scenario_C :
  get_status (Samples.always "Merah") (derive_columns Samples.row_C) Samples.w0
    = (Returned "Kuning",
       {| model_state := tt;
          predict_calls := [InputData "Press" "Mur" 60 5] |}).
Proof.
  apply (proj1 (C2_classifier_Merah_becomes_Kuning
                  (Samples.always "Merah") Samples.w0));
    reflexivity.
Defined.

(** C4.  On a strictly positive buffer, a label other than "Merah" is the
    status, unchanged: in [get_status] and in the simulation handler. *)
Theorem C4_other_labels_pass_through :
  forall (St : Type) (model : Model St) (w : world St) (label : string),
    label <> "Merah" ->
    (forall (r : raw_row) (s' : St),
        (0 <? selisih_waktu (derive_columns r))%float = true ->
        model (input_of_row (derive_columns r)) (model_state w)
          = (Returned label, s') ->
        get_status model (derive_columns r) w =
          (Returned label,
           {| model_state := s';
              predict_calls :=
                predict_calls w ++ [input_of_row (derive_columns r)] |})) /\
    (forall konsumsi_map seksi komponen stok lead k s',
        konsumsi_map seksi komponen = Some k ->
        (0 <? sim_selisih_waktu stok k lead)%float = true ->
        model (InputData seksi komponen stok lead) (model_state w)
          = (Returned label, s') ->
        outcome_of
          (predict_button_handler model konsumsi_map seksi komponen stok lead)
          w
          = Returned
              (Some {| an_waktu_habis_stok := sim_waktu_habis_stok stok k;
                       an_selisih_waktu := sim_selisih_waktu stok k lead;
                       final_prediksi := label |})).
Proof.
  intros St model w label Hl.
  assert (Hne : String.eqb label "Merah" = false)
    by now apply String.eqb_neq.
  split.
  - intros r s' Hpos Hm.
    apply FloatFacts.ltb_0_not_leb_0 in Hpos.
    rewrite get_status_consulted by exact Hpos.
    rewrite Hm. unfold remap. simpl. rewrite Hne. reflexivity.
  - intros konsumsi_map seksi komponen stok lead k s' Hk Hpos Hm.
    apply FloatFacts.ltb_0_not_leb_0 in Hpos.
    unfold outcome_of, predict_button_handler, sim_selisih_waktu in *.
    rewrite Hk, Hpos. unfold bind, model_predict, ret. simpl.
    rewrite Hm, Hne. reflexivity.
Qed.

(** Scenario A (stock 100 at 10 per hour, lead time 5: buffer 5) with a
    model that answers "Hijau": the status is "Hijau". *)
Lemma C4_witness_scenario_A :
  get_status (Samples.always "Hijau") (derive_columns Samples.row_A) Samples.w0
    = (Returned "Hijau",
       {| model_state := tt;
          predict_calls := [InputData "Press" "Mur" 100 5] |}).
Proof.
  apply (proj1 (@C4_other_labels_pass_through unit
                  (Samples.always "Hijau") Samples.w0 "Hijau"
                  ltac:(discriminate)));
    reflexivity.
Defined.

(* ================================================================== *)
(** ** C5: a failing classifier *)
(* ================================================================== *)

(** C5.  On a strictly positive buffer, an exception raised by
    [model.predict] is the outcome of the evaluation: [get_status] and the
    simulation handler raise that very exception and return no status. *)
Theorem C5_classifier_error_is_raised :
  forall (St : Type) (model : Model St) (w : world St) (e : exn),
    (forall (r : raw_row) (s' : St),
        (0 <? selisih_waktu (derive_columns r))%float = true ->
        model (input_of_row (derive_columns r)) (model_state w)
          = (Raised e, s') ->
        outcome_of (get_status model (derive_columns r)) w = Raised e /\
        forall status,
          outcome_of (get_status model (derive_columns r)) w
            <> Returned status) /\
    (forall konsumsi_map seksi komponen stok lead k s',
        konsumsi_map seksi komponen = Some k ->
        (0 <? sim_selisih_waktu stok k lead)%float = true ->
        model (InputData seksi komponen stok lead) (model_state w)
          = (Raised e, s') ->
        outcome_of
          (predict_button_handler model konsumsi_map seksi komponen stok lead)
          w
          = Raised e).
Proof.
  intros St model w e. split.
  - intros r s' Hpos Hm.
    apply FloatFacts.ltb_0_not_leb_0 in Hpos.
    unfold outcome_of. rewrite get_status_consulted by exact Hpos.
    rewrite Hm. simpl. split; [reflexivity | discriminate].
  - intros konsumsi_map seksi komponen stok lead k s' Hk Hpos Hm.
    apply FloatFacts.ltb_0_not_leb_0 in Hpos.
    unfold outcome_of, predict_button_handler, sim_selisih_waktu in *.
    rewrite Hk, Hpos. unfold bind, model_predict, ret. simpl.
    rewrite Hm. reflexivity.
Qed.

(** The row of component "Baut" (buffer 5) under the model that fails on
    it: the evaluation raises the model's [ValueError]. *)
Lemma C5_witness_failing_model :
  outcome_of (get_status Samples.fails_on_Baut
                (derive_columns Samples.row_Baut)) Samples.w0
    = Raised (Exn "ValueError" "unknown category").
Proof.
  refine (proj1 (proj1 (C5_classifier_error_is_raised
                   Samples.fails_on_Baut Samples.w0
                   (Exn "ValueError" "unknown category"))
                   Samples.row_Baut tt _ _));
    reflexivity.
Defined.

(* ================================================================== *)
(** ** C6: a failing classifier inside a batch *)
(* ================================================================== *)

Section BatchFailure.

Variable St : Type.
Variable model : Model St.

Lemma apply_rows_app_raised {A B : Type} (f : A -> M St B)
    (done : list A) (r : A) (rest : list A) :
  forall (w w1 w2 : world St) (vs : list B) (e : exn),
    apply_rows f done w = (Returned vs, w1) ->
    f r w1 = (Raised e, w2) ->
    apply_rows f (done ++ r :: rest) w = (Raised e, w2).
Proof.
  induction done as [|d done IH]; intros w w1 w2 vs e Hd Hr.
  - simpl in Hd. unfold ret in Hd. injection Hd as _ <-.
    simpl app. rewrite apply_rows_cons, Hr. reflexivity.
  - simpl app. rewrite apply_rows_cons in Hd |- *.
    destruct (f d w) as [[v|e'] w'] eqn:E; [|discriminate].
    destruct (apply_rows f done w') as [[vs'|e'] w''] eqn:E'; [|discriminate].
    injection Hd as _ <-.
    rewrite (IH _ _ _ _ _ E' Hr). reflexivity.
Qed.

Lemma map_app_cons {A B : Type} (f : A -> B) l r l' :
  map f (l ++ r :: l') = map f l ++ f r :: map f l'.
Proof. now rewrite map_app. Qed.

End BatchFailure.

(** C6 does not hold as stated.  With the model that fails on "Baut", the
    batch of the row "Baut" and scenario A does not isolate the failure:
    scenario A evaluates to "Hijau" on its own, but the batch raises and
    returns no table. *)
Lemma C6_counterexample_batch_aborts :
  ~ isolates_failures Samples.fails_on_Baut
      [Samples.row_Baut; Samples.row_A] Samples.w0.
Proof.
  intros H.
  destruct (H 1%nat Samples.row_A "Hijau" eq_refl eq_refl)
    as (table & t & Hout & _).
  vm_compute in Hout. discriminate.
Qed.

(** C6, amended.  The first failure of the classifier aborts the batch:
    when the rows before [r] evaluate and [get_status] raises on [r],
    [process_dashboard_data] raises that exception on the whole frame and
    returns no table, and it stops there: the world it leaves is the one
    the failing call left, so no later row is evaluated. *)
Theorem C6_first_failure_aborts_batch :
  forall (St : Type) (model : Model St)
         (done : list raw_row) (r : raw_row) (rest : list raw_row)
         (w w1 w2 : world St) (table : list result_row) (e : exn),
    process_dashboard_data model done w = (Returned table, w1) ->
    get_status model (derive_columns r) w1 = (Raised e, w2) ->
    process_dashboard_data model (done ++ r :: rest) w = (Raised e, w2).
Proof.
  intros St model done r rest w w1 w2 table e Hd Hr.
  destruct (process_dashboard_data_returned _ _ _ Hd) as (statuses & Ha & _).
  unfold process_dashboard_data, bind.
  rewrite map_app_cons.
  rewrite (@apply_rows_app_raised St _ _ (get_status model)
             (map derive_columns done) (derive_columns r)
             (map derive_columns rest) w w1 w2 statuses e Ha Hr).
  reflexivity.
Qed.

(** Scenario A, then "Baut", then scenario C, with the model that fails on
    "Baut": the batch raises after two calls and never reaches scenario C. *)
Lemma C6_witness_three_rows :
  process_dashboard_data Samples.fails_on_Baut
    [Samples.row_A; Samples.row_Baut; Samples.row_C] Samples.w0
  = (Raised (Exn "ValueError" "unknown category"),
     {| model_state := tt;
        predict_calls := [InputData "Press" "Mur" 100 5;
                          InputData "Press" "Baut" 100 5] |}).
Proof.
  refine (@C6_first_failure_aborts_batch unit Samples.fails_on_Baut
            [Samples.row_A] Samples.row_Baut [Samples.row_C]
            Samples.w0 _ _ _ _ _ _);
    reflexivity.
Defined.

(* ================================================================== *)
(** ** C8: evaluating twice *)
(* ================================================================== *)

Section Determinism.

Variable St : Type.
Variable model : Model St.
Hypothesis model_deterministic : deterministic model.

Lemma get_status_outcome_indep (row : dashboard_row) (w w' : world St) :
  outcome_of (get_status model row) w = outcome_of (get_status model row) w'.
Proof.
  unfold outcome_of. destruct (decided row) eqn:D.
  - now rewrite !get_status_decided by exact D.
  - rewrite !get_status_consulted by exact D. simpl.
    now rewrite (model_deterministic (input_of_row row)
                   (model_state w) (model_state w')).
Qed.

Lemma apply_rows_outcome_indep {A B : Type} (f : A -> M St B) :
  (forall r w w', outcome_of (f r) w = outcome_of (f r) w') ->
  forall rows w w',
    outcome_of (apply_rows f rows) w = outcome_of (apply_rows f rows) w'.
Proof.
  intros Hf rows. induction rows as [|r rest IH]; intros w w'.
  - reflexivity.
  - unfold outcome_of in *. rewrite !apply_rows_cons.
    specialize (Hf r w w').
    destruct (f r w) as [[v|e] w1], (f r w') as [[v'|e'] w1'];
      simpl in Hf; try discriminate.
    + injection Hf as <-. specialize (IH w1 w1').
      destruct (apply_rows f rest w1) as [[vs|e] w2],
               (apply_rows f rest w1') as [[vs'|e'] w2'];
        simpl in IH; try discriminate; simpl; congruence.
    + simpl. congruence.
Qed.

Lemma process_outcome_indep (df : list raw_row) (w w' : world St) :
  outcome_of (process_dashboard_data model df) w =
  outcome_of (process_dashboard_data model df) w'.
Proof.
  pose proof (apply_rows_outcome_indep (get_status model)
                get_status_outcome_indep (map derive_columns df) w w') as H.
  unfold outcome_of, process_dashboard_data, bind, ret in *.
  destruct (apply_rows (get_status model) (map derive_columns df) w)
    as [[vs|e] w1],
    (apply_rows (get_status model) (map derive_columns df) w')
    as [[vs'|e'] w1']; simpl in H; try discriminate; simpl; congruence.
Qed.

Lemma predict_button_handler_outcome_indep konsumsi_map seksi komponen stok lead
    (w w' : world St) :
  outcome_of
    (predict_button_handler model konsumsi_map seksi komponen stok lead)
    w =
  outcome_of
    (predict_button_handler model konsumsi_map seksi komponen stok lead)
    w'.
Proof.
  unfold outcome_of, predict_button_handler.
  destruct (konsumsi_map seksi komponen) as [k|]; [|reflexivity].
  destruct (_ <=? 0)%float; [reflexivity|].
  unfold bind, model_predict, ret.
  pose proof (model_deterministic (InputData seksi komponen stok lead)
                (model_state w) (model_state w')) as H.
  destruct (model _ (model_state w)) as [[p|e] s1],
           (model _ (model_state w')) as [[p'|e'] s1'];
    simpl in H; try discriminate; injection H as ->; reflexivity.
Qed.

End Determinism.

(** C8.  With a deterministic classifier (its answer depends on the frame
    alone, whatever state the object is in), a second evaluation of the
    same input, run in the world the first one left, has the outcome of
    the first: the same table, row by row with the same depletion time,
    buffer and status, or the same exception.  This holds for
    [process_dashboard_data], for [get_status] on one row, whose derived
    columns are a function of the row, and for the simulation handler. *)
Theorem C8_second_evaluation_is_identical :
  forall (St : Type) (model : Model St),
    deterministic model ->
    forall w : world St,
      (forall df,
          outcome_of (process_dashboard_data model df)
                     (world_after (process_dashboard_data model df) w)
          = outcome_of (process_dashboard_data model df) w) /\
      (forall r,
          outcome_of (get_status model (derive_columns r))
                     (world_after (get_status model (derive_columns r)) w)
          = outcome_of (get_status model (derive_columns r)) w) /\
      (forall konsumsi_map seksi komponen stok lead,
          let call :=
            predict_button_handler model konsumsi_map seksi komponen stok lead in
          outcome_of call (world_after call w) = outcome_of call w).
Proof.
  intros St model Hdet w. split; [|split].
  - intros df. now apply process_outcome_indep.
  - intros r. now apply get_status_outcome_indep.
  - intros. now apply predict_button_handler_outcome_indep.
Qed.

(** Scenarios A, B and C under a model that counts its calls: the second
    run starts from a different model state and returns the same table. *)
Lemma C8_witness_counting_model :
  let df := [Samples.row_A; Samples.row_B; Samples.row_C] in
  let call := process_dashboard_data (Samples.counting "Hijau") df in
  model_state (world_after call Samples.n0) = 2%nat /\
  outcome_of call (world_after call Samples.n0) = outcome_of call Samples.n0.
Proof.
  split; [reflexivity|].
  apply (proj1 (@C8_second_evaluation_is_identical nat
                  (Samples.counting "Hijau")
                  (fun _ _ _ => eq_refl) Samples.n0)).
Defined.

(* ================================================================== *)
(** ** C9: the vocabulary of statuses *)
(* ================================================================== *)

Section Vocabulary.

Variable St : Type.
Variable model : Model St.

Lemma apply_rows_Forall {A B : Type} (f : A -> M St B) (P : B -> Prop) :
  (forall r w v w', f r w = (Returned v, w') -> P v) ->
  forall rows w vs w',
    apply_rows f rows w = (Returned vs, w') -> Forall P vs.
Proof.
  intros Hf rows. induction rows as [|r rest IH]; intros w vs w'.
  - simpl. unfold ret. intros [= <- _]. constructor.
  - rewrite apply_rows_cons.
    destruct (f r w) as [[v|e] w1] eqn:E; [|discriminate].
    destruct (apply_rows f rest w1) as [[vs'|e] w2] eqn:E'; [|discriminate].
    intros [= <- _]. constructor; eauto.
Qed.

Lemma three_level_remap (label : string) :
  three_level label -> three_level (remap label).
Proof.
  unfold three_level, remap.
  intros [-> | [-> | ->]]; simpl; auto.
Qed.

Lemma get_status_three_level :
  (forall x s label s', model x s = (Returned label, s') -> three_level label) ->
  forall row w status w',
    get_status model row w = (Returned status, w') -> three_level status.
Proof.
  intros Hm row w status w'. destruct (decided row) eqn:D.
  - rewrite get_status_decided by exact D. intros [= <- _].
    now left.
  - rewrite get_status_consulted by exact D.
    destruct (model (input_of_row row) (model_state w)) as [[label|e] s'] eqn:E;
      simpl; [|discriminate].
    intros [= <- _]. apply three_level_remap. eapply Hm, E.
Qed.

End Vocabulary.

(** C9.  The evaluator does not check the classifier's vocabulary.  Where
    the classifier is consulted, a label other than "Merah" is the status,
    verbatim.  So if every label the classifier can answer lies in
    {Merah, Kuning, Hijau}, every status does, of a single evaluation and
    of every row of a returned table; and if the classifier answers a
    consulted row with a label outside that set, the status is outside it
    too. *)
Theorem C9_status_vocabulary_is_the_classifiers :
  forall (St : Type) (model : Model St),
    (forall row w label s',
        decided row = false ->
        model (input_of_row row) (model_state w) = (Returned label, s') ->
        label <> "Merah" ->
        outcome_of (get_status model row) w = Returned label) /\
    ((forall x s label s', model x s = (Returned label, s') -> three_level label) ->
     (forall row w status w',
         get_status model row w = (Returned status, w') -> three_level status) /\
     (forall df w table w',
         process_dashboard_data model df w = (Returned table, w') ->
         Forall (fun t => three_level (Status t)) table)) /\
    (forall row w label s',
        decided row = false ->
        model (input_of_row row) (model_state w) = (Returned label, s') ->
        ~ three_level label ->
        exists status,
          outcome_of (get_status model row) w = Returned status /\
          ~ three_level status).
Proof.
  intros St model.
  assert (Hverb : forall row w label s',
             decided row = false ->
             model (input_of_row row) (model_state w) = (Returned label, s') ->
             label <> "Merah" ->
             outcome_of (get_status model row) w = Returned label).
  { intros row w label s' D Hm Hl. unfold outcome_of.
    rewrite get_status_consulted by exact D. rewrite Hm. simpl.
    unfold remap. apply String.eqb_neq in Hl. now rewrite Hl. }
  split; [exact Hverb | split].
  - intros Hm. split.
    + exact (@get_status_three_level St model Hm).
    + intros df w table w' H.
      destruct (process_dashboard_data_returned _ _ _ H) as (statuses & Ha & ->).
      pose proof (@apply_rows_Forall St _ _ (get_status model) three_level
                    (@get_status_three_level St model Hm) _ _ _ _ Ha) as Hall.
      rewrite Forall_forall in Hall |- *.
      intros t Hin. apply in_map_iff in Hin.
      destruct Hin as ([row status] & <- & Hin). simpl.
      apply Hall. eapply in_combine_r, Hin.
  - intros row w label s' D Hm Hout. exists label. split; [|exact Hout].
    apply Hverb with (s' := s'); try assumption.
    intros ->. apply Hout. now left.
Qed.

(** Scenario A with a model that answers "Biru": the status is "Biru". *)
Lemma C9_witness_foreign_label :
  outcome_of (get_status (Samples.always "Biru")
                (derive_columns Samples.row_A)) Samples.w0
    = Returned "Biru".
Proof.
  refine (proj1 (@C9_status_vocabulary_is_the_classifiers unit
                   (Samples.always "Biru"))
                (derive_columns Samples.row_A) Samples.w0 "Biru" tt _ _ _);
    [reflexivity | reflexivity | discriminate].
Defined.

(* ================================================================== *)
(** ** C7: the urgency order of the displayed table *)
(* ================================================================== *)

Module Tab1Facts.

Import Float64 Tab1.

Lemma key_eqb_eq (a b : option nat) : key_eqb a b = true <-> a = b.
Proof.
  destruct a as [x|], b as [y|]; simpl; try (split; congruence).
  rewrite Nat.eqb_eq. split; congruence.
Qed.

Lemma key_eqb_refl (a : option nat) : key_eqb a a = true.
Proof. now apply key_eqb_eq. Qed.

Lemma key_eqb_sym (a b : option nat) : key_eqb a b = key_eqb b a.
Proof.
  destruct a as [x|], b as [y|]; simpl; try reflexivity. apply Nat.eqb_sym.
Qed.

Lemma buffer_leb_total (a b : float) :
  buffer_leb a b = true \/ buffer_leb b a = true.
Proof.
  unfold buffer_leb.
  destruct (isnan b) eqn:Nb; [now left|].
  destruct (isnan a) eqn:Na; [now right|].
  now apply FloatFacts.leb_total.
Qed.

Lemma buffer_leb_trans (a b c : float) :
  buffer_leb a b = true -> buffer_leb b c = true -> buffer_leb a c = true.
Proof.
  unfold buffer_leb.
  destruct (isnan c); [reflexivity|].
  destruct (isnan b); [discriminate|].
  destruct (isnan a); [discriminate|].
  apply FloatFacts.leb_trans.
Qed.

Lemma buffer_leb_refl (a : float) : buffer_leb a a = true.
Proof.
  unfold buffer_leb. destruct (isnan a) eqn:Na; [reflexivity|].
  now apply FloatFacts.leb_refl.
Qed.

Lemma urgency_leb_total (a b : result_row) :
  urgency_leb a b = true \/ urgency_leb b a = true.
Proof.
  unfold urgency_leb. rewrite (key_eqb_sym (SortKey (Status b))).
  destruct (key_eqb (SortKey (Status a)) (SortKey (Status b))).
  - apply buffer_leb_total.
  - destruct (SortKey (Status a)) as [x|], (SortKey (Status b)) as [y|];
      simpl; auto.
    destruct (Nat.leb_spec x y); [now left|].
    right. apply Nat.leb_le. lia.
Qed.

Lemma urgency_leb_trans (a b c : result_row) :
  urgency_leb a b = true -> urgency_leb b c = true -> urgency_leb a c = true.
Proof.
  unfold urgency_leb.
  destruct (key_eqb (SortKey (Status a)) (SortKey (Status b))) eqn:Eab.
  - apply key_eqb_eq in Eab. rewrite Eab.
    destruct (key_eqb (SortKey (Status b)) (SortKey (Status c)));
      [apply buffer_leb_trans | auto].
  - destruct (key_eqb (SortKey (Status b)) (SortKey (Status c))) eqn:Ebc.
    + apply key_eqb_eq in Ebc. rewrite <- Ebc, Eab. auto.
    + revert Eab Ebc.
      destruct (SortKey (Status a)) as [x|], (SortKey (Status b)) as [y|],
               (SortKey (Status c)) as [z|]; simpl;
        rewrite ?Nat.eqb_neq, ?Nat.leb_le; intros; try discriminate;
        try reflexivity.
      destruct (Nat.eqb_spec x z); [lia|]. apply Nat.leb_le. lia.
Qed.

Lemma insert_row_perm (t : result_row) (l : list result_row) :
  Permutation (t :: l) (insert_row t l).
Proof.
  induction l as [|h l IH]; simpl; [reflexivity|].
  destruct (urgency_leb t h); [reflexivity|].
  rewrite perm_swap. now constructor.
Qed.

Lemma sort_values_perm (l : list result_row) : Permutation l (sort_values l).
Proof.
  induction l as [|t l IH]; simpl; [constructor|].
  rewrite <- insert_row_perm. now constructor.
Qed.

Lemma insert_row_sorted (t : result_row) (l : list result_row) :
  StronglySorted (fun a b => urgency_leb a b = true) l ->
  StronglySorted (fun a b => urgency_leb a b = true) (insert_row t l).
Proof.
  induction 1 as [|h l Hs IH Hall]; simpl.
  - repeat constructor.
  - destruct (urgency_leb t h) eqn:E.
    + constructor; [now constructor|].
      constructor; [exact E|].
      rewrite Forall_forall in Hall |- *. intros x Hx.
      eapply urgency_leb_trans; [exact E | now apply Hall].
    + constructor; [exact IH|].
      rewrite Forall_forall in Hall |- *. intros x Hx.
      apply (Permutation_in _ (Permutation_sym (insert_row_perm t l))) in Hx.
      destruct Hx as [<- | Hx]; [|now apply Hall].
      destruct (urgency_leb_total t h) as [H | H]; congruence.
Qed.

Lemma sort_values_sorted (l : list result_row) :
  StronglySorted (fun a b => urgency_leb a b = true) (sort_values l).
Proof.
  induction l as [|t l IH]; simpl; [constructor|].
  now apply insert_row_sorted.
Qed.

Lemma StronglySorted_nth {A : Type} (R : A -> A -> Prop) (l : list A) :
  StronglySorted R l ->
  forall i j a b,
    (i < j)%nat -> nth_error l i = Some a -> nth_error l j = Some b -> R a b.
Proof.
  induction 1 as [|h l Hs IH Hall]; intros i j a b Hij Hi Hj.
  - destruct i; discriminate.
  - destruct j as [|j]; [lia|]. simpl in Hj. destruct i as [|i]; simpl in Hi.
    + injection Hi as <-. rewrite Forall_forall in Hall.
      eapply Hall, nth_error_In, Hj.
    + eapply IH; [|exact Hi|exact Hj]. lia.
Qed.

Lemma isin_three_level selected (t : result_row) :
  incl selected status_options -> isin selected t = true ->
  three_level (Status t).
Proof.
  unfold isin. intros Hincl H. apply existsb_exists in H.
  destruct H as (s & Hin & Heq). apply String.eqb_eq in Heq. rewrite Heq.
  apply Hincl in Hin. unfold status_options, three_level in *. simpl in Hin.
  intuition congruence.
Qed.

(** What [urgency_leb] says of two rows with known statuses. *)
Lemma urgency_leb_reading (a b : result_row) :
  three_level (Status a) -> three_level (Status b) ->
  urgency_leb a b = true ->
  (Status a = "Kuning" -> Status b <> "Merah") /\
  (Status a = "Hijau" -> Status b = "Hijau") /\
  (Status a = Status b ->
   isnan (Buffer_Waktu_Jam b) = true \/
   (Buffer_Waktu_Jam a <=? Buffer_Waktu_Jam b)%float = true).
Proof.
  unfold urgency_leb. intros Ha Hb H. repeat split.
  - intros Ea Eb. rewrite Ea, Eb in H. discriminate.
  - intros Ea. rewrite Ea in H.
    destruct Hb as [Eb | [Eb | Eb]]; rewrite Eb in H;
      try discriminate. exact Eb.
  - intros E. rewrite E, key_eqb_refl in H. unfold buffer_leb in H.
    destruct (isnan (Buffer_Waktu_Jam b)); [now left|].
    destruct (isnan (Buffer_Waktu_Jam a)); [discriminate|]. now right.
Qed.

Lemma urgency_leb_refl (t : result_row) : urgency_leb t t = true.
Proof.
  unfold urgency_leb. rewrite key_eqb_refl. apply buffer_leb_refl.
Qed.

(** *** Rows that tie keep their order *)

Lemma insert_row_tied (c t : result_row) (l : list result_row) :
  filter (tied c) (insert_row t l) =
  if tied c t then t :: filter (tied c) l else filter (tied c) l.
Proof.
  induction l as [|h l IH]; cbn [insert_row].
  - cbn [filter]. reflexivity.
  - destruct (urgency_leb t h) eqn:E.
    + cbn [filter]. reflexivity.
    + cbn [filter]. rewrite IH.
      destruct (tied c h) eqn:Th, (tied c t) eqn:Tt; try reflexivity.
      exfalso. unfold tied in Th, Tt.
      apply andb_true_iff in Th, Tt. destruct Th as [Hch _], Tt as [_ Htc].
      rewrite (urgency_leb_trans _ _ _ Htc Hch) in E. discriminate.
Qed.

Lemma sort_values_stable (c : result_row) (l : list result_row) :
  filter (tied c) (sort_values l) = filter (tied c) l.
Proof.
  induction l as [|t l IH]; cbn [sort_values]; [reflexivity|].
  rewrite insert_row_tied, IH. cbn [filter]. reflexivity.
Qed.

(** Two rows of one status tie exactly when the buffers they show are
    equal, or both NaN. *)
Lemma tied_same_status (t1 t2 : result_row) :
  Status t1 = Status t2 ->
  (urgency_leb t1 t2 = true /\ urgency_leb t2 t1 = true <->
   (isnan (Buffer_Waktu_Jam t1) = true /\
    isnan (Buffer_Waktu_Jam t2) = true) \/
   (Buffer_Waktu_Jam t1 =? Buffer_Waktu_Jam t2)%float = true).
Proof.
  intros Hs. unfold urgency_leb. rewrite Hs, key_eqb_refl.
  unfold buffer_leb.
  rewrite <- DecimalFacts.leb_both_eqb.
  destruct (isnan (Buffer_Waktu_Jam t1)) eqn:N1,
           (isnan (Buffer_Waktu_Jam t2)) eqn:N2.
  - tauto.
  - split; [intros [H _]; discriminate|].
    intros [[_ H] | [H _]]; [discriminate|].
    apply FloatFacts.leb_true_not_nan in H. destruct H; congruence.
  - split; [intros [_ H]; discriminate|].
    intros [[H _] | [H _]]; [discriminate|].
    apply FloatFacts.leb_true_not_nan in H. destruct H; congruence.
  - split; [tauto|]. intros [[H _] | H]; [discriminate | exact H].
Qed.

(** The more urgent of two rows, as shown, comes strictly first in the
    order of the sort. *)
Lemma more_urgent_strict (ti tj : result_row) :
  more_urgent_as_shown ti tj ->
  urgency_leb ti tj = true /\ urgency_leb tj ti = false.
Proof.
  unfold urgency_leb.
  intros [(a & b & -> & -> & Hab) | [Hs Hlt]].
  - cbn [key_eqb key_leb].
    destruct (Nat.eqb_spec a b); [lia|]. destruct (Nat.eqb_spec b a); [lia|].
    split; [apply Nat.leb_le | apply Nat.leb_gt]; lia.
  - rewrite Hs, key_eqb_refl. unfold buffer_leb.
    apply DecimalFacts.ltb_leb in Hlt. destruct Hlt as [H1 H2].
    destruct (FloatFacts.leb_true_not_nan H1) as [-> ->].
    split; assumption.
Qed.

Lemma strictly_before (shown : list result_row) (ti tj : result_row) :
  StronglySorted (fun a b => urgency_leb a b = true) shown ->
  urgency_leb tj ti = false ->
  forall i' j',
    nth_error shown i' = Some ti -> nth_error shown j' = Some tj ->
    (i' < j')%nat.
Proof.
  intros Hs Hji i' j' Hi Hj.
  destruct (Nat.lt_trichotomy i' j') as [H | [H | H]]; [exact H | |]; exfalso.
  - subst j'. rewrite Hi in Hj. injection Hj as <-.
    rewrite urgency_leb_refl in Hji. discriminate.
  - rewrite (StronglySorted_nth Hs H Hj Hi) in Hji. discriminate.
Qed.

Lemma selected_is_shown selected (table : list result_row) (t : result_row) :
  In t table -> In (Status t) selected ->
  In t (sorted_df selected table).
Proof.
  intros Hin Hsel. unfold sorted_df.
  apply (Permutation_in _ (sort_values_perm _)).
  apply filter_In. split; [exact Hin|].
  unfold isin. apply existsb_exists. exists (Status t).
  split; [exact Hsel | apply String.eqb_refl].
Qed.

End Tab1Facts.

(** The columns of a row of the table. *)
Lemma Status_result_of (row : dashboard_row) (status : string) :
  Status (result_of row status) = status.
Proof. reflexivity. Qed.

Lemma Buffer_result_of (row : dashboard_row) (status : string) :
  Buffer_Waktu_Jam (result_of row status) = Numpy.round1 (selisih_waktu row).
Proof. reflexivity. Qed.

Lemma table_rows_rounded (df : list raw_row) :
  forall statuses : list string,
    List.length statuses = List.length df ->
    Forall2 rounded_from df
      (map (fun p => result_of (fst p) (snd p))
           (combine (map derive_columns df) statuses)).
Proof.
  induction df as [|r df IH]; intros [|s statuses]; simpl;
    try discriminate; intros Hlen.
  - constructor.
  - constructor.
    + repeat split.
    + apply IH. now injection Hlen.
Qed.

(** C7 does not hold as stated.  Two rows "Hijau" arrive with buffer
    times 1.04 and 1.01 hours, in that order.  The second is the more
    urgent by buffer time, but the table shows 1.0 for both, the sort
    reads the table, and the first stays above the second. *)
Lemma C7_counterexample_buffers_104_101 :
  ~ ranked_by_buffer_time (Samples.always "Hijau")
      [Samples.row_104; Samples.row_101] Samples.w0 Tab1.status_options.
Proof.
  intros H.
  set (t104 := result_of (derive_columns Samples.row_104) "Hijau").
  set (t101 := result_of (derive_columns Samples.row_101) "Hijau").
  assert (Ht : outcome_of (process_dashboard_data (Samples.always "Hijau")
                             [Samples.row_104; Samples.row_101]) Samples.w0
               = Returned [t104; t101]) by reflexivity.
  assert (Hm : more_urgent Samples.row_101 t101 Samples.row_104 t104)
    by (right; split; reflexivity).
  destruct (H _ Ht 1%nat 0%nat Samples.row_101 Samples.row_104 t101 t104
              eq_refl eq_refl eq_refl eq_refl
              (or_intror (or_intror (or_introl eq_refl)))
              (or_intror (or_intror (or_introl eq_refl))) Hm)
    as (i' & j' & Hlt & Hi & Hj).
  change (Tab1.sorted_df Tab1.status_options [t104; t101])
    with [t104; t101] in Hi, Hj.
  destruct j' as [|[|j']]; [lia | | destruct j'; discriminate].
  destruct i' as [|i']; [|lia].
  pose proof (f_equal (fun o => match o with
                                | Some t => (Stok t =? Stok t101)%float
                                | None => false
                                end) Hi) as F.
  vm_compute in F. discriminate.
Qed.

(** C7, amended.  The table shown in tab 1 is ordered by status, "Merah"
    first, then "Kuning", then "Hijau", and within a status by the buffer
    the table shows, which is the buffer time rounded to one decimal;
    rows that tie on both stay in the order of the table.  For the table
    [process_dashboard_data] returns and the statuses selected: the
    column 'Buffer Waktu (Jam)' of each row is the buffer time of its row
    of the data rounded to one decimal; the display is the filtered table
    reordered; of two selected rows the more urgent, by status and then
    by the buffer shown, is displayed above the other, wherever either
    occurs; rows that the sort cannot tell apart keep the order they have
    in the table; and of any two displayed rows, the first above the
    second, a "Kuning" row is not followed by a "Merah" one, a "Hijau"
    row is followed by "Hijau" rows only, and within a status the buffer
    shown does not decrease, rows with a NaN buffer coming last. *)
Theorem C7_display_order_is_by_shown_buffer :
  forall (St : Type) (model : Model St) (df : list raw_row)
         (w w' : world St) (table : list result_row)
         (selected_statuses : list string),
    incl selected_statuses Tab1.status_options ->
    process_dashboard_data model df w = (Returned table, w') ->
    let shown := Tab1.sorted_df selected_statuses table in
    Forall2 (fun r t =>
               Decimal.one_decimal (selisih_waktu (derive_columns r))
                                   (Buffer_Waktu_Jam t))
            df table /\
    Permutation (Tab1.filtered_dashboard selected_statuses table) shown /\
    (forall ti tj,
        In ti table -> In tj table ->
        In (Status ti) selected_statuses ->
        In (Status tj) selected_statuses ->
        more_urgent_as_shown ti tj ->
        shown_before shown ti tj /\
        forall i' j',
          nth_error shown i' = Some ti -> nth_error shown j' = Some tj ->
          (i' < j')%nat) /\
    (forall c,
        filter (Tab1.tied c) shown =
        filter (Tab1.tied c)
               (Tab1.filtered_dashboard selected_statuses table)) /\
    (forall i j a b,
        (i < j)%nat ->
        nth_error shown i = Some a ->
        nth_error shown j = Some b ->
        (Status a = "Kuning" -> Status b <> "Merah") /\
        (Status a = "Hijau" -> Status b = "Hijau") /\
        (Status a = Status b ->
         Float64.isnan (Buffer_Waktu_Jam b) = true \/
         (Buffer_Waktu_Jam a <=? Buffer_Waktu_Jam b)%float = true)).
Proof.
  intros St model df w w' table selected Hincl Hrun shown.
  assert (Hperm : Permutation (Tab1.filtered_dashboard selected table) shown)
    by apply Tab1Facts.sort_values_perm.
  assert (Hsorted : StronglySorted (fun a b => Tab1.urgency_leb a b = true)
                                   shown)
    by apply Tab1Facts.sort_values_sorted.
  assert (Hall : Forall (fun t => three_level (Status t)) shown).
  { rewrite Forall_forall. intros t Hin.
    apply (Permutation_in _ (Permutation_sym Hperm)) in Hin.
    unfold Tab1.filtered_dashboard in Hin. apply filter_In in Hin.
    eapply Tab1Facts.isin_three_level; [exact Hincl | apply Hin]. }
  split; [|split; [exact Hperm | split; [|split]]].
  - destruct (process_dashboard_data_returned _ _ _ Hrun)
      as (statuses & Ha & ->).
    destruct (apply_get_status_returned _ _ _ Ha) as (Hlen & _).
    eapply Forall2_impl;
      [|apply table_rows_rounded; now rewrite Hlen, length_map].
    intros r t (_ & _ & _ & ->). apply DecimalFacts.round1_one_decimal.
  - intros ti tj Hi Hj Si Sj Hm.
    destruct (Tab1Facts.more_urgent_strict Hm) as [_ Hji].
    assert (Hbefore : forall i' j',
               nth_error shown i' = Some ti -> nth_error shown j' = Some tj ->
               (i' < j')%nat)
      by (apply Tab1Facts.strictly_before; assumption).
    split; [|exact Hbefore].
    destruct (In_nth_error _ _ (@Tab1Facts.selected_is_shown selected table ti Hi Si))
      as [i' Hi'].
    destruct (In_nth_error _ _ (@Tab1Facts.selected_is_shown selected table tj Hj Sj))
      as [j' Hj'].
    exists i', j'. split; [now apply Hbefore | split; assumption].
  - intros c. apply Tab1Facts.sort_values_stable.
  - intros i j a b Hij Hi Hj.
    rewrite Forall_forall in Hall.
    apply Tab1Facts.urgency_leb_reading.
    + eapply Hall, nth_error_In, Hi.
    + eapply Hall, nth_error_In, Hj.
    + exact (Tab1Facts.StronglySorted_nth Hsorted Hij Hi Hj).
Qed.

(** Four rows in arrival order, with buffer times 1.06, 1.04, 1.01 and
    -3 hours; the classifier answers "Hijau".  The display is the "Merah"
    row, then the rows of 1.04 and 1.01, both shown as 1.0 and left in
    their order, then the row of 1.06, shown as 1.1. *)
Lemma C7_witness_four_rows :
  let df := [Samples.row_106; Samples.row_104; Samples.row_101;
             Samples.row_B] in
  let t106 := result_of (derive_columns Samples.row_106) "Hijau" in
  let t104 := result_of (derive_columns Samples.row_104) "Hijau" in
  let t101 := result_of (derive_columns Samples.row_101) "Hijau" in
  let tB := result_of (derive_columns Samples.row_B) "Merah" in
  outcome_of (process_dashboard_data (Samples.always "Hijau") df) Samples.w0
    = Returned [t106; t104; t101; tB] /\
  Tab1.sorted_df Tab1.status_options [t106; t104; t101; tB]
    = [tB; t104; t101; t106] /\
  map Buffer_Waktu_Jam [tB; t104; t101; t106]
    = [(-3)%float; 1%float; 1%float; 0x1.199999999999ap+0%float] /\
  shown_before (Tab1.sorted_df Tab1.status_options [t106; t104; t101; tB])
               t104 t106.
Proof.
  intros df t106 t104 t101 tB.
  do 3 (split; [reflexivity|]).
  destruct (@C7_display_order_is_by_shown_buffer unit
              (Samples.always "Hijau") df Samples.w0
              (world_after (process_dashboard_data (Samples.always "Hijau") df)
                           Samples.w0)
              [t106; t104; t101; tB] Tab1.status_options
              (incl_refl Tab1.status_options) eq_refl)
    as (_ & _ & Horder & _).
  apply (Horder t104 t106).
  - right; left; reflexivity.
  - left; reflexivity.
  - right; right; left; reflexivity.
  - right; right; left; reflexivity.
  - right. split; reflexivity.
Defined.

(* ================================================================== *)
(** ** C10: the table holds rounded values, and the sort reads them *)
(* ================================================================== *)


(** C10 does not hold as stated.  The buffer times 1.04 and 1.06 hours
    differ only beyond the first decimal, but the table shows 1.0 for the
    one and 1.1 for the other, and the two rows, both "Hijau", do not
    compare as equal: the second comes after the first and not the
    other way round. *)
Lemma C10_counterexample_buffers_104_106 :
  ~ ties_beyond_first_decimal (Samples.always "Hijau")
      [Samples.row_104; Samples.row_106] Samples.w0.
Proof.
  intros H.
  set (t104 := result_of (derive_columns Samples.row_104) "Hijau").
  set (t106 := result_of (derive_columns Samples.row_106) "Hijau").
  assert (Ht : outcome_of (process_dashboard_data (Samples.always "Hijau")
                             [Samples.row_104; Samples.row_106]) Samples.w0
               = Returned [t104; t106]) by reflexivity.
  assert (F1 : Decimal.first_decimal
                 (selisih_waktu (derive_columns Samples.row_104)) = Some 10%Z)
    by (vm_compute; reflexivity).
  assert (F2 : Decimal.first_decimal
                 (selisih_waktu (derive_columns Samples.row_106)) = Some 10%Z)
    by (vm_compute; reflexivity).
  destruct (H _ Ht 0%nat 1%nat Samples.row_104 Samples.row_106 t104 t106
              eq_refl eq_refl eq_refl eq_refl eq_refl)
    as [_ H21].
  - rewrite F1. discriminate.
  - now rewrite F1, F2.
  - vm_compute in H21. discriminate.
Qed.

(** C10, amended.  Every numeric column of the table
    [process_dashboard_data] returns is the computed value rounded to one
    decimal: the float64 product of the value and 10 is rounded to the
    nearest integer, to the even one on a tie, and divided by 10 in
    float64.  That holds of the stock, the depletion time
    'Sisa Waktu (Jam)', the lead time and the buffer 'Buffer Waktu (Jam)'.
    The urgency sort reads that rounded buffer: two rows of one status
    compare as equal exactly when the buffers they show are equal (or are
    both NaN), and the sort leaves rows that compare as equal in the
    order they came in, whichever buffer time is smaller.  The rounding
    leaves no choice: a value has one rounding to one decimal. *)
Theorem C10_table_is_rounded_and_ties_are_on_shown_buffer :
  forall (St : Type) (model : Model St),
    (forall df w table w',
        process_dashboard_data model df w = (Returned table, w') ->
        Forall2 (fun r t =>
                   Decimal.one_decimal (stok_tersedia r) (Stok t) /\
                   Decimal.one_decimal (waktu_habis_stok (derive_columns r))
                                       (Sisa_Waktu_Jam t) /\
                   Decimal.one_decimal (lead_time r) (Lead_Time_Jam t) /\
                   Decimal.one_decimal (selisih_waktu (derive_columns r))
                                       (Buffer_Waktu_Jam t))
                df table) /\
    (forall t1 t2 : result_row,
        Status t1 = Status t2 ->
        (Tab1.urgency_leb t1 t2 = true /\ Tab1.urgency_leb t2 t1 = true <->
         (Float64.isnan (Buffer_Waktu_Jam t1) = true /\
          Float64.isnan (Buffer_Waktu_Jam t2) = true) \/
         (Buffer_Waktu_Jam t1 =? Buffer_Waktu_Jam t2)%float = true)) /\
    (forall (table : list result_row) (c : result_row),
        filter (Tab1.tied c) (Tab1.sort_values table) =
        filter (Tab1.tied c) table) /\
    (forall x t t' : float,
        Decimal.one_decimal x t -> Decimal.one_decimal x t' -> t = t').
Proof.
  intros St model. split; [|split; [|split]].
  - intros df w table w' H.
    destruct (process_dashboard_data_returned _ _ _ H) as (statuses & Ha & ->).
    destruct (apply_get_status_returned _ _ _ Ha) as (Hlen & _).
    eapply Forall2_impl;
      [|apply table_rows_rounded; now rewrite Hlen, length_map].
    intros r t (-> & -> & -> & ->).
    repeat split; apply DecimalFacts.round1_one_decimal.
  - intros t1 t2. apply Tab1Facts.tied_same_status.
  - intros table c. apply Tab1Facts.sort_values_stable.
  - intros x t t'. apply DecimalFacts.one_decimal_unique.
Qed.

(** Buffer times 1.04, 1.01 and 1.06 hours: the table shows 1.0, 1.0 and
    1.1; the first two rows compare as equal and stay in their order
    though the second buffer time is the smaller; the third does not
    compare as equal to them. *)
Lemma C10_witness_buffers_104_101_106 :
  let t104 := result_of (derive_columns Samples.row_104) "Hijau" in
  let t101 := result_of (derive_columns Samples.row_101) "Hijau" in
  let t106 := result_of (derive_columns Samples.row_106) "Hijau" in
  outcome_of (process_dashboard_data (Samples.always "Hijau")
                [Samples.row_104; Samples.row_101; Samples.row_106])
             Samples.w0
    = Returned [t104; t101; t106] /\
  map Buffer_Waktu_Jam [t104; t101; t106]
    = [1%float; 1%float; 0x1.199999999999ap+0%float] /\
  Tab1.sort_values [t106; t104; t101] = [t104; t101; t106] /\
  Tab1.urgency_leb t106 t104 = false /\
  (Tab1.urgency_leb t104 t101 = true /\ Tab1.urgency_leb t101 t104 = true).
Proof.
  intros t104 t101 t106.
  do 4 (split; [reflexivity|]).
  apply (proj1 (proj2 (@C10_table_is_rounded_and_ties_are_on_shown_buffer
                         unit (Samples.always "Hijau")))
               t104 t101 eq_refl).
  right. reflexivity.
Defined.

(* ================================================================== *)
(** ** C3: a consumption rate of zero *)
(* ================================================================== *)

(** C3, at the input where the two paths part.  For a row with no stock
    and no consumption, the division of [process_dashboard_data] is [0/0]:
    the depletion time and the buffer are NaN, not [+inf].  The guarded
    expression of the simulation handler gives [+inf] for both on the
    same numbers.  Neither raises, neither takes the "Merah" branch, and
    the classifier is consulted in both. *)
Theorem C3_zero_stock_zero_rate :
  waktu_habis_stok (derive_columns Samples.row_00) = nan /\
  selisih_waktu (derive_columns Samples.row_00) = nan /\
  sim_waktu_habis_stok 0 0 = Float64.inf /\
  sim_selisih_waktu 0 0 2 = Float64.inf /\
  get_status (Samples.always "Hijau") (derive_columns Samples.row_00) Samples.w0
    = (Returned "Hijau",
       {| model_state := tt;
          predict_calls := [InputData "Press" "Mur" 0 2] |}) /\
  predict_button_handler (Samples.always "Hijau") (Samples.konsumsi_of 0)
               "Press" "Mur" 0 2 Samples.w0
    = (Returned (Some {| an_waktu_habis_stok := Float64.inf;
                         an_selisih_waktu := Float64.inf;
                         final_prediksi := "Hijau" |}),
       {| model_state := tt;
          predict_calls := [InputData "Press" "Mur" 0 2] |}).
Proof. repeat split. Qed.

(** The same on every row with no stock and no consumption, whatever its
    lead time: the batch computes NaN for the depletion time and for the
    buffer, does not take the "Merah" branch, and asks the classifier. *)
Theorem zero_over_zero_in_batch :
  forall (St : Type) (model : Model St) (w : world St) (r : raw_row),
    (stok_tersedia r =? 0)%float = true ->
    (konsumsi_per_jam r =? 0)%float = true ->
    waktu_habis_stok (derive_columns r) = nan /\
    selisih_waktu (derive_columns r) = nan /\
    decided (derive_columns r) = false /\
    predict_calls (world_after (get_status model (derive_columns r)) w)
      = predict_calls w ++ [input_of_row (derive_columns r)].
Proof.
  intros St model w r Hs Hk.
  assert (Hw : waktu_habis_stok (derive_columns r) = nan)
    by (simpl; now apply FloatFacts.div_zero_zero).
  assert (Hb : selisih_waktu (derive_columns r) = nan).
  { simpl in Hw |- *. rewrite Hw. apply FloatFacts.nan_sub. }
  assert (Hd : decided (derive_columns r) = false).
  { unfold decided. rewrite Hb. apply FloatFacts.nan_leb_false. }
  repeat split; try assumption.
  unfold world_after. now rewrite get_status_consulted by exact Hd.
Qed.

Lemma zero_over_zero_in_batch_witness :
  waktu_habis_stok (derive_columns Samples.row_00) = nan /\
  decided (derive_columns Samples.row_00) = false.
Proof.
  destruct (@zero_over_zero_in_batch unit (Samples.always "Hijau")
              Samples.w0 Samples.row_00 eq_refl eq_refl)
    as (H1 & _ & H3 & _).
  exact (conj H1 H3).
Defined.

(** What does hold at a rate of zero.  In the simulation handler, on any
    stock and any finite lead time: the depletion time and the buffer are
    [+inf], the "Merah" branch is not taken and the classifier is called
    once, with the simulated frame. *)
Theorem zero_rate_in_handler :
  forall (St : Type) (model : Model St) (w : world St)
         konsumsi_map seksi komponen stok lead k,
    konsumsi_map seksi komponen = Some k ->
    (k =? 0)%float = true ->
    Float64.isfinite lead = true ->
    sim_waktu_habis_stok stok k = Float64.inf /\
    sim_selisih_waktu stok k lead = Float64.inf /\
    (sim_selisih_waktu stok k lead <=? 0)%float = false /\
    predict_calls
      (world_after
         (predict_button_handler model konsumsi_map seksi komponen stok lead) w)
      = predict_calls w ++ [InputData seksi komponen stok lead].
Proof.
  intros St model w konsumsi_map seksi komponen stok lead k Hk H0 Hfin.
  assert (Hw : sim_waktu_habis_stok stok k = Float64.inf).
  { unfold sim_waktu_habis_stok.
    now rewrite (FloatFacts.eqb_0_not_ltb_0 H0). }
  assert (Hs : sim_selisih_waktu stok k lead = Float64.inf).
  { unfold sim_selisih_waktu. rewrite Hw.
    now apply FloatFacts.inf_sub_finite. }
  repeat split; try assumption.
  - rewrite Hs. reflexivity.
  - unfold world_after, predict_button_handler. rewrite Hk.
    unfold sim_selisih_waktu in Hs. rewrite Hs.
    change (Float64.inf <=? 0)%float with false. cbv iota.
    unfold bind, model_predict, ret.
    destruct (model _ (model_state w)) as [[pred|e] s']; reflexivity.
Qed.

Lemma zero_rate_in_handler_witness :
  sim_waktu_habis_stok 100 0 = Float64.inf /\
  sim_selisih_waktu 100 0 2 = Float64.inf.
Proof.
  destruct (@zero_rate_in_handler unit (Samples.always "Hijau") Samples.w0
              (Samples.konsumsi_of 0) "Press" "Mur" 100%float 2%float 0%float
              eq_refl eq_refl eq_refl) as (H1 & H2 & _).
  exact (conj H1 H2).
Defined.

(** In the batch the same holds when there is stock left and the rate is
    [+0.0]: a positive stock over [+0.0] is [+inf]. *)
Theorem zero_rate_in_batch_with_stock :
  forall (St : Type) (model : Model St) (w : world St) (r : raw_row),
    (konsumsi_per_jam r =? 0)%float = true ->
    Float64.sign_clear (konsumsi_per_jam r) = true ->
    (0 <? stok_tersedia r)%float = true ->
    Float64.isfinite (lead_time r) = true ->
    waktu_habis_stok (derive_columns r) = Float64.inf /\
    selisih_waktu (derive_columns r) = Float64.inf /\
    decided (derive_columns r) = false /\
    predict_calls (world_after (get_status model (derive_columns r)) w)
      = predict_calls w ++ [input_of_row (derive_columns r)].
Proof.
  intros St model w r H0 Hsign Hstok Hfin.
  assert (Hw : waktu_habis_stok (derive_columns r) = Float64.inf).
  { simpl. apply FloatFacts.div_pos_by_pos_zero.
    - exact Hstok.
    - now apply FloatFacts.ltb_0_not_nan.
    - now apply FloatFacts.pos_zero_Prim2SF. }
  assert (Hs : selisih_waktu (derive_columns r) = Float64.inf).
  { simpl in Hw |- *. rewrite Hw. now apply FloatFacts.inf_sub_finite. }
  assert (Hd : decided (derive_columns r) = false).
  { unfold decided. rewrite Hs. reflexivity. }
  repeat split; try assumption.
  unfold world_after. now rewrite get_status_consulted by exact Hd.
Qed.

Lemma zero_rate_in_batch_with_stock_witness :
  waktu_habis_stok (derive_columns Samples.row_50) = Float64.inf /\
  selisih_waktu (derive_columns Samples.row_50) = Float64.inf.
Proof.
  destruct (@zero_rate_in_batch_with_stock unit (Samples.always "Hijau")
              Samples.w0 Samples.row_50 eq_refl eq_refl eq_refl eq_refl)
    as (H1 & H2 & _).
  exact (conj H1 H2).
Defined.

(** The depletion time is never below zero when the stock and the rate
    have a clear sign bit ([+0.0], a positive number or [+inf]): on the
    batch path it is a quotient of the two, on the handler's path a
    quotient by a positive rate, or [+inf]. *)
Theorem depletion_time_not_below_zero :
  (forall r : raw_row,
      Float64.sign_clear (stok_tersedia r) = true ->
      Float64.sign_clear (konsumsi_per_jam r) = true ->
      (waktu_habis_stok (derive_columns r) <? 0)%float = false) /\
  (forall stok k : float,
      Float64.sign_clear stok = true ->
      (sim_waktu_habis_stok stok k <? 0)%float = false).
Proof.
  split.
  - intros r Hs Hk. simpl. now apply FloatFacts.div_not_below_zero.
  - intros stok k Hs. unfold sim_waktu_habis_stok.
    destruct (0 <? k)%float eqn:Hk; [|reflexivity].
    apply FloatFacts.div_not_below_zero; [exact Hs|].
    now apply FloatFacts.ltb_0_sign_clear.
Qed.

Lemma depletion_time_not_below_zero_witness :
  (waktu_habis_stok (derive_columns Samples.row_A) <? 0)%float = false.
Proof.
  apply (proj1 depletion_time_not_below_zero Samples.row_A); reflexivity.
Defined.

(** A rate of [-0.0] also equals zero.  The handler's guard sends it to
    [+inf]; the unguarded division of the batch gives [-inf], and the row
    is "Merah" without the classifier being asked. *)
Example negative_zero_rate :
  ((-0) =? 0)%float = true /\
  sim_waktu_habis_stok 5 (-0) = Float64.inf /\
  waktu_habis_stok (derive_columns (Samples.row "Mur" 5 (-0) 2)) = neg_infinity /\
  get_status Samples.raising_stub
    (derive_columns (Samples.row "Mur" 5 (-0) 2)) Samples.w0
    = (Returned "Merah", Samples.w0).
Proof. repeat split. Qed.

(* ================================================================== *)
(** ** The scenarios of the specification and numpy's rounding, run *)
(* ================================================================== *)

Example scenarios_A_B_C :
  outcome_of (process_dashboard_data (Samples.always "Hijau")
                [Samples.row_A; Samples.row_B; Samples.row_C]) Samples.w0
  = Returned
      [ResultRow "2024-01-01" "Press" "Mur" "Hijau" 100 10 5 5;
       ResultRow "2024-01-01" "Press" "Mur" "Merah" 20 2 5 (-3);
       ResultRow "2024-01-01" "Press" "Mur" "Hijau" 60 6 5 1].
Proof. reflexivity. Qed.

Example rint_ties_to_even :
  Numpy.rint 0.5 = 0%float /\ Numpy.rint 1.5 = 2%float /\
  Numpy.rint 2.5 = 2%float /\ Numpy.rint (-2.5) = (-2)%float /\
  Numpy.rint (-0.25) = (-0)%float /\ Numpy.rint 7 = 7%float.
Proof. repeat split. Qed.

Example round1_samples :
  Numpy.round1 0.25 = 0x1.999999999999ap-3%float /\
  Numpy.round1 0.75 = 0x1.999999999999ap-1%float /\
  Numpy.round1 (-3) = (-3)%float /\
  Numpy.round1 nan = nan /\
  Numpy.round1 infinity = infinity /\
  Numpy.round1 neg_infinity = neg_infinity.
Proof. repeat split. Qed.

(* ================================================================== *)
(** ** The returned table, row by row *)
(* ================================================================== *)

Section TableRows.

Variable St : Type.
Variable model : Model St.

(** Each status of a successful [apply] was returned by the function on
    the row at the same position, in some world. *)
Lemma apply_rows_Forall2 {A B : Type} (f : A -> M St B) (rows : list A) :
  forall (w w' : world St) (vs : list B),
    apply_rows f rows w = (Returned vs, w') ->
    Forall2 (fun r v => exists w1 w2, f r w1 = (Returned v, w2)) rows vs.
Proof.
  induction rows as [|r rest IH]; intros w w' vs.
  - simpl. unfold ret. intros [= <- _]. constructor.
  - rewrite apply_rows_cons.
    destruct (f r w) as [[v|e] w1] eqn:E; [|discriminate].
    destruct (apply_rows f rest w1) as [[vs'|e] w2] eqn:E'; [|discriminate].
    intros [= <- _]. constructor; eauto.
Qed.

Lemma remap_not_Merah (pred : string) : remap pred <> "Merah".
Proof.
  unfold remap. destruct (String.eqb_spec pred "Merah"); congruence.
Qed.

(** A returned status is "Merah" exactly on a decided row: whatever the
    classifier answers, its "Merah" has become "Kuning". *)
Lemma get_status_Merah_iff (row : dashboard_row) (w w' : world St) status :
  get_status model row w = (Returned status, w') ->
  (status = "Merah" <-> decided row = true).
Proof.
  destruct (decided row) eqn:D.
  - rewrite get_status_decided by exact D. intros [= <- _]. tauto.
  - rewrite get_status_consulted by exact D.
    destruct (model (input_of_row row) (model_state w)) as [[pred|e] s'];
      simpl; [|discriminate].
    intros [= <- _]. split; [|discriminate].
    intros H. now apply remap_not_Merah in H.
Qed.

(** From the rows and their statuses to the data and the table. *)
Lemma Forall2_table (P : dashboard_row -> string -> Prop)
    (Q : raw_row -> result_row -> Prop) :
  (forall r s, P (derive_columns r) s -> Q r (result_of (derive_columns r) s)) ->
  forall df statuses,
    Forall2 P (map derive_columns df) statuses ->
    Forall2 Q df (map (fun p => result_of (fst p) (snd p))
                      (combine (map derive_columns df) statuses)).
Proof.
  intros HPQ df. induction df as [|r df IH]; intros statuses H;
    inversion H; subst; simpl; constructor; auto.
Qed.

Lemma Forall2_filter_length {A B : Type} (R : A -> B -> Prop)
    (p : A -> bool) (q : B -> bool) (l : list A) (l' : list B) :
  (forall a b, R a b -> p a = q b) ->
  Forall2 R l l' ->
  List.length (filter p l) = List.length (filter q l').
Proof.
  intros Hpq. induction 1 as [|a b l l' Hab _ IH]; simpl; [reflexivity|].
  rewrite (Hpq a b Hab). destruct (q b); simpl; congruence.
Qed.

Lemma Forall2_and {A B : Type} (R R' : A -> B -> Prop) (l : list A) l' :
  Forall2 R l l' -> Forall2 R' l l' ->
  Forall2 (fun a b => R a b /\ R' a b) l l'.
Proof.
  induction 1; intros H'; inversion H'; subst; constructor; auto.
Qed.

End TableRows.

(** Row by row: the status of a returned table is "Merah" exactly on
    the rows the code decides itself. *)
Lemma table_Merah_iff (St : Type) (model : Model St) (w w' : world St)
    (df : list raw_row) (table : list result_row) :
  process_dashboard_data model df w = (Returned table, w') ->
  Forall2 (fun r t =>
             Status t = "Merah" <->
             (selisih_waktu (derive_columns r) <=? 0)%float = true)
          df table.
Proof.
  intros H.
  destruct (process_dashboard_data_returned _ _ _ H) as (statuses & Ha & ->).
  apply Forall2_table with
    (P := fun row s => s = "Merah" <-> decided row = true).
  - intros r s Hs. exact Hs.
  - pose proof (@apply_rows_Forall2 St _ _ (get_status model) _ _ _ _ Ha)
      as HF.
    eapply Forall2_impl; [|exact HF].
    intros row s (w1 & w2 & Hg). exact (@get_status_Merah_iff St model _ _ _ _ Hg).
Qed.

(** In a table that [process_dashboard_data] returns, a row is "Merah"
    exactly when its (unrounded) buffer is [<= 0]: the classifier can put
    any other status on a row, never this one.  The handler's
    [final_prediksi] obeys the same rule. *)
Theorem Merah_exactly_on_nonpositive_buffer :
  forall (St : Type) (model : Model St) (w : world St),
    (forall df table w',
        process_dashboard_data model df w = (Returned table, w') ->
        Forall2 (fun r t =>
                   Status t = "Merah" <->
                   (selisih_waktu (derive_columns r) <=? 0)%float = true)
                df table) /\
    (forall konsumsi_map seksi komponen stok lead a w',
        predict_button_handler model konsumsi_map seksi komponen stok lead w
          = (Returned (Some a), w') ->
        (final_prediksi a = "Merah" <->
         (an_selisih_waktu a <=? 0)%float = true)).
Proof.
  intros St model w. split.
  - intros df table w' H. exact (table_Merah_iff _ _ _ H).
  - intros konsumsi_map seksi komponen stok lead a w'.
    unfold predict_button_handler.
    destruct (konsumsi_map seksi komponen) as [k|]; [|discriminate].
    destruct (_ <=? 0)%float eqn:D.
    + unfold ret. intros [= <- _]. simpl. rewrite D. tauto.
    + unfold bind, model_predict, ret.
      destruct (model _ (model_state w)) as [[pred|e] s']; [|discriminate].
      intros [= <- _]. simpl. rewrite D. split; [|discriminate].
      intros H. now apply remap_not_Merah in H.
Qed.

(** Scenarios A, B and C under a model that answers "Merah" to every
    frame: only scenario B, whose buffer is -3, is "Merah" in the table. *)
Lemma Merah_exactly_on_nonpositive_buffer_witness :
  Forall2 (fun r t =>
             Status t = "Merah" <->
             (selisih_waktu (derive_columns r) <=? 0)%float = true)
    [Samples.row_A; Samples.row_B; Samples.row_C]
    [ResultRow "2024-01-01" "Press" "Mur" "Kuning" 100 10 5 5;
     ResultRow "2024-01-01" "Press" "Mur" "Merah" 20 2 5 (-3);
     ResultRow "2024-01-01" "Press" "Mur" "Kuning" 60 6 5 1].
Proof.
  refine (proj1 (@Merah_exactly_on_nonpositive_buffer unit
                   (Samples.always "Merah") Samples.w0)
                [Samples.row_A; Samples.row_B; Samples.row_C] _ _ _).
  reflexivity.
Defined.

(** On data of at least one row (the callers pass no other), a returned
    table has one row for each row of the data, in the same order and
    with the date, section and component unchanged; and the classifier
    has been called once for each row that is not "Merah", no more and no
    less. *)
Theorem table_keeps_rows_and_counts_calls :
  forall (St : Type) (model : Model St) (w w' : world St)
         (df : list raw_row) (table : list result_row),
    df <> [] ->
    process_dashboard_data model df w = (Returned table, w') ->
    Forall2 (fun r t =>
               Tanggal t = tanggal r /\
               Seksi_Tujuan t = seksi_tujuan r /\
               Nama_Komponen t = nama_komponen r)
            df table /\
    List.length (predict_calls w') =
      (List.length (predict_calls w) +
       List.length (filter (fun t => negb (String.eqb (Status t) "Merah"))
                           table))%nat.
Proof.
  intros St model w w' df table _ H.
  pose proof (table_Merah_iff _ _ _ H) as HM.
  destruct (process_dashboard_data_returned _ _ _ H) as (statuses & Ha & ->).
  destruct (apply_get_status_returned _ _ _ Ha) as (Hlen & Hcalls & _).
  split.
  - apply Forall2_table with (P := fun _ _ => True).
    + intros r s _. repeat split.
    + pose proof (@apply_rows_Forall2 St _ _ (get_status model) _ _ _ _ Ha)
        as HF.
      eapply Forall2_impl; [|exact HF]. auto.
  - rewrite Hcalls, length_app, filter_map_derive, length_map.
    f_equal.
    apply (@Forall2_filter_length _ _
             (fun r t => Status t = "Merah" <->
                         (selisih_waktu (derive_columns r) <=? 0)%float = true)
             (fun r => consulted (derive_columns r))
             (fun t => negb (String.eqb (Status t) "Merah")));
      [|exact HM].
    intros r t Hrt. unfold consulted, decided.
    destruct (selisih_waktu (derive_columns r) <=? 0)%float;
      destruct (String.eqb_spec (Status t) "Merah"); simpl;
      try reflexivity; intuition congruence.
Qed.

(** Scenarios A, B and C under the counting model: three rows out, and
    two calls, for the two rows that are not "Merah". *)
Lemma table_keeps_rows_and_counts_calls_witness :
  let call := process_dashboard_data (Samples.counting "Hijau")
                [Samples.row_A; Samples.row_B; Samples.row_C] in
  List.length (predict_calls (world_after call Samples.n0)) = 2%nat /\
  model_state (world_after call Samples.n0) = 2%nat.
Proof.
  intros call.
  destruct (@table_keeps_rows_and_counts_calls nat
              (Samples.counting "Hijau") Samples.n0
              (world_after call Samples.n0)
              [Samples.row_A; Samples.row_B; Samples.row_C]
              [ResultRow "2024-01-01" "Press" "Mur" "Hijau" 100 10 5 5;
               ResultRow "2024-01-01" "Press" "Mur" "Merah" 20 2 5 (-3);
               ResultRow "2024-01-01" "Press" "Mur" "Hijau" 60 6 5 1]
              ltac:(discriminate) eq_refl) as [_ Hcalls].
  split; [exact Hcalls | reflexivity].
Defined.

(* ================================================================== *)
(** ** The simulation against the dashboard *)
(* ================================================================== *)

(** On a strictly positive consumption rate the simulation handler does
    what the dashboard does on a row with the same section, component,
    stock, rate and lead time: the same depletion time and buffer (before
    rounding), the same status or the same exception, the same call to
    the classifier. *)
Theorem simulation_agrees_with_dashboard :
  forall (St : Type) (model : Model St) (w : world St)
         konsumsi_map seksi komponen stok lead k date,
    konsumsi_map seksi komponen = Some k ->
    (0 <? k)%float = true ->
    let row := derive_columns (RawRow date seksi komponen stok k lead) in
    predict_button_handler model konsumsi_map seksi komponen stok lead w =
      (match outcome_of (get_status model row) w with
       | Returned status =>
           Returned (Some {| an_waktu_habis_stok := waktu_habis_stok row;
                             an_selisih_waktu := selisih_waktu row;
                             final_prediksi := status |})
       | Raised e => Raised e
       end,
       world_after (get_status model row) w).
Proof.
  intros St model w konsumsi_map seksi komponen stok lead k date Hk Hpos row.
  unfold predict_button_handler, outcome_of, world_after, get_status.
  rewrite Hk. unfold sim_waktu_habis_stok. rewrite Hpos.
  subst row. simpl.
  destruct (stok / k - lead <=? 0)%float; [reflexivity|].
  unfold bind, model_predict, ret. simpl.
  destruct (model _ (model_state w)) as [[pred|e] s']; reflexivity.
Qed.

(** Scenario C simulated (60 units at 10 per hour, lead time 5) with a
    model that answers "Merah": "Kuning", as in the dashboard. *)
Lemma simulation_agrees_with_dashboard_witness :
  outcome_of (predict_button_handler (Samples.always "Merah")
                (Samples.konsumsi_of 10) "Press" "Mur" 60 5) Samples.w0
  = Returned (Some {| an_waktu_habis_stok := 6;
                      an_selisih_waktu := 1;
                      final_prediksi := "Kuning" |}).
Proof.
  unfold outcome_of.
  rewrite (@simulation_agrees_with_dashboard unit (Samples.always "Merah")
             Samples.w0 (Samples.konsumsi_of 10) "Press" "Mur"
             60%float 5%float 10%float "2024-01-01" eq_refl eq_refl).
  reflexivity.
Defined.

(* ================================================================== *)
(** ** Tab 1: metrics, hot spots and colours *)
(* ================================================================== *)

Module Tab1ViewFacts.

Import Tab1 Tab1View.

Lemma compare_Eq_eq (a b : string) : String_as_OT.compare a b = Eq -> a = b.
Proof. destruct (String_as_OT.compare_spec a b); congruence. Qed.

Lemma lt_neq (a b : string) : String_as_OT.lt a b -> a <> b.
Proof.
  intros H ->. exact (StrictOrder_Irreflexive (R := String_as_OT.lt) b H).
Qed.

Lemma lt_trans (a b c : string) :
  String_as_OT.lt a b -> String_as_OT.lt b c -> String_as_OT.lt a c.
Proof. apply (StrictOrder_Transitive (R := String_as_OT.lt)). Qed.

Lemma compare_Gt_lt (a b : string) :
  String_as_OT.compare a b = Gt -> String_as_OT.lt b a.
Proof. destruct (String_as_OT.compare_spec a b); congruence. Qed.

(** Below every key of an ascending list: no group yet. *)
Lemma count_of_below (key : string) (groups : list (string * nat)) :
  Forall (String_as_OT.lt key) (map fst groups) -> count_of key groups = 0%nat.
Proof.
  induction groups as [|[k n] rest IH]; simpl; [reflexivity|].
  intros H. inversion H as [|? ? Hk Hrest]; subst.
  apply lt_neq in Hk. apply String.eqb_neq in Hk. rewrite Hk. now apply IH.
Qed.

Lemma count_in_keys (key : string) (groups : list (string * nat)) k :
  In k (map fst (count_in key groups)) <-> k = key \/ In k (map fst groups).
Proof.
  induction groups as [|[k' n] rest IH]; simpl.
  - intuition.
  - destruct (String_as_OT.compare key k') eqn:E; simpl.
    + apply compare_Eq_eq in E. subst. intuition.
    + intuition.
    + rewrite IH. intuition.
Qed.

Lemma count_in_ascending (key : string) (groups : list (string * nat)) :
  keys_ascending groups -> keys_ascending (count_in key groups).
Proof.
  unfold keys_ascending.
  induction groups as [|[k n] rest IH]; simpl; intros H.
  - repeat constructor.
  - inversion H as [|? ? Hs Hall]; subst.
    destruct (String_as_OT.compare key k) eqn:E; simpl.
    + constructor; assumption.
    + constructor; [exact H|]. constructor; [exact E|].
      eapply Forall_impl; [|exact Hall]. intros c Hc.
      exact (lt_trans E Hc).
    + constructor; [now apply IH|].
      rewrite Forall_forall in Hall |- *. intros c Hc.
      apply count_in_keys in Hc. destruct Hc as [-> | Hc].
      * now apply compare_Gt_lt.
      * now apply Hall.
Qed.

(** The counts after one more row. *)
Lemma count_of_count_in (key : string) (groups : list (string * nat)) k :
  keys_ascending groups ->
  count_of k (count_in key groups) =
    if String.eqb k key then S (count_of key groups) else count_of k groups.
Proof.
  unfold keys_ascending.
  induction groups as [|[k' n] rest IH]; simpl; intros H.
  - destruct (String.eqb k key); reflexivity.
  - inversion H as [|? ? Hs Hall]; subst.
    destruct (String_as_OT.compare key k') eqn:E; simpl.
    + apply compare_Eq_eq in E. subst k'. rewrite String.eqb_refl.
      destruct (String.eqb k key); reflexivity.
    + assert (Hne : String.eqb key k' = false)
        by (apply String.eqb_neq, lt_neq, E).
      rewrite Hne.
      destruct (String.eqb_spec k key) as [Heq | Hk]; [subst k|reflexivity].
      f_equal. symmetry. apply count_of_below.
      eapply Forall_impl; [|exact Hall]. intros c Hc. exact (lt_trans E Hc).
    + assert (Hne : String.eqb key k' = false).
      { apply String.eqb_neq. intros ->.
        apply compare_Gt_lt in E. now apply lt_neq in E. }
      rewrite Hne, (IH Hs).
      destruct (String.eqb_spec k k') as [Heq | Hk]; [subst k|reflexivity].
      rewrite String.eqb_sym, Hne. reflexivity.
Qed.

Lemma count_in_sum (key : string) (groups : list (string * nat)) :
  list_sum (map snd (count_in key groups)) = S (list_sum (map snd groups)).
Proof.
  induction groups as [|[k n] rest IH]; simpl; [reflexivity|].
  destruct (String_as_OT.compare key k); simpl; [reflexivity..|].
  rewrite IH. lia.
Qed.

Lemma count_in_positive (key : string) (groups : list (string * nat)) :
  Forall (fun g => (1 <= snd g)%nat) groups ->
  Forall (fun g => (1 <= snd g)%nat) (count_in key groups).
Proof.
  induction groups as [|[k n] rest IH]; simpl; intros H.
  - repeat constructor.
  - inversion H; subst.
    destruct (String_as_OT.compare key k); constructor; simpl in *;
      auto; lia.
Qed.

Lemma fold_count_in (keys : list string) :
  forall groups,
    keys_ascending groups ->
    Forall (fun g => (1 <= snd g)%nat) groups ->
    let result := fold_left (fun gs key => count_in key gs) keys groups in
    keys_ascending result /\
    Forall (fun g => (1 <= snd g)%nat) result /\
    (forall k, count_of k result = (count_of k groups + occurrences k keys)%nat) /\
    list_sum (map snd result) =
      (list_sum (map snd groups) + List.length keys)%nat.
Proof.
  induction keys as [|key keys IH]; intros groups Hs Hp; simpl.
  - repeat split; auto.
  - destruct (IH (count_in key groups) (count_in_ascending key Hs)
                 (count_in_positive key Hp)) as (H1 & H2 & H3 & H4).
    repeat split; auto.
    + intros k. rewrite H3, (count_of_count_in key k Hs).
      unfold occurrences. simpl.
      destruct (String.eqb_spec k key) as [Heq | Hk]; subst; simpl; lia.
    + rewrite H4, count_in_sum. lia.
Qed.

(** In an ascending list of groups an entry is the count of its key. *)
Lemma In_count_of (groups : list (string * nat)) k n :
  keys_ascending groups ->
  In (k, n) groups -> count_of k groups = n.
Proof.
  unfold keys_ascending.
  induction groups as [|[k' n'] rest IH]; simpl; intros H; [tauto|].
  inversion H as [|? ? Hs Hall]; subst.
  intros [[= -> ->] | Hin].
  - now rewrite String.eqb_refl.
  - assert (Hne : String.eqb k k' = false).
    { apply String.eqb_neq. intros ->.
      rewrite Forall_forall in Hall.
      assert (Hk : String_as_OT.lt k' k')
        by (apply Hall, in_map_iff; now exists (k', n)).
      now apply lt_neq in Hk. }
    rewrite Hne. now apply IH.
Qed.

Lemma ascending_NoDup (l : list string) :
  StronglySorted String_as_OT.lt l -> NoDup l.
Proof.
  induction 1 as [|k l Hs IH Hall]; constructor; [|exact IH].
  intros Hin. rewrite Forall_forall in Hall.
  now apply Hall, lt_neq in Hin.
Qed.

Lemma list_sum_perm (l l' : list nat) :
  Permutation l l' -> list_sum l = list_sum l'.
Proof. induction 1; simpl; lia. Qed.

Lemma filter_orb_length {A : Type} (p q : A -> bool) (l : list A) :
  (forall a, p a = true -> q a = false) ->
  List.length (filter (fun a => p a || q a) l) =
    (List.length (filter p l) + List.length (filter q l))%nat.
Proof.
  intros Hpq. induction l as [|a l IH]; simpl; [reflexivity|].
  destruct (p a) eqn:P; simpl.
  - rewrite (Hpq a P). simpl. lia.
  - destruct (q a); simpl; lia.
Qed.

Lemma hotspot_data_length (filtered : list result_row) :
  List.length (hotspot_data filtered) =
    (merah_count filtered + kuning_count filtered)%nat.
Proof.
  unfold hotspot_data, merah_count, kuning_count, status_count.
  rewrite <- filter_orb_length.
  - f_equal. apply filter_ext. intros t. unfold isin. simpl.
    now rewrite orb_false_r.
  - intros t H. apply String.eqb_eq in H. rewrite H. reflexivity.
Qed.

Lemma insert_group_perm g (l : list (string * nat)) :
  Permutation (g :: l) (insert_group g l).
Proof.
  induction l as [|h l IH]; simpl; [reflexivity|].
  destruct (Nat.leb (snd g) (snd h)); [reflexivity|].
  rewrite perm_swap. now constructor.
Qed.

Lemma sort_by_count_perm (l : list (string * nat)) :
  Permutation l (sort_by_count l).
Proof.
  induction l as [|g l IH]; simpl; [constructor|].
  rewrite <- insert_group_perm. now constructor.
Qed.

End Tab1ViewFacts.

Section Tab1ViewTheorems.

Import Tab1 Tab1View Tab1ViewFacts.

Lemma occurrences_map {A : Type} (f : A -> string) (k : string) (l : list A) :
  occurrences k (map f l) =
    List.length (filter (fun a => String.eqb (f a) k) l).
Proof.
  unfold occurrences. induction l as [|a l IH]; simpl; [reflexivity|].
  rewrite (String.eqb_sym k (f a)).
  destruct (String.eqb (f a) k); simpl; congruence.
Qed.

Lemma count_of_In (groups : list (string * nat)) k :
  count_of k groups <> 0%nat -> In (k, count_of k groups) groups.
Proof.
  induction groups as [|[k' n] rest IH]; simpl; [congruence|].
  destruct (String.eqb_spec k k') as [Heq | Hne]; [subst; now left|].
  intros H. right. now apply IH.
Qed.

Lemma filter_length_perm {A : Type} (p : A -> bool) (l l' : list A) :
  Permutation l l' ->
  List.length (filter p l) = List.length (filter p l').
Proof.
  induction 1 as [|a l l' _ IH|a b l|l l' l'' _ IH1 _ IH2]; simpl.
  - reflexivity.
  - destruct (p a); simpl; congruence.
  - destruct (p a), (p b); reflexivity.
  - congruence.
Qed.

Lemma three_level_partition (l : list result_row) :
  Forall (fun t => three_level (Status t)) l ->
  List.length l =
    (status_count "Merah" l + status_count "Kuning" l +
     status_count "Hijau" l)%nat.
Proof.
  unfold status_count.
  induction 1 as [|t l Ht _ IH]; simpl; [reflexivity|].
  destruct Ht as [-> | [-> | ->]]; simpl; lia.
Qed.

Lemma filtered_three_level selected (table : list result_row) :
  incl selected status_options ->
  Forall (fun t => three_level (Status t)) (filtered_dashboard selected table).
Proof.
  intros Hincl. rewrite Forall_forall. intros t Hin.
  unfold filtered_dashboard in Hin. apply filter_In in Hin.
  eapply Tab1Facts.isin_three_level; [exact Hincl | apply Hin].
Qed.

Lemma isin_In selected (t : result_row) :
  isin selected t = true <-> In (Status t) selected.
Proof.
  unfold isin. rewrite existsb_exists. split.
  - intros (s & Hin & Heq). apply String.eqb_eq in Heq. now rewrite Heq.
  - intros Hin. exists (Status t). split; [exact Hin | apply String.eqb_refl].
Qed.

Lemma shown_three_level selected (table : list result_row) :
  incl selected status_options ->
  Forall (fun t => three_level (Status t)) (sorted_df selected table).
Proof.
  intros Hincl. rewrite Forall_forall. intros t Hin.
  apply (Permutation_in _ (Permutation_sym
           (Tab1Facts.sort_values_perm (filtered_dashboard selected table))))
    in Hin.
  pose proof (filtered_three_level table Hincl) as Hall.
  rewrite Forall_forall in Hall. now apply Hall.
Qed.

End Tab1ViewTheorems.

(** The display filter and the three metrics of tab 1.  A row is shown
    exactly when it is in the table and its status is selected, so a row
    whose status is none of the three is never shown.  The total count is
    the sum of the "Merah" count, the "Kuning" count and the number of
    "Hijau" rows; a status that is not selected counts 0; and the counts
    of the table as displayed (sorted) are those of the filtered table. *)
Theorem metrics_partition_the_displayed_rows :
  forall (selected_statuses : list string) (dashboard_data : list result_row),
    incl selected_statuses Tab1.status_options ->
    let filtered := Tab1.filtered_dashboard selected_statuses dashboard_data in
    let shown := Tab1.sorted_df selected_statuses dashboard_data in
    (forall t, In t shown <->
               In t dashboard_data /\ In (Status t) selected_statuses) /\
    (forall t, ~ three_level (Status t) -> ~ In t shown) /\
    Tab1View.total_count filtered =
      (Tab1View.merah_count filtered + Tab1View.kuning_count filtered +
       Tab1View.status_count "Hijau" filtered)%nat /\
    (forall status, ~ In status selected_statuses ->
                    Tab1View.status_count status filtered = 0%nat) /\
    (forall status, Tab1View.status_count status shown =
                    Tab1View.status_count status filtered) /\
    Tab1View.total_count shown = Tab1View.total_count filtered.
Proof.
  intros selected table Hincl filtered shown.
  assert (Hperm : Permutation filtered shown)
    by apply Tab1Facts.sort_values_perm.
  assert (Hshown : forall t, In t shown <->
                             In t table /\ In (Status t) selected).
  { intros t. split.
    - intros Hin. apply (Permutation_in _ (Permutation_sym Hperm)) in Hin.
      unfold filtered, Tab1.filtered_dashboard in Hin.
      apply filter_In in Hin. now rewrite isin_In in Hin.
    - intros [Hin Hsel]. apply (Permutation_in _ Hperm).
      unfold filtered, Tab1.filtered_dashboard. apply filter_In.
      now rewrite isin_In. }
  split; [exact Hshown|]. split; [|split; [|split; [|split]]].
  - intros t Hout Hin. apply Hshown in Hin. destruct Hin as [_ Hsel].
    apply Hincl in Hsel. apply Hout.
    unfold Tab1.status_options, three_level in *. simpl in Hsel.
    intuition congruence.
  - apply three_level_partition, filtered_three_level, Hincl.
  - intros status Hout. unfold Tab1View.status_count.
    rewrite (proj2 (List.length_zero_iff_nil _)); [reflexivity|].
    destruct (filter _ filtered) as [|t rest] eqn:E; [reflexivity|].
    exfalso. assert (Hin : In t (filter (fun t => String.eqb (Status t) status)
                                        filtered))
      by (rewrite E; now left).
    apply filter_In in Hin. destruct Hin as [Hin Heq].
    apply String.eqb_eq in Heq. subst status.
    unfold filtered, Tab1.filtered_dashboard in Hin.
    apply filter_In in Hin. destruct Hin as [_ Hin].
    now apply isin_In in Hin.
  - intros status. unfold Tab1View.status_count.
    symmetry. now apply filter_length_perm.
  - unfold Tab1View.total_count. symmetry. now apply Permutation_length.
Qed.

(** Four rows, one of them "Biru", with only "Merah" and "Hijau" selected:
    two rows are shown, one "Merah", no "Kuning". *)
Lemma metrics_partition_the_displayed_rows_witness :
  let table := [Samples.table_row "Hijau" 5; Samples.table_row "Kuning" 1;
                Samples.table_row "Biru" 2; Samples.table_row "Merah" (-3)] in
  let filtered := Tab1.filtered_dashboard ["Merah"; "Hijau"] table in
  Tab1View.total_count filtered = 2%nat /\
  Tab1View.total_count filtered =
    (Tab1View.merah_count filtered + Tab1View.kuning_count filtered +
     Tab1View.status_count "Hijau" filtered)%nat.
Proof.
  intros table filtered. split; [reflexivity|].
  refine (proj1 (proj2 (proj2
    (@metrics_partition_the_displayed_rows ["Merah"; "Hijau"] table _)))).
  intros s [<- | [<- | []]]; simpl; auto.
Defined.

(** The hot-spot chart of tab 1, whatever order the sort leaves equal
    counts in: each section appears once; its bar is the number of
    "Merah" and "Kuning" rows of that section, at least 1; every section
    with such a row has a bar; and the bars add up to the "Merah" count
    plus the "Kuning" count shown in the metrics. *)
Theorem hotspot_counts_match_the_metrics :
  forall sort_values : list (string * nat) -> list (string * nat),
    (forall groups, Permutation groups (sort_values groups)) ->
    forall filtered : list result_row,
      let chart := Tab1View.hotspot_count sort_values filtered in
      NoDup (map fst chart) /\
      (forall seksi n,
          In (seksi, n) chart ->
          (1 <= n)%nat /\
          n = List.length
                (filter (fun t => String.eqb (Seksi_Tujuan t) seksi)
                        (Tab1View.hotspot_data filtered))) /\
      (forall t, In t (Tab1View.hotspot_data filtered) ->
                 In (Seksi_Tujuan t) (map fst chart)) /\
      list_sum (map snd chart) =
        (Tab1View.merah_count filtered + Tab1View.kuning_count filtered)%nat.
Proof.
  intros sort_values Hsort filtered chart.
  set (rows := Tab1View.hotspot_data filtered).
  set (groups := Tab1View.groupby_count (map Seksi_Tujuan rows)).
  assert (Hperm : Permutation groups chart) by apply Hsort.
  assert (Hfacts :
            Tab1View.keys_ascending groups /\
            Forall (fun g => (1 <= snd g)%nat) groups /\
            (forall k, Tab1View.count_of k groups =
                       Tab1View.occurrences k (map Seksi_Tujuan rows)) /\
            list_sum (map snd groups) = List.length rows).
  { destruct (@Tab1ViewFacts.fold_count_in (map Seksi_Tujuan rows) []
                ltac:(constructor) ltac:(constructor))
      as (H1 & H2 & H3 & H4).
    rewrite length_map in H4. repeat split; assumption. }
  destruct Hfacts as (Hasc & Hpos & Hcount & Hsum).
  split; [|split; [|split]].
  4: { rewrite <- (Tab1ViewFacts.list_sum_perm (Permutation_map snd Hperm)).
       rewrite Hsum. apply Tab1ViewFacts.hotspot_data_length. }
  3: { intros t Hin.
       apply (Permutation_in _ (Permutation_map fst Hperm)).
       assert (Hne : Tab1View.count_of (Seksi_Tujuan t) groups <> 0%nat).
       { rewrite Hcount, occurrences_map.
         assert (Hin' : In t (filter (fun a => String.eqb (Seksi_Tujuan a)
                                                  (Seksi_Tujuan t)) rows))
           by (apply filter_In; split; [exact Hin | apply String.eqb_refl]).
         destruct (filter _ rows); [destruct Hin' | simpl; lia]. }
       apply count_of_In in Hne. apply in_map_iff.
       now exists (Seksi_Tujuan t,
                   Tab1View.count_of (Seksi_Tujuan t) groups). }
  - apply (Permutation_NoDup (Permutation_map fst Hperm)).
    now apply Tab1ViewFacts.ascending_NoDup.
  - intros seksi n Hin.
    apply (Permutation_in _ (Permutation_sym Hperm)) in Hin. split.
    + rewrite Forall_forall in Hpos. exact (Hpos _ Hin).
    + rewrite <- (@Tab1ViewFacts.In_count_of groups seksi n Hasc Hin), Hcount.
      apply occurrences_map.
Qed.

(** Five rows over three sections, the groups sorted by ascending count:
    "Welding" has one "Kuning" row, "Press" a "Merah" and a "Kuning" row,
    and "Machining", whose only row is "Hijau", has no bar. *)
Lemma hotspot_counts_match_the_metrics_witness :
  let filtered :=
    [ResultRow "2024-01-01" "Press" "Mur" "Merah" 20 2 5 (-3);
     ResultRow "2024-01-01" "Welding" "Baut" "Kuning" 60 6 5 1;
     ResultRow "2024-01-01" "Machining" "Mur" "Hijau" 100 10 5 5;
     ResultRow "2024-01-01" "Press" "Baut" "Kuning" 60 6 5 1] in
  Tab1View.hotspot_count Tab1View.sort_by_count filtered
    = [("Welding", 1%nat); ("Press", 2%nat)] /\
  list_sum (map snd (Tab1View.hotspot_count Tab1View.sort_by_count filtered))
    = (Tab1View.merah_count filtered + Tab1View.kuning_count filtered)%nat.
Proof.
  intros filtered. split; [reflexivity|].
  apply (@hotspot_counts_match_the_metrics Tab1View.sort_by_count
           Tab1ViewFacts.sort_by_count_perm filtered).
Defined.

(** The colour of a status cell tells the status of a displayed row: two
    displayed rows are coloured alike exactly when they have the same
    status.  A status that is none of the three would be coloured like
    "Hijau". *)
Theorem colour_identifies_the_status :
  (forall (selected_statuses : list string)
          (dashboard_data : list result_row) (a b : result_row),
      incl selected_statuses Tab1.status_options ->
      In a (Tab1.sorted_df selected_statuses dashboard_data) ->
      In b (Tab1.sorted_df selected_statuses dashboard_data) ->
      (Tab1View.color_status (Status a) = Tab1View.color_status (Status b)
       <-> Status a = Status b)) /\
  (forall val, val <> "Merah" -> val <> "Kuning" ->
               Tab1View.color_status val = Tab1View.color_status "Hijau").
Proof.
  split.
  - intros selected table a b Hincl Ha Hb.
    pose proof (shown_three_level table Hincl) as Hall.
    rewrite Forall_forall in Hall.
    pose proof (Hall a Ha) as Sa. pose proof (Hall b Hb) as Sb.
    split; [|congruence].
    destruct Sa as [-> | [-> | ->]], Sb as [-> | [-> | ->]];
      (reflexivity || (intros H; vm_compute in H; discriminate)).
  - intros val H1 H2. unfold Tab1View.color_status.
    apply String.eqb_neq in H1. apply String.eqb_neq in H2.
    now rewrite H1, H2.
Qed.

(** Rows "Merah" and "Hijau" of a displayed table are coloured apart. *)
Lemma colour_identifies_the_status_witness :
  Tab1View.color_status "Merah" = Tab1View.color_status "Hijau"
  <-> "Merah" = "Hijau".
Proof.
  pose (table := [Samples.table_row "Merah" (-3); Samples.table_row "Hijau" 5]).
  apply (proj1 colour_identifies_the_status Tab1.status_options table
           (Samples.table_row "Merah" (-3)) (Samples.table_row "Hijau" 5)
           (incl_refl _)).
  - simpl. auto.
  - simpl. auto.
Defined.

(* ================================================================== *)
(** ** The holiday notice *)
(* ================================================================== *)

Module HolidayFacts.

Import Holidays.

Local Open Scope Z_scope.

Lemma in_next_7_days (today d : Z) :
  existsb (Z.eqb d) (next_7_days today) = true <-> today <= d <= today + 7.
Proof.
  unfold next_7_days. rewrite existsb_exists. split.
  - intros (x & Hin & Heq). apply Z.eqb_eq in Heq. subst x.
    apply in_map_iff in Hin. destruct Hin as (i & <- & Hi).
    apply in_seq in Hi. lia.
  - intros H. exists d. split; [|apply Z.eqb_refl].
    apply in_map_iff. exists (Z.to_nat (d - today)). split; [lia|].
    apply in_seq. lia.
Qed.

Lemma dict_get_set {V : Type} (k k' : Z) (v : V) (d : list (Z * V)) :
  dict_get k (dict_set k' v d) =
    if Z.eqb k k' then Some v else dict_get k d.
Proof.
  induction d as [|[k0 v0] rest IH]; simpl.
  - reflexivity.
  - destruct (Z.eqb_spec k' k0) as [-> | Hne]; simpl.
    + destruct (Z.eqb k k0); reflexivity.
    + rewrite IH. destruct (Z.eqb_spec k k0) as [-> | Hk]; [|reflexivity].
      destruct (Z.eqb_spec k0 k'); congruence.
Qed.

Lemma dict_set_keys {V : Type} (k k' : Z) (v : V) (d : list (Z * V)) :
  In k (map fst (dict_set k' v d)) <-> k = k' \/ In k (map fst d).
Proof.
  induction d as [|[k0 v0] rest IH]; simpl.
  - intuition.
  - destruct (Z.eqb_spec k' k0) as [-> | Hne]; simpl.
    + intuition.
    + rewrite IH. intuition.
Qed.

Lemma dict_set_NoDup {V : Type} (k' : Z) (v : V) (d : list (Z * V)) :
  NoDup (map fst d) -> NoDup (map fst (dict_set k' v d)).
Proof.
  induction d as [|[k0 v0] rest IH]; simpl; intros H.
  - repeat constructor. intros [].
  - inversion H as [|? ? Hnotin Hrest]; subst.
    destruct (Z.eqb_spec k' k0) as [-> | Hne]; simpl.
    + now constructor.
    + constructor; [|now apply IH].
      rewrite dict_set_keys. intros [-> | Hin]; congruence.
Qed.

Lemma In_dict_get {V : Type} (k : Z) (v : V) (d : list (Z * V)) :
  NoDup (map fst d) -> (In (k, v) d <-> dict_get k d = Some v).
Proof.
  induction d as [|[k0 v0] rest IH]; simpl; intros H.
  - split; [tauto | discriminate].
  - inversion H as [|? ? Hnotin Hrest]; subst.
    destruct (Z.eqb_spec k k0) as [-> | Hne].
    + split.
      * intros [[= ->] | Hin]; [reflexivity|].
        exfalso. apply Hnotin, in_map_iff. now exists (k0, v).
      * intros [= ->]. now left.
    + rewrite <- (IH Hrest). split.
      * intros [[= -> _] | Hin]; [congruence | exact Hin].
      * intros Hin. now right.
Qed.

Lemma holds_fold (today : Z) (rest : list (Timestamp * string)) :
  forall seen upcoming,
    holds today seen upcoming ->
    holds today (seen ++ rest)
      (fold_left
         (fun upcoming item =>
            if existsb (Z.eqb (ts_day (fst item))) (next_7_days today)
            then dict_set (ts_day (fst item)) (snd item) upcoming
            else upcoming)
         rest upcoming).
Proof.
  induction rest as [|[ts name] rest IH]; intros seen upcoming H.
  - simpl. now rewrite app_nil_r.
  - cbn [fold_left].
    replace (seen ++ (ts, name) :: rest) with ((seen ++ [(ts, name)]) ++ rest)
      by now rewrite <- app_assoc.
    apply IH. destruct H as (Hnd & Hget & Hcov). cbn [fst snd].
    destruct (existsb (Z.eqb (ts_day ts)) (next_7_days today)) eqn:W.
    + apply in_next_7_days in W. split; [|split].
      * now apply dict_set_NoDup.
      * intros d name'. rewrite dict_get_set.
        destruct (Z.eqb_spec d (ts_day ts)) as [-> | Hne].
        -- intros [= <-]. split; [exact W|]. exists ts.
           split; [|reflexivity]. apply in_or_app. right. now left.
        -- intros Hd. destruct (Hget _ _ Hd) as (Hw & ts' & Hin & Hday).
           split; [exact Hw|]. exists ts'. split; [|exact Hday].
           apply in_or_app. now left.
      * intros ts' name' Hin Hw. rewrite dict_get_set.
        destruct (Z.eqb_spec (ts_day ts') (ts_day ts)); [now eexists|].
        apply in_app_or in Hin. destruct Hin as [Hin | [[= -> ->] | []]].
        -- now apply (Hcov ts' name').
        -- congruence.
    + assert (Hout : ~ (today <= ts_day ts <= today + 7)).
      { intros Hw. apply in_next_7_days in Hw. congruence. }
      split; [exact Hnd | split].
      * intros d name' Hd. destruct (Hget _ _ Hd) as (Hw & ts' & Hin & Hday).
        split; [exact Hw|]. exists ts'. split; [|exact Hday].
        apply in_or_app. now left.
      * intros ts' name' Hin Hw.
        apply in_app_or in Hin. destruct Hin as [Hin | [[= -> ->] | []]].
        -- now apply (Hcov ts' name').
        -- tauto.
Qed.

Lemma holds_upcoming (today : Z) (holidays_data : list (Timestamp * string)) :
  holds today holidays_data (upcoming_holidays today holidays_data).
Proof.
  apply (@holds_fold today holidays_data [] []).
  split; [constructor | split].
  - intros d name [=].
  - intros ts name [].
Qed.

End HolidayFacts.

(** The holiday notice.  A warning is shown for a day exactly when a
    holiday of the data falls on it and the day is today or one of the
    seven days after it; the warning carries the name of a holiday of
    that day; no day is warned of twice; and the all-clear is shown
    exactly when no holiday falls on those eight days. *)
Theorem holiday_notice_covers_today_and_seven_days :
  forall (today : Z) (holidays_data : list (Holidays.Timestamp * string)),
    let notices := Holidays.holiday_notices today holidays_data in
    (forall name d,
        In (Holidays.Perhatian name d) notices ->
        (today <= d <= today + 7)%Z /\
        exists ts, In (ts, name) holidays_data /\ Holidays.ts_day ts = d) /\
    (forall ts name,
        In (ts, name) holidays_data ->
        (today <= Holidays.ts_day ts <= today + 7)%Z ->
        exists name', In (Holidays.Perhatian name' (Holidays.ts_day ts))
                         notices) /\
    (forall name name' d,
        In (Holidays.Perhatian name d) notices ->
        In (Holidays.Perhatian name' d) notices -> name = name') /\
    (In Holidays.Tidak_ada_hari_libur notices <->
     forall ts name,
       In (ts, name) holidays_data ->
       ~ (today <= Holidays.ts_day ts <= today + 7)%Z).
Proof.
  intros today holidays_data notices.
  destruct (HolidayFacts.holds_upcoming today holidays_data)
    as (Hnd & Hget & Hcov).
  assert (Hnot : forall name d,
             In (Holidays.Perhatian name d) notices <->
             Holidays.dict_get d (Holidays.upcoming_holidays today holidays_data)
               = Some name).
  { intros name d. rewrite <- (@HolidayFacts.In_dict_get _ d name _ Hnd).
    unfold notices, Holidays.holiday_notices.
    destruct (Holidays.upcoming_holidays today holidays_data) as [|i up] eqn:E.
    - simpl. split; [intros [[=] | []] | tauto].
    - rewrite in_map_iff. split.
      + intros ([d' n'] & [= <- <-] & Hin). exact Hin.
      + intros Hin. now exists (d, name). }
  split; [|split; [|split]].
  - intros name d Hin. apply Hget. now apply Hnot.
  - intros ts name Hin Hw. destruct (Hcov ts name Hin Hw) as (name' & Hd).
    exists name'. now apply Hnot.
  - intros name name' d H1 H2. apply Hnot in H1, H2. congruence.
  - unfold notices, Holidays.holiday_notices.
    destruct (Holidays.upcoming_holidays today holidays_data) as [|[d n] up] eqn:E.
    + split; [|simpl; auto]. intros _ ts name Hin Hw.
      destruct (Hcov ts name Hin Hw) as (name' & Hd). discriminate.
    + split.
      * intros Hin. apply in_map_iff in Hin.
        destruct Hin as (x & Hx & _). discriminate.
      * intros Hnone. exfalso.
        assert (Hd : Holidays.dict_get d ((d, n) :: up) = Some n)
          by (simpl; now rewrite Z.eqb_refl).
        destruct (Hget d n Hd) as (Hw & ts & Hin & Hday).
        apply (Hnone ts n Hin). now rewrite Hday.
Qed.

(** On 10 August 2025 the holiday of 17 August, seven days ahead, is
    warned of, and the one of 25 December is not. *)
Lemma holiday_notice_covers_today_and_seven_days_witness :
  Holidays.holiday_notices 20310 PageSamples.holidays_data
    = [Holidays.Perhatian "Hari Kemerdekaan" 20317] /\
  (20310 <= 20317 <= 20310 + 7)%Z.
Proof.
  split; [reflexivity|].
  apply (proj1 (holiday_notice_covers_today_and_seven_days
                  20310 PageSamples.holidays_data) "Hari Kemerdekaan" 20317%Z).
  left. reflexivity.
Defined.

(* ================================================================== *)
(** ** Tab 2: the banner against the advice *)
(* ================================================================== *)

Section BannerFacts.

Import Tab2View.

Lemma saran_downtime_not_waspada p p' k : saran_downtime p k <> saran_waspada p'.
Proof. unfold saran_downtime, saran_waspada. simpl. discriminate. Qed.

Lemma saran_downtime_not_aman p k : saran_downtime p k <> saran_aman.
Proof. unfold saran_downtime, saran_aman. simpl. discriminate. Qed.

Lemma saran_waspada_not_aman p : saran_waspada p <> saran_aman.
Proof. unfold saran_waspada, saran_aman. simpl. discriminate. Qed.

End BannerFacts.

(** The banner and the advice of the simulation.  In final.py they always
    speak of the same level: the red banner goes with the downtime
    advice, the yellow one with the "Waspada" advice, the green one with
    the all-safe advice.  In app.py that holds for the three statuses,
    but a status that is none of them gets the red "MERAH (Bahaya)"
    banner together with the all-safe advice. *)
Theorem banner_and_advice :
  (forall final_prediksi komponen,
      let b := Tab2View.status_banner_final final_prediksi in
      let s := Tab2View.saran_final final_prediksi komponen in
      (b = Tab2View.MERAH <->
       s = Tab2View.saran_downtime "supplier/ekspedisi" komponen) /\
      (b = Tab2View.KUNING <->
       s = Tab2View.saran_waspada "supplier/ekspedisi") /\
      (b = Tab2View.HIJAU <-> s = Tab2View.saran_aman)) /\
  (forall final_prediksi komponen,
      three_level final_prediksi ->
      let b := Tab2View.status_banner_app final_prediksi in
      let s := Tab2View.saran_app final_prediksi komponen in
      (b = Tab2View.MERAH <->
       s = Tab2View.saran_downtime "seksi pengirim" komponen) /\
      (b = Tab2View.KUNING <-> s = Tab2View.saran_waspada "seksi pengirim") /\
      (b = Tab2View.HIJAU <-> s = Tab2View.saran_aman)) /\
  (forall final_prediksi komponen,
      ~ three_level final_prediksi ->
      Tab2View.status_banner_app final_prediksi = Tab2View.MERAH /\
      Tab2View.saran_app final_prediksi komponen = Tab2View.saran_aman).
Proof.
  assert (D1 := saran_downtime_not_waspada).
  assert (D2 := saran_downtime_not_aman).
  assert (D3 := saran_waspada_not_aman).
  assert (B1 : Tab2View.MERAH <> Tab2View.KUNING) by discriminate.
  assert (B2 : Tab2View.MERAH <> Tab2View.HIJAU) by discriminate.
  assert (B3 : Tab2View.KUNING <> Tab2View.HIJAU) by discriminate.
  split; [|split].
  - intros p k b s. subst b s.
    unfold Tab2View.status_banner_final, Tab2View.saran_final, Tab2View.saran.
    destruct (String.eqb p "Merah"); [|destruct (String.eqb p "Kuning")];
      repeat split; intros H; try reflexivity; try congruence;
      exfalso; (eapply D1 || eapply D2 || eapply D3);
      (exact H || (symmetry; exact H)).
  - intros p k Hp b s. subst b s.
    unfold Tab2View.status_banner_app, Tab2View.saran_app, Tab2View.saran.
    destruct Hp as [-> | [-> | ->]]; simpl String.eqb; cbv iota;
      repeat split; intros H; try reflexivity; try congruence;
      exfalso; (eapply D1 || eapply D2 || eapply D3);
      (exact H || (symmetry; exact H)).
  - intros p k Hp.
    unfold Tab2View.status_banner_app, Tab2View.saran_app, Tab2View.saran.
    unfold three_level in Hp.
    destruct (String.eqb_spec p "Hijau"); [tauto|].
    destruct (String.eqb_spec p "Kuning"); [tauto|].
    destruct (String.eqb_spec p "Merah"); [tauto|].
    split; reflexivity.
Qed.

(** "Biru" in app.py: the red banner with the all-safe advice. *)
Lemma banner_and_advice_witness :
  Tab2View.status_banner_app "Biru" = Tab2View.MERAH /\
  Tab2View.saran_app "Biru" "Mur" = Tab2View.saran_aman.
Proof.
  apply (proj2 (proj2 banner_and_advice) "Biru" "Mur").
  unfold three_level. intros [H | [H | H]]; discriminate.
Defined.

(* ================================================================== *)
(** ** final.py: the lead-time estimate and the session *)
(* ================================================================== *)

Module EtaFacts.

Import Eta.

Lemma traffic_doubles : (1 + traffic_factor / 100 = 2)%float.
Proof. reflexivity. Qed.

Lemma hitung_eta_cases key text nominatim ors session :
  (exists x y duration coordinates,
      nominatim = Found x y /\ key <> "" /\
      ors key (Coords x y) warehouse = Route duration coordinates /\
      fst (hitung_eta key text nominatim ors session) =
        {| adjusted_lead_time := Some (duration / 3600 * 2)%float;
           route_coords := Some (Route_coords coordinates);
           start_location_name := text |}) \/
  (~ goes_through (Click_ETA key text nominatim ors) /\
   fst (hitung_eta key text nominatim ors session) = session).
Proof.
  unfold hitung_eta, get_coords_from_nominatim, get_eta_from_ors, goes_through.
  destruct nominatim as [x y| | |]; try (right; split; [tauto | reflexivity]).
  destruct (String.eqb_spec key "") as [-> | Hkey].
  - right. split; [tauto | reflexivity].
  - destruct (ors key (Coords x y) warehouse) as [d c|err|e] eqn:E.
    + left. exists x, y, d, c. repeat split; auto.
    + right. split; [|reflexivity]. intros (_ & d & c & H). discriminate.
    + right. split; [|reflexivity]. intros (_ & d & c & H). discriminate.
Qed.


End EtaFacts.

(** The ETA button of final.py.  A click goes through when a place is
    found, an API key is given and the routing service answers with a
    route: then the session holds twice the route's duration in hours
    (the traffic factor of 100 per cent), the route and the name of the
    place.  Any other click leaves the session as it was, an estimate
    made earlier included; and with no API key the answer of the routing
    service plays no part. *)
Theorem eta_click_sets_all_or_nothing :
  forall key text nominatim ors session,
    ((exists x y duration coordinates,
         nominatim = Eta.Found x y /\ key <> "" /\
         ors key (Eta.Coords x y) Eta.warehouse
           = Eta.Route duration coordinates /\
         fst (Eta.hitung_eta key text nominatim ors session) =
           {| Eta.adjusted_lead_time := Some (duration / 3600 * 2)%float;
              Eta.route_coords := Some (Eta.Route_coords coordinates);
              Eta.start_location_name := text |}) \/
     (~ Eta.goes_through (Eta.Click_ETA key text nominatim ors) /\
      fst (Eta.hitung_eta key text nominatim ors session) = session)) /\
    (forall ors',
        Eta.hitung_eta "" text nominatim ors session =
        Eta.hitung_eta "" text nominatim ors' session).
Proof.
  intros key text nominatim ors session. split.
  - apply EtaFacts.hitung_eta_cases.
  - intros ors'. unfold Eta.hitung_eta, Eta.get_eta_from_ors.
    destruct (Eta.get_coords_from_nominatim text nominatim) as [[c|] msg];
      reflexivity.
Qed.

(** A route of one hour gives a lead time of two hours. *)
Lemma eta_click_sets_all_or_nothing_witness :
  Eta.adjusted_lead_time
    (fst (Eta.hitung_eta "key" "Cikarang" (Eta.Found 107 (-6))
            PageSamples.one_hour Eta.initial_session)) = Some 2%float.
Proof.
  destruct (eta_click_sets_all_or_nothing "key" "Cikarang"
              (Eta.Found 107 (-6)) PageSamples.one_hour Eta.initial_session)
    as [[(x & y & d & c & Hn & Hk & Ho & Hs) | [Hno _]] _].
  - injection Ho as <- <-. rewrite Hs. reflexivity.
  - exfalso. apply Hno. simpl. split; [discriminate|].
    exists 3600%float, []. reflexivity.
Defined.



(* ================================================================== *)
(** ** [get_public_holidays]: app.py against final.py *)
(* ================================================================== *)

Module PublicHolidaysFacts.

Import Holidays PublicHolidays.

Lemma ts_eqb_eq (a b : Timestamp) : ts_eqb a b = true <-> a = b.
Proof.
  unfold ts_eqb. destruct a as [d n], b as [d' n']. simpl.
  rewrite andb_true_iff, Z.eqb_eq, N.eqb_eq. split.
  - intros [-> ->]. reflexivity.
  - intros [= -> ->]. auto.
Qed.

Lemma ts_get_set (k k' : Timestamp) (v : json) (d : list (Timestamp * json)) :
  ts_get k (ts_set k' v d) = if ts_eqb k k' then Some v else ts_get k d.
Proof.
  induction d as [|[k0 v0] rest IH]; simpl.
  - reflexivity.
  - destruct (ts_eqb k' k0) eqn:E; simpl.
    + apply ts_eqb_eq in E. subst k0. destruct (ts_eqb k k'); reflexivity.
    + rewrite IH. destruct (ts_eqb k k0) eqn:E0; [|reflexivity].
      apply ts_eqb_eq in E0. subst k0.
      destruct (ts_eqb k k') eqn:E1; [|reflexivity].
      apply ts_eqb_eq in E1. subst k'.
      assert (ts_eqb k k = true) by now apply ts_eqb_eq. congruence.
Qed.

Section Versions.

Variable to_datetime : json -> outcome Timestamp.

(** With the flag on every entry, the first pass of app.py keeps the
    national entries. *)
Lemma national_holidays_flagged (holidays : list (list (string * json))) :
  all_flagged holidays ->
  national_holidays holidays = Returned (filter is_national holidays).
Proof.
  unfold all_flagged. induction 1 as [|h rest Hh _ IH]; simpl.
  - reflexivity.
  - unfold subscript, is_national.
    destruct (get "is_national_holiday" h) as [flag|]; [|congruence].
    rewrite IH. reflexivity.
Qed.

(** Without it on some entry, the first pass raises [KeyError]. *)
Lemma national_holidays_unflagged (holidays : list (list (string * json))) :
  Exists (fun h => get "is_national_holiday" h = None) holidays ->
  national_holidays holidays
    = Raised (Exn "KeyError" "'is_national_holiday'").
Proof.
  induction holidays as [|h rest IH]; intros H.
  - inversion H.
  - simpl. unfold subscript.
    destruct (get "is_national_holiday" h) as [flag|] eqn:E.
    + inversion H as [? ? Hh | ? ? Hrest]; subst; [congruence|].
      now rewrite (IH Hrest).
    + reflexivity.
Qed.

(** The comprehension of final.py is the second pass of app.py on the
    national entries. *)
Lemma holiday_dict_filter (holidays : list (list (string * json))) :
  forall d,
    holiday_dict to_datetime (filter is_national holidays) d =
    holiday_dict_final to_datetime holidays d.
Proof.
  induction holidays as [|h rest IH]; intros d; simpl; [reflexivity|].
  destruct (is_national h); simpl; [|apply IH].
  destruct (add_holiday to_datetime h d); [apply IH | reflexivity].
Qed.

(** Entries without the flag make no difference to final.py. *)
Lemma holiday_dict_final_skips (holidays : list (list (string * json))) :
  forall d,
    holiday_dict_final to_datetime holidays d =
    holiday_dict_final to_datetime (filter has_flag holidays) d.
Proof.
  induction holidays as [|h rest IH]; intros d; [reflexivity|].
  cbn [filter holiday_dict_final].
  destruct (get "is_national_holiday" h) as [flag|] eqn:E.
  - assert (Hf : has_flag h = true) by (unfold has_flag; now rewrite E).
    rewrite Hf. cbn [holiday_dict_final].
    destruct (is_national h); [|apply IH].
    destruct (add_holiday to_datetime h d); [apply IH | reflexivity].
  - assert (Hf : has_flag h = false) by (unfold has_flag; now rewrite E).
    assert (Hn : is_national h = false) by (unfold is_national; now rewrite E).
    rewrite Hf, Hn. apply IH.
Qed.

Lemma add_holiday_returned h d d' :
  add_holiday to_datetime h d = Returned d' ->
  exists date ts name,
    get "holiday_date" h = Some date /\
    to_datetime date = Returned ts /\
    get "holiday_name" h = Some name /\
    d' = ts_set ts name d.
Proof.
  unfold add_holiday, subscript.
  destruct (get "holiday_date" h) as [date|]; [|discriminate].
  destruct (to_datetime date) as [ts|e] eqn:T; [|discriminate].
  destruct (get "holiday_name" h) as [name|]; [|discriminate].
  intros [= <-]. now exists date, ts, name.
Qed.

(** Where an entry of the returned dict comes from, and that every
    national entry is in it. *)
Lemma holiday_dict_final_returned (holidays : list (list (string * json))) :
  forall d d',
    holiday_dict_final to_datetime holidays d = Returned d' ->
    (forall ts name,
        ts_get ts d' = Some name ->
        ts_get ts d = Some name \/
        exists h date,
          In h holidays /\ is_national h = true /\
          get "holiday_date" h = Some date /\
          to_datetime date = Returned ts /\
          get "holiday_name" h = Some name) /\
    (forall ts, ts_get ts d <> None -> ts_get ts d' <> None) /\
    (forall h date ts,
        In h holidays -> is_national h = true ->
        get "holiday_date" h = Some date ->
        to_datetime date = Returned ts ->
        ts_get ts d' <> None).
Proof.
  induction holidays as [|h rest IH]; intros d d'; simpl.
  - intros [= <-]. repeat split; auto; try (intros h date ts []).
  - destruct (is_national h) eqn:N.
    + destruct (add_holiday to_datetime h d) as [d1|e] eqn:A; [|discriminate].
      intros Hrest. destruct (IH _ _ Hrest) as (H1 & H2 & H3).
      destruct (add_holiday_returned _ _ A)
        as (date & ts0 & name0 & Hd & Ht & Hn & ->).
      split; [|split].
      * intros ts name Hget. destruct (H1 _ _ Hget) as [Hold | Hnew].
        -- rewrite ts_get_set in Hold.
           destruct (ts_eqb ts ts0) eqn:E; [|now left].
           apply ts_eqb_eq in E. subst ts0. injection Hold as <-.
           right. exists h, date. repeat split; auto.
        -- destruct Hnew as (h' & date' & Hin & Hrest').
           right. exists h', date'. split; [now right | exact Hrest'].
      * intros ts Hts. apply H2. rewrite ts_get_set.
        destruct (ts_eqb ts ts0); [discriminate | exact Hts].
      * intros h' date' ts [<- | Hin] Hnat Hd' Ht'.
        -- apply H2. rewrite ts_get_set.
           assert (ts = ts0) by congruence. subst ts0.
           assert (E : ts_eqb ts ts = true) by now apply ts_eqb_eq.
           rewrite E. discriminate.
        -- eapply H3; eauto.
    + intros Hrest. destruct (IH _ _ Hrest) as (H1 & H2 & H3).
      split; [|split]; auto.
      * intros ts name Hget. destruct (H1 _ _ Hget) as [Hold | Hnew];
          [now left|].
        destruct Hnew as (h' & date' & Hin & Hrest').
        right. exists h', date'. split; [now right | exact Hrest'].
      * intros h' date' ts [<- | Hin] Hnat; [congruence|].
        now apply H3.
Qed.

End Versions.

End PublicHolidaysFacts.

(** The two versions of [get_public_holidays].  When every entry of the
    answer carries the key 'is_national_holiday' they return the same
    dict or raise the same exception.  When a status-200 answer has an
    entry without the key, app.py raises [KeyError], while final.py goes
    on as if that entry were not national. *)
Theorem holiday_versions_agree_on_flagged_entries :
  forall (to_datetime : PublicHolidays.json -> outcome Holidays.Timestamp),
    (forall status_code holidays,
        PublicHolidays.all_flagged holidays ->
        PublicHolidays.get_public_holidays_app to_datetime
          (PublicHolidays.Response status_code holidays) =
        PublicHolidays.get_public_holidays_final to_datetime
          (PublicHolidays.Response status_code holidays)) /\
    (forall holidays,
        Exists (fun h => PublicHolidays.get "is_national_holiday" h = None)
               holidays ->
        PublicHolidays.get_public_holidays_app to_datetime
          (PublicHolidays.Response 200 holidays)
          = Raised (Exn "KeyError" "'is_national_holiday'") /\
        PublicHolidays.get_public_holidays_final to_datetime
          (PublicHolidays.Response 200 holidays) =
        PublicHolidays.get_public_holidays_final to_datetime
          (PublicHolidays.Response 200
             (filter PublicHolidays.has_flag holidays))).
Proof.
  intros to_datetime. split.
  - intros code holidays Hall. simpl.
    destruct (Z.eqb code 200); [|reflexivity].
    rewrite (PublicHolidaysFacts.national_holidays_flagged Hall).
    apply PublicHolidaysFacts.holiday_dict_filter.
  - intros holidays Hex. split.
    + simpl.
      now rewrite (PublicHolidaysFacts.national_holidays_unflagged Hex).
    + apply PublicHolidaysFacts.holiday_dict_final_skips.
Qed.

(** Two flagged entries: the versions agree.  One entry without the key:
    app.py raises [KeyError]. *)
Lemma holiday_versions_agree_on_flagged_entries_witness :
  PublicHolidays.get_public_holidays_app PageSamples.to_datetime
    (PublicHolidays.Response 200
       [PageSamples.kemerdekaan; PageSamples.cuti_bersama]) =
  PublicHolidays.get_public_holidays_final PageSamples.to_datetime
    (PublicHolidays.Response 200
       [PageSamples.kemerdekaan; PageSamples.cuti_bersama]) /\
  PublicHolidays.get_public_holidays_app PageSamples.to_datetime
    (PublicHolidays.Response 200
       [PageSamples.kemerdekaan; PageSamples.natal_unflagged])
    = Raised (Exn "KeyError" "'is_national_holiday'").
Proof.
  destruct (holiday_versions_agree_on_flagged_entries PageSamples.to_datetime)
    as [Hsame Hraise].
  split.
  - apply Hsame. repeat constructor; discriminate.
  - apply Hraise. right. left. reflexivity.
Defined.

(** What [get_public_holidays] of final.py returns.  A failed request or
    a status other than 200 gives the empty dict.  On a status-200 answer
    that it gets through, every entry of the dict is the date and the
    name of a national entry of the answer, and every national entry has
    its date in the dict. *)
Theorem public_holidays_are_the_national_entries :
  forall (to_datetime : PublicHolidays.json -> outcome Holidays.Timestamp),
    PublicHolidays.get_public_holidays_final to_datetime
      PublicHolidays.RequestException = Returned [] /\
    (forall status_code holidays,
        status_code <> 200%Z ->
        PublicHolidays.get_public_holidays_final to_datetime
          (PublicHolidays.Response status_code holidays) = Returned []) /\
    (forall holidays d,
        PublicHolidays.get_public_holidays_final to_datetime
          (PublicHolidays.Response 200 holidays) = Returned d ->
        (forall ts name,
            PublicHolidays.ts_get ts d = Some name ->
            exists h date,
              In h holidays /\ PublicHolidays.is_national h = true /\
              PublicHolidays.get "holiday_date" h = Some date /\
              to_datetime date = Returned ts /\
              PublicHolidays.get "holiday_name" h = Some name) /\
        (forall h date ts,
            In h holidays -> PublicHolidays.is_national h = true ->
            PublicHolidays.get "holiday_date" h = Some date ->
            to_datetime date = Returned ts ->
            PublicHolidays.ts_get ts d <> None)).
Proof.
  intros to_datetime. split; [reflexivity | split].
  - intros code holidays Hcode. simpl.
    destruct (Z.eqb_spec code 200); [contradiction | reflexivity].
  - intros holidays d H. simpl in H.
    destruct (@PublicHolidaysFacts.holiday_dict_final_returned
                to_datetime holidays [] d H) as (H1 & _ & H3).
    split; [|exact H3].
    intros ts name Hget. destruct (H1 _ _ Hget) as [Hold | Hnew];
      [discriminate | exact Hnew].
Qed.

(** Of a national holiday, a day that is not one and an entry without the
    key, the dict holds the first. *)
Lemma public_holidays_are_the_national_entries_witness :
  PublicHolidays.get_public_holidays_final PageSamples.to_datetime
    (PublicHolidays.Response 200
       [PageSamples.kemerdekaan; PageSamples.cuti_bersama;
        PageSamples.natal_unflagged])
    = Returned [(PageSamples.ts_0817, PublicHolidays.JString "Hari Kemerdekaan")] /\
  exists h date,
    In h [PageSamples.kemerdekaan; PageSamples.cuti_bersama;
          PageSamples.natal_unflagged] /\
    PublicHolidays.is_national h = true /\
    PublicHolidays.get "holiday_date" h = Some date /\
    PageSamples.to_datetime date = Returned PageSamples.ts_0817 /\
    PublicHolidays.get "holiday_name" h
      = Some (PublicHolidays.JString "Hari Kemerdekaan").
Proof.
  split; [reflexivity|].
  apply (proj1 (proj2 (proj2 (public_holidays_are_the_national_entries
                                PageSamples.to_datetime))
                  [PageSamples.kemerdekaan; PageSamples.cuti_bersama;
                   PageSamples.natal_unflagged]
                  [(PageSamples.ts_0817,
                    PublicHolidays.JString "Hari Kemerdekaan")]
                  eq_refl)
               PageSamples.ts_0817
               (PublicHolidays.JString "Hari Kemerdekaan")).
  reflexivity.
Defined.

(* ================================================================== *)
(** ** frontend_app.py: [clean_dict_for_json] *)
(* ================================================================== *)

Module FrontendFacts.

Import PublicHolidays Frontend.

(** Induction on a JSON value, through its arrays and objects. *)
Lemma json_induction (P : json -> Prop) :
  P JNull ->
  (forall b, P (JBool b)) ->
  (forall n, P (JInt n)) ->
  (forall x, P (JFloat x)) ->
  (forall s, P (JString s)) ->
  (forall items, Forall P items -> P (JArray items)) ->
  (forall members, Forall (fun kv => P (snd kv)) members ->
                   P (JObject members)) ->
  forall d, P d.
Proof.
  intros HNull HBool HInt HFloat HString HArray HObject.
  fix IH 1. intros [ |b|n|x|s|items|members].
  - exact HNull.
  - apply HBool.
  - apply HInt.
  - apply HFloat.
  - apply HString.
  - apply HArray. induction items as [|d items IHitems]; constructor.
    + apply IH.
    + exact IHitems.
  - apply HObject. induction members as [|[k v] members IHm]; constructor.
    + apply IH.
    + exact IHm.
Qed.

Lemma clean_object (members : list (string * json)) :
  clean_dict_for_json (JObject members) = JObject (clean_items members).
Proof.
  simpl. f_equal. unfold clean_items.
  induction members as [|[k v] rest IH]; simpl; [reflexivity|].
  now rewrite IH.
Qed.

Lemma nan_free_object (members : list (string * json)) :
  nan_free (JObject members) = forallb (fun kv => nan_free (snd kv)) members.
Proof.
  simpl. induction members as [|[k v] rest IH]; simpl; [reflexivity|].
  now rewrite IH.
Qed.

Lemma clean_nan_free (d : json) : nan_free (clean_dict_for_json d) = true.
Proof.
  induction d as [ |b|n|x|s|items IH|members IH] using json_induction;
    try reflexivity.
  - simpl. destruct (Float64.isnan x) eqn:E; simpl; [reflexivity|].
    now rewrite E.
  - simpl. rewrite forallb_forall. intros d Hin.
    apply in_map_iff in Hin. destruct Hin as (d0 & <- & Hin).
    rewrite Forall_forall in IH. now apply IH.
  - rewrite clean_object, nan_free_object, forallb_forall.
    intros kv Hin. apply in_map_iff in Hin.
    destruct Hin as (kv0 & <- & Hin). simpl.
    rewrite Forall_forall in IH. now apply IH.
Qed.

Lemma clean_fixes_nan_free (d : json) :
  nan_free d = true -> clean_dict_for_json d = d.
Proof.
  induction d as [ |b|n|x|s|items IH|members IH] using json_induction;
    try reflexivity.
  - simpl. intros H. apply negb_true_iff in H. now rewrite H.
  - simpl. intros H. f_equal. rewrite forallb_forall in H.
    rewrite Forall_forall in IH.
    rewrite <- (map_id items) at 2. apply map_ext_in.
    intros d Hin. apply IH; auto.
  - rewrite clean_object, nan_free_object. intros H. f_equal.
    rewrite forallb_forall in H. rewrite Forall_forall in IH.
    unfold clean_items. rewrite <- (map_id members) at 2.
    apply map_ext_in. intros [k v] Hin. simpl. f_equal.
    apply IH with (x := (k, v)); [exact Hin|]. exact (H _ Hin).
Qed.

Lemma get_clean_items (key : string) (members : list (string * json)) :
  get key (clean_items members) =
    option_map clean_dict_for_json (get key members).
Proof.
  unfold clean_items.
  induction members as [|[k v] rest IH]; simpl; [reflexivity|].
  destruct (String.eqb key k); [reflexivity | exact IH].
Qed.

End FrontendFacts.

(** [clean_dict_for_json] makes a value fit for JSON and touches nothing
    else.  Its result holds no NaN at any depth; a value without NaN is
    returned as it is, so cleaning twice is cleaning once; an object
    keeps its keys in their order, each with its value cleaned; and a
    list keeps its length, each item cleaned in place. *)
Theorem clean_dict_for_json_removes_NaN_only :
  forall d : PublicHolidays.json,
    Frontend.nan_free (Frontend.clean_dict_for_json d) = true /\
    (Frontend.nan_free d = true -> Frontend.clean_dict_for_json d = d) /\
    Frontend.clean_dict_for_json (Frontend.clean_dict_for_json d)
      = Frontend.clean_dict_for_json d /\
    (forall members,
        d = PublicHolidays.JObject members ->
        exists members',
          Frontend.clean_dict_for_json d = PublicHolidays.JObject members' /\
          map fst members' = map fst members /\
          forall key,
            PublicHolidays.get key members' =
            option_map Frontend.clean_dict_for_json
                       (PublicHolidays.get key members)) /\
    (forall items,
        d = PublicHolidays.JArray items ->
        exists items',
          Frontend.clean_dict_for_json d = PublicHolidays.JArray items' /\
          List.length items' = List.length items /\
          forall i,
            nth_error items' i =
            option_map Frontend.clean_dict_for_json (nth_error items i)).
Proof.
  intros d. split; [|split; [|split; [|split]]].
  - apply FrontendFacts.clean_nan_free.
  - apply FrontendFacts.clean_fixes_nan_free.
  - apply FrontendFacts.clean_fixes_nan_free, FrontendFacts.clean_nan_free.
  - intros members ->. exists (Frontend.clean_items members).
    split; [apply FrontendFacts.clean_object | split].
    + unfold Frontend.clean_items. rewrite map_map. reflexivity.
    + intros key. apply FrontendFacts.get_clean_items.
  - intros items ->. exists (map Frontend.clean_dict_for_json items).
    split; [reflexivity | split].
    + apply length_map.
    + intros i. apply nth_error_map.
Qed.

(** A record of the monitoring table with a blank stock and a NaN plan
    nested in a list: both NaN become [None], the rest stays. *)
Lemma clean_dict_for_json_removes_NaN_only_witness :
  let record :=
    PublicHolidays.JObject
      [("PART NUMBER / PART NAME", PublicHolidays.JString "K0J Baut");
       ("STOCK WH1", PublicHolidays.JFloat nan);
       ("history", PublicHolidays.JArray
                     [PublicHolidays.JFloat 12; PublicHolidays.JFloat nan])] in
  Frontend.clean_dict_for_json record =
    PublicHolidays.JObject
      [("PART NUMBER / PART NAME", PublicHolidays.JString "K0J Baut");
       ("STOCK WH1", PublicHolidays.JNull);
       ("history", PublicHolidays.JArray
                     [PublicHolidays.JFloat 12; PublicHolidays.JNull])] /\
  Frontend.clean_dict_for_json (Frontend.clean_dict_for_json record)
    = Frontend.clean_dict_for_json record.
Proof.
  intros record. split; [reflexivity|].
  apply (proj1 (proj2 (proj2 (clean_dict_for_json_removes_NaN_only record)))).
Defined.

(* ================================================================== *)
(** ** The morning-meeting dashboard *)
(* ================================================================== *)

Module RekapFacts.

Import Float64 Rekap.

Local Open Scope float_scope.

(** A value that is not NaN is below zero, zero or above zero, and only
    one of the three. *)
Lemma sign_trichotomy (x : float) :
  isnan x = false ->
  ((x <? 0) = true /\ (x =? 0) = false /\ (0 <? x) = false) \/
  ((x <? 0) = false /\ (x =? 0) = true /\ (0 <? x) = false) \/
  ((x <? 0) = false /\ (x =? 0) = false /\ (0 <? x) = true).
Proof.
  unfold isnan.
  rewrite !ltb_spec, FloatAxioms.eqb_spec, FloatFacts.Prim2SF_zero.
  unfold SFltb, SFeqb.
  destruct (Prim2SF x) as [s|s| |s m e]; try discriminate; intros _;
    destruct s; simpl; tauto.
Qed.

(** Nothing at or above a value that is not below zero is below zero. *)
Lemma leb_keeps_not_below_zero (h x : float) :
  (h <=? x) = true -> (h <? 0) = false -> (x <? 0) = false.
Proof.
  rewrite leb_spec, !ltb_spec, FloatFacts.Prim2SF_zero.
  unfold SFleb, SFltb.
  destruct (Prim2SF h) as [s|s| |s m e], (Prim2SF x) as [t|t| |t n f];
    simpl; try discriminate; try reflexivity;
    destruct s, t; simpl; try discriminate; try reflexivity.
Qed.

Lemma fillna_0_not_nan (x : float) : isnan (fillna_0 x) = false.
Proof.
  unfold fillna_0. destruct (isnan x) eqn:E; [reflexivity | exact E].
Qed.

Lemma with_Stock_Health_not_nan to_numeric (df : list rekap_row) :
  Forall (fun p => isnan (Stock_Health p) = false)
         (with_Stock_Health to_numeric df).
Proof.
  unfold with_Stock_Health. rewrite Forall_forall. intros p Hin.
  apply in_map_iff in Hin. destruct Hin as (r & <- & _).
  apply fillna_0_not_nan.
Qed.

(** In an ascending column the parts below zero come first: among the
    first [n] there are [n] of them, or all of them. *)
Lemma deficit_is_a_prefix (l : list part) :
  StronglySorted (fun a b => (Stock_Health a <=? Stock_Health b) = true) l ->
  forall n,
    List.length (filter below_zero (firstn n l)) =
      Nat.min n (List.length (filter below_zero l)).
Proof.
  induction 1 as [|h l Hs IH Hall]; intros n.
  - rewrite firstn_nil. simpl. now destruct n.
  - destruct n as [|n]; [reflexivity|]. simpl.
    destruct (below_zero h) eqn:B; simpl.
    + now rewrite IH.
    + assert (Hnone : forall l', incl l' l -> filter below_zero l' = []).
      { intros l' Hincl. induction l' as [|p l' IHl']; [reflexivity|].
        simpl. rewrite Forall_forall in Hall.
        assert (Hp : below_zero p = false).
        { unfold below_zero in *.
          apply (leb_keeps_not_below_zero (Hall p (Hincl p (or_introl eq_refl))) B). }
        rewrite Hp. apply IHl'. intros q Hq. apply Hincl. now right. }
      rewrite (Hnone (firstn n l)), (Hnone l).
      * simpl. now destruct n.
      * apply incl_refl.
      * intros q Hq. rewrite <- (firstn_skipn n l).
        apply in_or_app. now left.
Qed.

Lemma insert_part_perm (p : part) (l : list part) :
  Permutation (p :: l) (insert_part p l).
Proof.
  induction l as [|h l IH]; simpl; [reflexivity|].
  destruct (Stock_Health p <=? Stock_Health h); [reflexivity|].
  rewrite perm_swap. now constructor.
Qed.

Lemma sort_by_health_perm (l : list part) : Permutation l (sort_by_health l).
Proof.
  induction l as [|p l IH]; simpl; [constructor|].
  rewrite <- insert_part_perm. now constructor.
Qed.

Lemma insert_part_sorted (p : part) (l : list part) :
  isnan (Stock_Health p) = false ->
  Forall (fun q => isnan (Stock_Health q) = false) l ->
  Sorted (fun a b => (Stock_Health a <=? Stock_Health b) = true) l ->
  Sorted (fun a b => (Stock_Health a <=? Stock_Health b) = true)
         (insert_part p l).
Proof.
  intros Hp Hl Hs. induction Hs as [|h l Hs IH Hhd]; simpl.
  - repeat constructor.
  - inversion Hl as [|? ? Hh Hl']; subst.
    destruct (Stock_Health p <=? Stock_Health h) eqn:E.
    + repeat constructor; assumption.
    + constructor; [now apply IH|].
      assert (Hhp : (Stock_Health h <=? Stock_Health p) = true).
      { destruct (FloatFacts.leb_total _ _ Hp Hh); congruence. }
      destruct l as [|h' l]; simpl.
      * now constructor.
      * inversion Hhd; subst.
        destruct (Stock_Health p <=? Stock_Health h'); now constructor.
Qed.

Lemma sort_by_health_sorts : sorts_by_health sort_by_health.
Proof.
  intros l Hl. split; [apply sort_by_health_perm|].
  induction l as [|p l IH]; simpl; [constructor|].
  inversion Hl; subst. apply insert_part_sorted; auto.
  rewrite Forall_forall in *. intros q Hq.
  apply (Permutation_in _ (Permutation_sym (sort_by_health_perm l))) in Hq.
  auto.
Qed.

End RekapFacts.

Section RekapTheorems.

Import Float64 Rekap RekapFacts.

Local Open Scope float_scope.

Lemma partition_by_sign (l : list part) :
  Forall (fun p => isnan (Stock_Health p) = false) l ->
  List.length l =
    (parts_in_deficit l + parts_in_surplus l +
     List.length (filter (fun p => (Stock_Health p =? 0)%float) l))%nat.
Proof.
  unfold parts_in_deficit, parts_in_surplus.
  induction 1 as [|p l Hp _ IH]; simpl; [reflexivity|].
  destruct (sign_trichotomy _ Hp) as [(-> & -> & ->) | [(-> & -> & ->) | (-> & -> & ->)]];
    simpl; lia.
Qed.

Lemma StronglySorted_firstn_skipn {A : Type} (R : A -> A -> Prop)
    (l : list A) :
  StronglySorted R l ->
  forall n a b, In a (firstn n l) -> In b (skipn n l) -> R a b.
Proof.
  induction 1 as [|h l Hs IH Hall]; intros n a b Ha Hb.
  - rewrite firstn_nil in Ha. destruct Ha.
  - destruct n as [|n]; [destruct Ha|]. simpl in Ha, Hb.
    destruct Ha as [<- | Ha].
    + rewrite Forall_forall in Hall. apply Hall.
      rewrite <- (firstn_skipn n l). apply in_or_app. now right.
    + now apply (IH n).
Qed.

Lemma red_is_below_zero (l : list part) :
  filter (fun p => String.eqb (bar_color (Stock_Health p)) "#EF5350") l =
  filter below_zero l.
Proof.
  apply filter_ext. intros p. unfold bar_color, below_zero.
  destruct (Stock_Health p <? 0); reflexivity.
Qed.

End RekapTheorems.

(** The three counts of the morning-meeting dashboard.  Every part is
    counted once: as a deficit (health below zero), as a surplus (above
    zero), or as neither, its health being zero; and a part whose health
    cell is blank or unreadable is one of the last kind, its health
    having been set to 0. *)
Theorem kpi_counts_partition_the_parts :
  forall (to_numeric : option string -> float) (rows : list Rekap.rekap_row),
    let df_rekap := Rekap.with_Stock_Health to_numeric rows in
    Rekap.total_parts df_rekap = List.length rows /\
    Rekap.total_parts df_rekap =
      (Rekap.parts_in_deficit df_rekap + Rekap.parts_in_surplus df_rekap +
       List.length
         (filter (fun p => (Rekap.Stock_Health p =? 0)%float) df_rekap))%nat /\
    (forall r,
        In r rows ->
        Float64.isnan (to_numeric (Rekap.Stock_Health_cell r)) = true ->
        In (Rekap.Part r 0) df_rekap).
Proof.
  intros to_numeric rows df_rekap. split; [|split].
  - unfold df_rekap, Rekap.total_parts, Rekap.with_Stock_Health.
    apply length_map.
  - apply partition_by_sign, RekapFacts.with_Stock_Health_not_nan.
  - intros r Hin Hnan. unfold df_rekap, Rekap.with_Stock_Health.
    apply in_map_iff. exists r. split; [|exact Hin].
    unfold Rekap.fillna_0. now rewrite Hnan.
Qed.

(** A sheet with one part whose health cell is blank: it is counted, with
    health 0, as neither deficit nor surplus. *)
Lemma kpi_counts_partition_the_parts_witness :
  let blank := Rekap.RekapRow (Some "K0J-2") (Some "Mur") (Some "A") None in
  In (Rekap.Part blank 0)
     (Rekap.with_Stock_Health (fun _ => nan) [blank]).
Proof.
  intros blank.
  apply (proj2 (proj2 (kpi_counts_partition_the_parts (fun _ => nan) [blank]))).
  - left. reflexivity.
  - reflexivity.
Defined.

(** The ten bars of "Top 10 Komponen Paling Kritis", whatever order the
    sort leaves equal healths in: there are ten of them, or as many as
    there are parts; no part left out has a lower health than a part
    shown; the red bars are the parts in deficit, ten of them at most;
    and when no more than ten parts are in deficit, all of them are
    shown. *)
Theorem top_critical_parts_are_the_lowest :
  forall sort_values : list Rekap.part -> list Rekap.part,
    Rekap.sorts_by_health sort_values ->
    forall (to_numeric : option string -> float)
           (rows : list Rekap.rekap_row),
      let df_rekap := Rekap.with_Stock_Health to_numeric rows in
      let top := Rekap.top_critical_parts sort_values df_rekap in
      List.length top = Nat.min 10 (Rekap.total_parts df_rekap) /\
      (forall a b,
          In a top -> In b (skipn 10 (sort_values df_rekap)) ->
          (Rekap.Stock_Health a <=? Rekap.Stock_Health b)%float = true) /\
      List.length
        (filter (fun p => String.eqb (Rekap.bar_color (Rekap.Stock_Health p))
                                     "#EF5350") top)
        = Nat.min 10 (Rekap.parts_in_deficit df_rekap) /\
      ((Rekap.parts_in_deficit df_rekap <= 10)%nat ->
       forall p, In p df_rekap ->
                 (Rekap.Stock_Health p <? 0)%float = true -> In p top).
Proof.
  intros sort_values Hsort to_numeric rows df_rekap top.
  destruct (Hsort df_rekap (RekapFacts.with_Stock_Health_not_nan _ _))
    as [Hperm Hsorted].
  assert (Hstrong : StronglySorted
            (fun a b => (Rekap.Stock_Health a <=? Rekap.Stock_Health b)%float
                        = true) (sort_values df_rekap)).
  { apply Sorted_StronglySorted; [|exact Hsorted].
    intros a b c. apply FloatFacts.leb_trans. }
  assert (Hdef : List.length (filter Rekap.below_zero
                                     (sort_values df_rekap))
                 = Rekap.parts_in_deficit df_rekap).
  { symmetry. apply filter_length_perm, Hperm. }
  assert (Hred : List.length (filter Rekap.below_zero top)
                 = Nat.min 10 (Rekap.parts_in_deficit df_rekap)).
  { unfold top, Rekap.top_critical_parts.
    rewrite (RekapFacts.deficit_is_a_prefix Hstrong 10), Hdef. reflexivity. }
  split; [|split; [|split]].
  - unfold top, Rekap.top_critical_parts, Rekap.total_parts.
    rewrite length_firstn, (Permutation_length Hperm). reflexivity.
  - intros a b Ha Hb.
    exact (StronglySorted_firstn_skipn Hstrong 10 a b Ha Hb).
  - rewrite red_is_below_zero. exact Hred.
  - intros Hle p Hin Hneg.
    apply (Permutation_in _ Hperm) in Hin.
    rewrite <- (firstn_skipn 10 (sort_values df_rekap)) in Hin, Hdef.
    apply in_app_or in Hin. destruct Hin as [Hin | Hin]; [exact Hin|].
    exfalso. rewrite filter_app, length_app in Hdef.
    change (firstn 10 (sort_values df_rekap)) with top in Hdef.
    rewrite Hred in Hdef.
    assert (Hp : In p (filter Rekap.below_zero
                               (skipn 10 (sort_values df_rekap))))
      by (apply filter_In; split; assumption).
    destruct (filter Rekap.below_zero
                     (skipn 10 (sort_values df_rekap))); [destruct Hp|].
    cbn [List.length] in Hdef. lia.
Qed.

(** Three parts, one blank: the dashboard counts one deficit and one
    surplus, and shows the deficit first, in red. *)
Lemma top_critical_parts_are_the_lowest_witness :
  let to_numeric := fun cell : option string =>
    match cell with
    | Some "5" => 5%float
    | Some "-3" => (-3)%float
    | _ => nan
    end in
  let rows := [Rekap.RekapRow (Some "K0J-1") (Some "Baut") (Some "A") (Some "5");
               Rekap.RekapRow (Some "K0J-2") (Some "Mur") (Some "A") None;
               Rekap.RekapRow (Some "K0J-3") (Some "Pin") (Some "B") (Some "-3")] in
  let df_rekap := Rekap.with_Stock_Health to_numeric rows in
  map Rekap.Stock_Health
      (Rekap.top_critical_parts Rekap.sort_by_health df_rekap)
    = [(-3)%float; 0%float; 5%float] /\
  List.length (Rekap.top_critical_parts Rekap.sort_by_health df_rekap)
    = Nat.min 10 (Rekap.total_parts df_rekap).
Proof.
  intros to_numeric rows df_rekap. split; [reflexivity|].
  apply (@top_critical_parts_are_the_lowest Rekap.sort_by_health
           RekapFacts.sort_by_health_sorts to_numeric rows).
Defined.
